(** * Order transaction core of the dairy-farm storefront

    A shallow embedding of the order router of [server/routes]
    (POST /api/orders/create, POST /api/orders/verify-payment,
    PUT /api/orders/:id/cancel and PUT /api/orders/admin/:id/status) over
    the tables [products], [orders] and [order_items] of the schema.

    Modelling conventions.
    - A table with an integer primary key is a finite map from the key to the
      row; [order_items] is kept as the list of its rows in insertion order.
    - DECIMAL(10,2) amounts are integers counting hundredths (paise).  The
      route computes the total in JavaScript numbers and MySQL rounds it to
      two decimals on insertion; the embedding takes that computation as
      exact fixed-point arithmetic.
    - INT columns are unbounded integers: the range checks of the storage
      engine are outside the model, as are the timestamp columns.
    - A transaction works on a copy of the tables.  [commit] publishes the
      copy, [rollback] restores the tables as they were at
      [beginTransaction]; the AUTO_INCREMENT counters are never restored.
    - The payment gateway and the HMAC are not part of the repository: the
      gateway call is an argument of the route (it either returns an order or
      throws), the keyed hash and the secret are section variables. *)

From stdpp Require Import base gmap list strings.
From Stdlib Require Import ZArith.

Local Open Scope Z_scope.

(** ** Schema *)

Inductive payment_status_t := pending | completed | failed | refunded.
Inductive order_status_t :=
  placed | confirmed | processing | shipped | delivered | cancelled.
Inductive category_t := milk | paneer | buttermilk | ghee | curd | other.
Inductive unit_t := liter | kg | piece | packet.

Global Instance payment_status_eq_dec : EqDecision payment_status_t.
Proof. solve_decision. Defined.
Global Instance order_status_eq_dec : EqDecision order_status_t.
Proof. solve_decision. Defined.

(** Rows of [products]; the key [product_id] is the key of the map. *)
Module Product.
Record t := mk {
  name : string;
  description : option string;
  price : Z;
  stock : Z;
  image_url : option string;
  category : category_t;
  unit : unit_t;
  is_active : bool
}.

(** [SET stock = e]: every other column keeps its value. *)
Definition set_stock (s : Z) (p : t) : t :=
  mk (name p) (description p) (price p) s (image_url p) (category p)
     (unit p) (is_active p).
End Product.

(** Rows of [orders]; the key [order_id] is the key of the map. *)
Module Order.
Record t := mk {
  user_id : Z;
  total_amount : Z;
  payment_status : payment_status_t;
  payment_id : option string;
  order_status : order_status_t;
  delivery_address : string;
  phone : string
}.

Definition set_order_status (s : order_status_t) (o : t) : t :=
  mk (user_id o) (total_amount o) (payment_status o) (payment_id o) s
     (delivery_address o) (phone o).

(** [SET payment_status = ?, payment_id = ?, order_status = ?]. *)
Definition set_payment (ps : payment_status_t) (pid : string)
    (s : order_status_t) (o : t) : t :=
  mk (user_id o) (total_amount o) ps (Some pid) s
     (delivery_address o) (phone o).
End Order.

(** Rows of [order_items]. *)
Module OrderItem.
Record t := mk {
  item_id : Z;
  order_id : Z;
  product_id : Z;
  quantity : Z;
  price : Z
}.
End OrderItem.

(** The database: the three tables and the two AUTO_INCREMENT counters the
    order routes draw from. *)
Record db := mkdb {
  products : gmap Z Product.t;
  orders : gmap Z Order.t;
  order_items : list OrderItem.t;
  orders_auto_increment : Z;
  order_items_auto_increment : Z
}.

(** [connection.rollback()]: the tables return to their state at
    [beginTransaction] ([committed]); the counters stay where the
    transaction ([working]) left them. *)
Definition rollback (committed working : db) : db :=
  mkdb (products committed) (orders committed) (order_items committed)
       (orders_auto_increment working) (order_items_auto_increment working).

(** [connection.commit()]. *)
Definition commit (working : db) : db := working.

(** ** Statements issued by the routes *)

(** [SELECT product_id, name, price, stock FROM products
     WHERE product_id = ? AND is_active = true] *)
Definition select_active_product (d : db) (product_id : Z) : option Product.t :=
  match products d !! product_id with
  | Some p => if Product.is_active p then Some p else None
  | None => None
  end.

(** [INSERT INTO orders (user_id, total_amount, delivery_address, phone)];
    the remaining columns take the defaults of the schema
    ([payment_status] 'pending', [payment_id] NULL, [order_status] 'placed').
    Returns [insertId] with the new state. *)
Definition insert_order (user_id total_amount : Z)
    (delivery_address phone : string) (d : db) : Z * db :=
  let insertId := orders_auto_increment d in
  (insertId,
   mkdb (products d)
        (<[insertId := Order.mk user_id total_amount pending None placed
                         delivery_address phone]> (orders d))
        (order_items d)
        (insertId + 1) (order_items_auto_increment d)).

(** [INSERT INTO order_items (order_id, product_id, quantity, price)] *)
Definition insert_order_item (order_id product_id quantity price : Z)
    (d : db) : db :=
  mkdb (products d) (orders d)
       (order_items d ++
          [OrderItem.mk (order_items_auto_increment d) order_id product_id
                        quantity price])
       (orders_auto_increment d) (order_items_auto_increment d + 1).

(** [UPDATE products SET stock = stock - ? WHERE product_id = ?] *)
Definition decrement_stock (quantity product_id : Z) (d : db) : db :=
  mkdb (alter (λ p, Product.set_stock (Product.stock p - quantity) p)
              product_id (products d))
       (orders d) (order_items d)
       (orders_auto_increment d) (order_items_auto_increment d).

(** [UPDATE products SET stock = stock + ? WHERE product_id = ?] *)
Definition increment_stock (quantity product_id : Z) (d : db) : db :=
  mkdb (alter (λ p, Product.set_stock (Product.stock p + quantity) p)
              product_id (products d))
       (orders d) (order_items d)
       (orders_auto_increment d) (order_items_auto_increment d).

(** [SELECT * FROM orders WHERE order_id = ? AND user_id = ?] *)
Definition select_order_of_user (d : db) (order_id user_id : Z)
    : option Order.t :=
  match orders d !! order_id with
  | Some o => if decide (Order.user_id o = user_id) then Some o else None
  | None => None
  end.

(** [SELECT product_id, quantity FROM order_items WHERE order_id = ?] *)
Definition select_order_items (d : db) (order_id : Z) : list OrderItem.t :=
  filter (λ it, OrderItem.order_id it = order_id) (order_items d).

(** [UPDATE orders SET order_status = ? WHERE order_id = ?] *)
Definition update_order_status (s : order_status_t) (order_id : Z) (d : db)
    : db :=
  mkdb (products d) (alter (Order.set_order_status s) order_id (orders d))
       (order_items d)
       (orders_auto_increment d) (order_items_auto_increment d).

(** [UPDATE orders SET payment_status = ?, payment_id = ?, order_status = ?
     WHERE order_id = ? AND user_id = ?] *)
Definition update_order_payment (ps : payment_status_t) (pid : string)
    (s : order_status_t) (order_id user_id : Z) (d : db) : db :=
  mkdb (products d)
       (alter (λ o, if decide (Order.user_id o = user_id)
                    then Order.set_payment ps pid s o else o)
              order_id (orders d))
       (order_items d)
       (orders_auto_increment d) (order_items_auto_increment d).

(** ** Requests and responses *)

(** An entry of [req.body.items]. *)
Module Item.
Record t := mk { product_id : Z; quantity : Z }.
End Item.

(** Body of POST /api/orders/create.  [delivery_address] is the value the
    handler sees, that is after the [trim()] sanitizer of the validation
    chain. *)
Module CreateBody.
Record t := mk {
  items : list Item.t;
  delivery_address : string;
  phone : string
}.
End CreateBody.

(** The objects pushed on [orderItems]. *)
Module Line.
Record t := mk {
  product_id : Z;
  quantity : Z;
  price : Z;
  name : string
}.
End Line.

(** Argument and result of [razorpay.orders.create]. *)
Module Razorpay.
Record request := mk_request {
  req_amount : Z;        (* amount in paise *)
  req_currency : string;
  receipt_order_id : Z;  (* receipt: `order_${orderId}` *)
  notes_order_id : Z;
  notes_user_id : Z
}.
Record order := mk_order {
  id : string;
  amount : Z;
  currency : string
}.
(** The remote call: [None] when the promise rejects. *)
Definition orders_create := request → option order.
End Razorpay.

(** [data] of the 201 response. *)
Module Created.
Record t := mk {
  order_id : Z;
  total_amount : Z;
  items : list Line.t;
  razorpay_order : Razorpay.order;
  razorpay_key_id : string
}.
End Created.

(** Responses of POST /api/orders/create. *)
Inductive create_response :=
  | ValidationFailed                               (* 400 *)
  | ProductNotFound (product_id : Z)               (* 400 *)
  | InsufficientStock (name : string) (available : Z)  (* 400 *)
  | OrderCreated (data : Created.t)                (* 201 *)
  | ServerErrorCreatingOrder.                      (* 500, the catch block *)

Definition create_status (r : create_response) : Z :=
  match r with
  | ValidationFailed | ProductNotFound _ | InsufficientStock _ _ => 400
  | OrderCreated _ => 201
  | ServerErrorCreatingOrder => 500
  end.

(** Body of POST /api/orders/verify-payment. *)
Module VerifyBody.
Record t := mk {
  razorpay_order_id : string;
  razorpay_payment_id : string;
  razorpay_signature : string;
  order_id : Z
}.
End VerifyBody.

(** Responses of POST /api/orders/verify-payment. *)
Inductive verify_response :=
  | InvalidPaymentSignature    (* 400 *)
  | PaymentVerified.           (* 200 *)

Definition verify_success (r : verify_response) : bool :=
  match r with PaymentVerified => true | InvalidPaymentSignature => false end.

Definition verify_message (r : verify_response) : string :=
  match r with
  | InvalidPaymentSignature => "Invalid payment signature"
  | PaymentVerified => "Payment verified successfully"
  end.

(** Responses of PUT /api/orders/:id/cancel. *)
Inductive cancel_response :=
  | OrderNotFound              (* 404 *)
  | CannotBeCancelled          (* 400, InvalidState in the specification *)
  | OrderCancelled.            (* 200 *)

Global Instance cancel_response_eq_dec : EqDecision cancel_response.
Proof. solve_decision. Defined.

Definition cancel_message (r : cancel_response) : string :=
  match r with
  | OrderNotFound => "Order not found"
  | CannotBeCancelled => "Order cannot be cancelled at this stage"
  | OrderCancelled => "Order cancelled successfully"
  end.

(** Responses of PUT /api/orders/admin/:id/status. *)
Inductive status_response :=
  | StatusOrderNotFound        (* 404 *)
  | StatusUpdated.             (* 200 *)

(** ** The routes *)

(** Outcome of the first loop of the create route. *)
Inductive validation_outcome :=
  | Validated (totalAmount : Z) (orderItems : list Line.t)
  | NotFound (product_id : Z)
  | Insufficient (name : string) (available : Z).

(** The loop "Validate products and calculate total": every item is looked
    up among the active products and compared with the stock read there;
    [totalAmount] and [orderItems] are the two accumulators. *)
Fixpoint validate_products (d : db) (items : list Item.t)
    (totalAmount : Z) (orderItems : list Line.t) : validation_outcome :=
  match items with
  | [] => Validated totalAmount orderItems
  | item :: rest =>
      match select_active_product d (Item.product_id item) with
      | None => NotFound (Item.product_id item)
      | Some productData =>
          if Product.stock productData <? Item.quantity item
          then Insufficient (Product.name productData)
                            (Product.stock productData)
          else
            let itemTotal := Product.price productData * Item.quantity item in
            validate_products d rest (totalAmount + itemTotal)
              (orderItems ++
                 [Line.mk (Item.product_id item) (Item.quantity item)
                          (Product.price productData)
                          (Product.name productData)])
      end
  end.

(** The loop "Insert order items and update stock". *)
Fixpoint insert_items_and_update_stock (orderId : Z)
    (orderItems : list Line.t) (d : db) : db :=
  match orderItems with
  | [] => d
  | item :: rest =>
      let d1 := insert_order_item orderId (Line.product_id item)
                  (Line.quantity item) (Line.price item) d in
      let d2 := decrement_stock (Line.quantity item) (Line.product_id item)
                  d1 in
      insert_items_and_update_stock orderId rest d2
  end.

(** The loop "Restore stock" of the cancel route. *)
Fixpoint restore_stock (orderItems : list OrderItem.t) (d : db) : db :=
  match orderItems with
  | [] => d
  | item :: rest =>
      restore_stock rest
        (increment_stock (OrderItem.quantity item)
                         (OrderItem.product_id item) d)
  end.

Section Routes.

(** What the routes take from their environment. *)
Context (isMobilePhone : string → bool).
Context (RAZORPAY_KEY_ID RAZORPAY_KEY_SECRET : string).
(** [crypto.createHmac('sha256', key).update(body).digest('hex')] *)
Context (hmac_sha256_hex : string → string → string).

(** [orderValidation]: [validationResult(req).isEmpty()]. *)
Definition orderValidation (body : CreateBody.t) : bool :=
  bool_decide (1 ≤ length (CreateBody.items body))%nat
  && forallb (λ it, bool_decide (1 ≤ Item.product_id it)
                    && bool_decide (1 ≤ Item.quantity it))
             (CreateBody.items body)
  && bool_decide (10 ≤ String.length (CreateBody.delivery_address body)
                  ≤ 500)%nat
  && isMobilePhone (CreateBody.phone body).

(** POST /api/orders/create, [placeOrder] in the specification. *)
Definition placeOrder (razorpay_orders_create : Razorpay.orders_create)
    (user_id : Z) (body : CreateBody.t) (d : db) : create_response * db :=
  if negb (orderValidation body) then (ValidationFailed, rollback d d)
  else
    match validate_products d (CreateBody.items body) 0 [] with
    | NotFound product_id => (ProductNotFound product_id, rollback d d)
    | Insufficient name available =>
        (InsufficientStock name available, rollback d d)
    | Validated totalAmount orderItems =>
        let '(orderId, d1) :=
          insert_order user_id totalAmount
            (CreateBody.delivery_address body) (CreateBody.phone body) d in
        let d2 := insert_items_and_update_stock orderId orderItems d1 in
        match razorpay_orders_create
                (Razorpay.mk_request totalAmount "INR" orderId orderId
                                     user_id) with
        | None => (ServerErrorCreatingOrder, rollback d d2)
        | Some razorpayOrder =>
            (OrderCreated
               (Created.mk orderId totalAmount orderItems razorpayOrder
                           RAZORPAY_KEY_ID),
             commit d2)
        end
    end.

(** POST /api/orders/verify-payment, [verifyPayment] in the
    specification. *)
Definition expectedSignature (body : VerifyBody.t) : string :=
  hmac_sha256_hex RAZORPAY_KEY_SECRET
    (VerifyBody.razorpay_order_id body ++ "|"
       ++ VerifyBody.razorpay_payment_id body)%string.

Definition verifyPayment (user_id : Z) (body : VerifyBody.t) (d : db)
    : verify_response * db :=
  if decide (expectedSignature body ≠ VerifyBody.razorpay_signature body)
  then (InvalidPaymentSignature, d)
  else
    (PaymentVerified,
     update_order_payment completed (VerifyBody.razorpay_payment_id body)
       confirmed (VerifyBody.order_id body) user_id d).

End Routes.

(** PUT /api/orders/:id/cancel, [cancelOrder] in the specification. *)
Definition cancelOrder (id user_id : Z) (d : db) : cancel_response * db :=
  match select_order_of_user d id user_id with
  | None => (OrderNotFound, rollback d d)
  | Some orderData =>
      if negb (bool_decide (Order.order_status orderData ∈ [placed; confirmed]))
      then (CannotBeCancelled, rollback d d)
      else
        let orderItems := select_order_items d id in
        let d1 := restore_stock orderItems d in
        let d2 := update_order_status cancelled id d1 in
        (OrderCancelled, commit d2)
  end.

(** PUT /api/orders/admin/:id/status. *)
Definition updateOrderStatus (id : Z) (status : order_status_t) (d : db)
    : status_response * db :=
  let d1 := update_order_status status id d in
  match orders d !! id with
  | None => (StatusOrderNotFound, d1)
  | Some _ => (StatusUpdated, d1)
  end.

(** ** Quantities and totals *)

(** Sum of [qty x] over the entries of [l] that refer to product [pid]. *)
Definition quantity_for {A} (key qty : A → Z) (pid : Z) (l : list A) : Z :=
  foldr (λ x acc, if decide (key x = pid) then qty x + acc else acc) 0 l.

(** What a cart orders of product [pid]. *)
Definition cart_quantity : Z → list Item.t → Z :=
  quantity_for Item.product_id Item.quantity.

Definition lines_quantity : Z → list Line.t → Z :=
  quantity_for Line.product_id Line.quantity.

(** What the rows of [order_items] record for product [pid]. *)
Definition recorded_quantity : Z → list OrderItem.t → Z :=
  quantity_for OrderItem.product_id OrderItem.quantity.

(** Sum over the line items of quantity × price. *)
Definition items_total (l : list OrderItem.t) : Z :=
  foldr (λ it acc, OrderItem.quantity it * OrderItem.price it + acc) 0 l.

Definition lines_total (l : list Line.t) : Z :=
  foldr (λ it acc, Line.price it * Line.quantity it + acc) 0 l.

(** The product an item refers to is active and its stock covers the
    quantity. *)
Definition sufficient (d : db) (it : Item.t) : Prop :=
  ∃ p, products d !! Item.product_id it = Some p
       ∧ Product.is_active p = true
       ∧ Item.quantity it ≤ Product.stock p.

(** The line pushed on [orderItems] for a cart item and the product read
    for it. *)
Definition line_of (it : Item.t) (p : Product.t) : Line.t :=
  Line.mk (Item.product_id it) (Item.quantity it) (Product.price p)
          (Product.name p).

(** A row of [order_items] written for a line of order [orderId]. *)
Definition row_of (orderId : Z) (line : Line.t) (row : OrderItem.t) : Prop :=
  OrderItem.order_id row = orderId
  ∧ OrderItem.product_id row = Line.product_id line
  ∧ OrderItem.quantity row = Line.quantity line
  ∧ OrderItem.price row = Line.price line.

(** The same tables, whatever the counters. *)
Definition same_tables (d d' : db) : Prop :=
  products d' = products d ∧ orders d' = orders d
  ∧ order_items d' = order_items d.

(** ** Relations between carts, lines and rows *)

(** [line] is what the first loop pushes for [it] when the product read for
    it passes both checks. *)
Definition read_line (d : db) (it : Item.t) (line : Line.t) : Prop :=
  ∃ p, products d !! Item.product_id it = Some p
       ∧ Product.is_active p = true
       ∧ Item.quantity it ≤ Product.stock p
       ∧ line = line_of it p.


(** The request sent to the gateway for an order. *)
Definition intent_request (user_id : Z) (data : Created.t)
    : Razorpay.request :=
  Razorpay.mk_request (Created.total_amount data) "INR"
    (Created.order_id data) (Created.order_id data) user_id.

(** The state a successful cancellation commits. *)
Definition cancelled_state (id : Z) (d : db) : db :=
  update_order_status cancelled id (restore_stock (select_order_items d id) d).

(** ** The routes as a transition system *)

(** Ids come from the counter and every row of [order_items] belongs to an
    order (the foreign key of the schema). *)
Definition consistent (d : db) : Prop :=
  (∀ id o, orders d !! id = Some o → id < orders_auto_increment d)
  ∧ (∀ row, row ∈ order_items d →
       is_Some (orders d !! OrderItem.order_id row)).

(** Every order is unpaid or paid. *)
Definition pending_or_completed (d : db) : Prop :=
  ∀ id o, orders d !! id = Some o →
    Order.payment_status o = pending ∨ Order.payment_status o = completed.

(** The moves the specification allows to [payment_status]. *)
Definition payment_transition (a b : payment_status_t) : Prop :=
  a = b ∨ (a = pending ∧ (b = completed ∨ b = failed)).

Section Machine.

Context (isMobilePhone : string → bool).
Context (RAZORPAY_KEY_ID RAZORPAY_KEY_SECRET : string).
Context (hmac_sha256_hex : string → string → string).

(** One request served by one of the four routes. *)
Inductive step : db → db → Prop :=
  | step_create gw user_id body d :
      step d (placeOrder isMobilePhone RAZORPAY_KEY_ID gw user_id body d).2
  | step_verify user_id body d :
      step d
        (verifyPayment RAZORPAY_KEY_SECRET hmac_sha256_hex user_id body d).2
  | step_cancel id user_id d :
      step d (cancelOrder id user_id d).2
  | step_status id status d :
      step d (updateOrderStatus id status d).2.

(** The states the routes reach from a database without orders. *)
Inductive reachable : db → Prop :=
  | reachable_init d :
      orders d = ∅ → order_items d = [] → reachable d
  | reachable_step d d' :
      reachable d → step d d' → reachable d'.

End Machine.

(** ** Sample data *)

Module Sample.
(** Product 7 of the scenarios: price 60.00, the given stock. *)
Definition cow_milk (stock : Z) : Product.t :=
  Product.mk "Fresh Cow Milk" (Some "Pure and fresh cow milk") 6000 stock
             None milk liter true.

Definition shop (stock : Z) : db := mkdb {[ 7 := cow_milk stock ]} ∅ [] 1 1.

Definition cart : CreateBody.t :=
  CreateBody.mk [Item.mk 7 3] "12 Farm Road, Pune" "9876543210".

(** The same product on two lines. *)
Definition double_cart : CreateBody.t :=
  CreateBody.mk [Item.mk 7 3; Item.mk 7 3] "12 Farm Road, Pune"
                "9876543210".

Definition isMobilePhone (s : string) : bool :=
  bool_decide (String.length s = 10%nat).

Definition key_id : string := "rzp_test_key".
Definition key_secret : string := "secret".

(** A stand-in for the keyed hash. *)
Definition hmac (key body : string) : string := (key ++ ":" ++ body)%string.

Definition gateway_up : Razorpay.orders_create :=
  λ r, Some (Razorpay.mk_order "order_1" (Razorpay.req_amount r)
                               (Razorpay.req_currency r)).

Definition gateway_down : Razorpay.orders_create := λ _, None.

Definition customer : Z := 42.

(** The shop after [customer] ordered [cart] from a stock of 5. *)
Definition ordered : db :=
  (placeOrder isMobilePhone key_id gateway_up customer cart (shop 5)).2.

Definition callback : VerifyBody.t :=
  VerifyBody.mk "order_1" "pay_1" "secret:order_1|pay_1" 1.

Definition forged : VerifyBody.t :=
  VerifyBody.mk "order_1" "pay_1" "0000" 1.

(** The order of [ordered] moved on to [status] by the admin route. *)
Definition moved (status : order_status_t) : db :=
  (updateOrderStatus 1 status ordered).2.

(** What the 201 response carries for [cart] at a stock of 5. *)
Definition receipt : Created.t :=
  Created.mk 1 18000 [Line.mk 7 3 6000 "Fresh Cow Milk"]
    (Razorpay.mk_order "order_1" 18000 "INR") key_id.

(** The order [ordered] holds under id 1. *)
Definition order1 : Order.t :=
  Order.mk customer 18000 pending None placed "12 Farm Road, Pune"
           "9876543210".

End Sample.

(** * The rest of the product and order router, and what it calls

    Further conventions.
    - The [users] table and the AUTO_INCREMENT counters of [products] and
      [users] sit beside the database of the order routes in a [store].
    - Bodies of the product routes are taken after the sanitizers of the
      validation chain and with their numbers read: [price] in hundredths,
      [stock] an integer.  The optional [description] is taken as present
      (the driver rejects an undefined bind parameter).
    - An accepted upload is the name of the stored file; the files
      themselves are outside the model.
    - JavaScript numbers are the integers they denote.  Where a client can
      send a number of any size (the page of GET /api/products) the
      rounding to a double is written out; elsewhere the numbers are
      counts and amounts below 2^53, where the arithmetic is exact.
    - GET /api/orders, GET /api/orders/:id and GET /api/orders/admin/all
      hand a JSON_ARRAYAGG column to [JSON.parse]; what reaches the handler
      depends on the driver and the server, and these routes are left
      out. *)

(** ** Users *)

Module User.
Inductive role_t := customer | farmer | admin.

Record t := mk {
  name : string;
  email : string;
  password : string;
  phone : option string;
  role : role_t;
  is_active : bool
}.
End User.

Global Instance role_eq_dec : EqDecision User.role_t.
Proof. solve_decision. Defined.
Global Instance category_eq_dec : EqDecision category_t.
Proof. solve_decision. Defined.
Global Instance unit_eq_dec : EqDecision unit_t.
Proof. solve_decision. Defined.

(** The database of the order routes with the [users] table and the two
    other counters. *)
Record store := mkstore {
  database : db;
  users : gmap Z User.t;
  products_auto_increment : Z;
  users_auto_increment : Z
}.

Definition set_database (d : db) (s : store) : store :=
  mkstore d (users s) (products_auto_increment s) (users_auto_increment s).

Definition set_products (ps : gmap Z Product.t) (d : db) : db :=
  mkdb ps (orders d) (order_items d)
       (orders_auto_increment d) (order_items_auto_increment d).

(** A handler of the order router run on the store. *)
Definition on_database {R} (handler : db → R * db) (s : store) : R * store :=
  let '(r, d') := handler (database s) in (r, set_database d' s).

(** ** The authentication middleware *)

(** [req.user]: the columns [verifyToken] selects. *)
Module ReqUser.
Record t := mk {
  user_id : Z;
  name : string;
  email : string;
  role : User.role_t;
  is_active : bool
}.
End ReqUser.

(** The responses with which the middleware ends a request. *)
Inductive auth_response :=
  | NoTokenProvided            (* 401 *)
  | InvalidTokenOrInactive     (* 401 *)
  | InvalidToken               (* 401, the catch block *)
  | AdminRequired              (* 403 *)
  | FarmerRequired             (* 403 *)
  | CustomerRequired.          (* 403 *)

Definition auth_status (r : auth_response) : Z :=
  match r with
  | NoTokenProvided | InvalidTokenOrInactive | InvalidToken => 401
  | AdminRequired | FarmerRequired | CustomerRequired => 403
  end.

Fixpoint string_drop (n : nat) (s : string) : string :=
  match n, s with
  | O, _ => s
  | S n', String _ s' => string_drop n' s'
  | S _, EmptyString => EmptyString
  end.

(** [s.replace(pat, '')] with a string pattern: the first occurrence of
    [pat] is removed. *)
Fixpoint remove_first (pat s : string) : string :=
  if String.prefix pat s then string_drop (String.length pat) s
  else
    match s with
    | EmptyString => EmptyString
    | String c s' => String c (remove_first pat s')
    end.

(** [verifyToken].  [jwt_verify] is [jwt.verify(token, JWT_SECRET)] followed
    by [.userId]: [None] when the call throws, and for a payload without a
    [userId], where the query throws in its place; both end in the [catch]
    block. *)
Definition verifyToken (jwt_verify : string → option Z)
    (authorization : option string) (s : store)
    : auth_response + ReqUser.t :=
  match authorization with
  | None => inl NoTokenProvided
  | Some header =>
      let token := remove_first "Bearer " header in
      if decide (token = "") then inl NoTokenProvided
      else
        match jwt_verify token with
        | None => inl InvalidToken
        | Some userId =>
            match users s !! userId with
            | None => inl InvalidTokenOrInactive
            | Some user =>
                if negb (User.is_active user) then inl InvalidTokenOrInactive
                else
                  inr (ReqUser.mk userId (User.name user) (User.email user)
                                  (User.role user) (User.is_active user))
            end
        end
  end.

(** The three role guards: [None] stands for [next()]. *)
Definition requireAdmin (user : ReqUser.t) : option auth_response :=
  if decide (ReqUser.role user ≠ User.admin) then Some AdminRequired
  else None.

Definition requireFarmer (user : ReqUser.t) : option auth_response :=
  if decide (ReqUser.role user ≠ User.farmer
             ∧ ReqUser.role user ≠ User.admin)
  then Some FarmerRequired else None.

Definition requireCustomer (user : ReqUser.t) : option auth_response :=
  if decide (ReqUser.role user ≠ User.customer
             ∧ ReqUser.role user ≠ User.admin)
  then Some CustomerRequired else None.

(** A route [router.x(path, verifyToken, guard, handler)]: the handler runs
    when both middlewares call [next()]. *)
Definition protected {R} (jwt_verify : string → option Z)
    (guard : ReqUser.t → option auth_response)
    (handler : ReqUser.t → store → R * store)
    (authorization : option string) (s : store)
    : (auth_response + R) * store :=
  match verifyToken jwt_verify authorization s with
  | inl r => (inl r, s)
  | inr user =>
      match guard user with
      | Some r => (inl r, s)
      | None => let '(r, s') := handler user s in (inr r, s')
      end
  end.

(** ** The product routes *)

(** Body of POST and PUT /api/products. *)
Module ProductBody.
Record t := mk {
  name : string;
  description : string;
  price : Z;
  stock : Z;
  category : string;
  unit : string
}.
End ProductBody.

Definition category_names : list string :=
  ["milk"; "paneer"; "buttermilk"; "ghee"; "curd"; "other"].

Definition unit_names : list string := ["liter"; "kg"; "piece"; "packet"].

(** The value an ENUM column takes for a string. *)
Definition category_of_string (s : string) : option category_t :=
  if decide (s = "milk") then Some milk
  else if decide (s = "paneer") then Some paneer
  else if decide (s = "buttermilk") then Some buttermilk
  else if decide (s = "ghee") then Some ghee
  else if decide (s = "curd") then Some curd
  else if decide (s = "other") then Some other
  else None.

Definition unit_of_string (s : string) : option unit_t :=
  if decide (s = "liter") then Some liter
  else if decide (s = "kg") then Some kg
  else if decide (s = "piece") then Some piece
  else if decide (s = "packet") then Some packet
  else None.

Definition category_to_string (c : category_t) : string :=
  match c with
  | milk => "milk" | paneer => "paneer" | buttermilk => "buttermilk"
  | ghee => "ghee" | curd => "curd" | other => "other"
  end.

(** [productValidation]: [validationResult(req).isEmpty()]. *)
Definition productValidation (body : ProductBody.t) : bool :=
  bool_decide (2 ≤ String.length (ProductBody.name body) ≤ 100)%nat
  && bool_decide (String.length (ProductBody.description body) ≤ 1000)%nat
  && bool_decide (0 ≤ ProductBody.price body)
  && bool_decide (0 ≤ ProductBody.stock body)
  && bool_decide (ProductBody.category body ∈ category_names)
  && bool_decide (ProductBody.unit body ∈ unit_names).

(** [`/uploads/products/${req.file.filename}`] *)
Definition upload_url (filename : string) : string :=
  ("/uploads/products/" ++ filename)%string.

Inductive add_response :=
  | AddProductInvalid                                  (* 400 *)
  | ProductAdded (product_id : Z) (image_url : option string).  (* 201 *)

Inductive update_response :=
  | UpdateProductInvalid       (* 400 *)
  | UpdateProductMissing       (* 404 *)
  | ProductUpdated.            (* 200 *)

Inductive delete_response :=
  | DeleteProductMissing       (* 404 *)
  | ProductDeleted.            (* 200 *)

Inductive get_response :=
  | GetProductMissing          (* 404 *)
  | ProductFound (product : Product.t).   (* 200 *)

(** POST /api/products.  The new row takes the default of [is_active]. *)
Definition addProduct (file : option string) (body : ProductBody.t)
    (s : store) : add_response * store :=
  if negb (productValidation body) then (AddProductInvalid, s)
  else
    match category_of_string (ProductBody.category body),
          unit_of_string (ProductBody.unit body) with
    | Some category, Some unit =>
        let image_url := upload_url <$> file in
        let insertId := products_auto_increment s in
        (ProductAdded insertId image_url,
         mkstore
           (set_products
              (<[insertId :=
                   Product.mk (ProductBody.name body)
                     (Some (ProductBody.description body))
                     (ProductBody.price body) (ProductBody.stock body)
                     image_url category unit true]>
                 (products (database s)))
              (database s))
           (users s) (insertId + 1) (users_auto_increment s))
    | _, _ => (AddProductInvalid, s)   (* excluded by the validation *)
    end.

(** [SET name = ?, description = ?, price = ?, stock = ?, category = ?,
     unit = ?], and [image_url = ?] when a file came with the request. *)
Definition set_product_fields (body : ProductBody.t) (category : category_t)
    (unit : unit_t) (file : option string) (p : Product.t) : Product.t :=
  Product.mk (ProductBody.name body) (Some (ProductBody.description body))
    (ProductBody.price body) (ProductBody.stock body)
    (match file with
     | Some filename => Some (upload_url filename)
     | None => Product.image_url p
     end)
    category unit (Product.is_active p).

(** PUT /api/products/:id. *)
Definition updateProduct (id : Z) (file : option string)
    (body : ProductBody.t) (s : store) : update_response * store :=
  if negb (productValidation body) then (UpdateProductInvalid, s)
  else
    match products (database s) !! id with
    | None => (UpdateProductMissing, s)
    | Some existingProduct =>
        match category_of_string (ProductBody.category body),
              unit_of_string (ProductBody.unit body) with
        | Some category, Some unit =>
            (ProductUpdated,
             set_database
               (set_products
                  (alter (set_product_fields body category unit file) id
                         (products (database s)))
                  (database s))
               s)
        | _, _ => (UpdateProductInvalid, s)   (* excluded by the validation *)
        end
    end.

(** [SET is_active = false] *)
Definition deactivate (p : Product.t) : Product.t :=
  Product.mk (Product.name p) (Product.description p) (Product.price p)
    (Product.stock p) (Product.image_url p) (Product.category p)
    (Product.unit p) false.

(** DELETE /api/products/:id, a soft delete. *)
Definition deleteProduct (id : Z) (s : store) : delete_response * store :=
  let s1 :=
    set_database
      (set_products (alter deactivate id (products (database s)))
                    (database s)) s in
  match products (database s) !! id with
  | None => (DeleteProductMissing, s1)
  | Some _ => (ProductDeleted, s1)
  end.

(** GET /api/products/:id. *)
Definition getProduct (id : Z) (s : store) : get_response :=
  match select_active_product (database s) id with
  | None => GetProductMissing
  | Some product => ProductFound product
  end.

(** ** GET /api/products: the page arithmetic *)

(** White space [parseInt] skips (the ASCII part of it). *)
Definition is_white_space (c : Ascii.ascii) : bool :=
  let n := Ascii.N_of_ascii c in
  ((9 <=? n) && (n <=? 13) || (n =? 32))%N.

Definition digit_of (c : Ascii.ascii) : option Z :=
  let n := Ascii.N_of_ascii c in
  if ((48 <=? n) && (n <=? 57))%N then Some (Z.of_N n - 48) else None.

Fixpoint skip_white_space (s : string) : string :=
  match s with
  | String c s' => if is_white_space c then skip_white_space s' else s
  | EmptyString => s
  end.

(** The digits at the front of [s], read in base ten on top of [acc];
    [None] as long as no digit was read. *)
Fixpoint read_digits (s : string) (acc : option Z) : option Z :=
  match s with
  | String c s' =>
      match digit_of c with
      | Some dg => read_digits s' (Some (10 * default 0 acc + dg))
      | None => acc
      end
  | EmptyString => acc
  end.

(** [parseInt(s, 10)]: [None] is NaN.  A sign ('-' is code 45, '+' code
    43) may come before the digits. *)
Definition parseInt (s : string) : option Z :=
  match skip_white_space s with
  | String c s' =>
      if (Ascii.N_of_ascii c =? 45)%N then Z.opp <$> read_digits s' None
      else if (Ascii.N_of_ascii c =? 43)%N then read_digits s' None
      else read_digits (String c s') None
  | EmptyString => None
  end.

(** [q || dflt] for a query parameter: absent and empty are falsy. *)
Definition or_string (q : option string) (dflt : string) : string :=
  match q with
  | Some s => if decide (s = "") then dflt else s
  | None => dflt
  end.

(** [n || dflt] for a number: NaN and 0 are falsy. *)
Definition or_number (n : option Z) (dflt : Z) : Z :=
  match n with
  | Some n => if decide (n = 0) then dflt else n
  | None => dflt
  end.

(** The numbers of the route are doubles.  Every integer below 2^53 in
    absolute value is one; above, a double is a multiple of a power of two
    with a significand of 53 bits.  [infinity] stands for Infinity: it is
    above every finite double and compares with them as Infinity does. *)
Definition infinity : Z := 2 ^ 1024.

(** The double nearest to the integer [x >= 0], ties to the even
    significand, Infinity from 2^1024 - 2^970 on. *)
Definition round_double (x : Z) : Z :=
  if x <? 2 ^ 53 then x
  else
    let e := Z.log2 x - 52 in
    let q := x / 2 ^ e in
    let r := x mod 2 ^ e in
    let half := 2 ^ (e - 1) in
    let q' := if r <? half then q
              else if half <? r then q + 1
              else if Z.even q then q else q + 1 in
    Z.min infinity (q' * 2 ^ e).

(** The Number value of an integer: what [parseInt] returns for the integer
    its digits denote (rounded correctly, as Node does; the language lets an
    implementation be less exact from the 21st digit on, where the offset is
    past 2^53 either way), and what [-] and [*] return for the exact
    result. *)
Definition to_double (x : Z) : Z :=
  if x <? 0 then - round_double (- x) else round_double x.

Definition pageNum (page : option string) : Z :=
  Z.max 1 (or_number (to_double <$> parseInt (or_string page "1")) 1).

(** The limit is clamped to 1..100, where every integer is a double: the
    rounding of [parseInt] cannot be seen in it. *)
Definition limitNum (limit : option string) : Z :=
  Z.max 1 (Z.min (or_number (parseInt (or_string limit "10")) 10) 100).

(** [(pageNum - 1) * limitNum], each operation rounded. *)
Definition offsetNum (page limit : option string) : Z :=
  to_double (to_double (pageNum page - 1) * limitNum limit).

(** [LIMIT limit OFFSET offset] on the rows a query selects. *)
Definition limit_offset {A} (limit offset : Z) (rows : list A) : list A :=
  take (Z.to_nat limit) (drop (Z.to_nat offset) rows).

(** [Math.ceil(a / b)] *)
Definition ceil_div (a b : Z) : Z := - ((- a) / b).

Module Pagination.
Record t := mk {
  currentPage : Z;
  totalPages : Z;
  totalProducts : Z;
  hasNext : bool;
  hasPrev : bool
}.
End Pagination.

(** The [pagination] object of the response, from the count query. *)
Definition pagination (page limit : option string) (totalProducts : Z)
    : Pagination.t :=
  Pagination.mk (pageNum page)
    (ceil_div totalProducts (limitNum limit))
    totalProducts
    (bool_decide (pageNum page * limitNum limit < totalProducts))
    (bool_decide (pageNum page > 1)).

Inductive products_response (A : Type) :=
  | ProductsPage (products : list A) (pagination : Pagination.t)  (* 200 *)
  | ServerErrorFetchingProducts                                   (* 500 *)
  | OffsetNotFollowed.
Arguments ProductsPage {A} products pagination.
Arguments ServerErrorFetchingProducts {A}.
Arguments OffsetNotFollowed {A}.

(** GET /api/products for one request.  [rows] are the rows the WHERE
    clause selects, in the order the ORDER BY of this request's query puts
    them (rows with the same [created_at] come in the order MySQL chooses
    for the query at hand, so [rows] belongs to one request).  The route
    inlines the offset as the text of the double: below 2^53 that is the
    decimal of the number itself; from 10^21 on it is an exponent form or
    'Infinity', which is not SQL, and the [catch] block answers; in
    between the digits are not those of the number and what MySQL makes
    of them is left open, [OffsetNotFollowed]. *)
Definition products_page {A} (page limit : option string) (rows : list A)
    : products_response A :=
  let offset := offsetNum page limit in
  if bool_decide (offset < 2 ^ 53) then
    ProductsPage (limit_offset (limitNum limit) offset rows)
                 (pagination page limit (Z.of_nat (length rows)))
  else if bool_decide (10 ^ 21 ≤ offset) then ServerErrorFetchingProducts
  else OffsetNotFollowed.

(** ** GET /api/products/categories/list *)

Definition all_categories : list category_t :=
  [milk; paneer; buttermilk; ghee; curd; other].

(** The rows [WHERE is_active = 1] selects. *)
Definition active_products (d : db) : list (Z * Product.t) :=
  filter (λ kp, Product.is_active kp.2 = true) (map_to_list (products d)).

Definition category_count (d : db) (c : category_t) : Z :=
  Z.of_nat
    (length (filter (λ kp, Product.category kp.2 = c) (active_products d))).

(** [SELECT category, COUNT( * ) ... GROUP BY category]: one row for every
    category that has active products.  The rows are listed in the order of
    the ENUM; MySQL leaves the order of the groups open, and no fact about
    the list depends on it. *)
Definition category_groups (d : db) : list (category_t * Z) :=
  filter (λ g, 0 < g.2) ((λ c, (c, category_count d c)) <$> all_categories).

Definition toUpperCase (c : Ascii.ascii) : Ascii.ascii :=
  let n := Ascii.N_of_ascii c in
  if ((97 <=? n) && (n <=? 122))%N then Ascii.ascii_of_N (n - 32) else c.

(** [s.charAt(0).toUpperCase() + s.slice(1)] *)
Definition capitalize (s : string) : string :=
  match s with
  | String c s' => String (toUpperCase c) s'
  | EmptyString => EmptyString
  end.

Module CategoryEntry.
Record t := mk { value : string; label : string; count : Z }.
End CategoryEntry.

Definition categoriesList (d : db) : list CategoryEntry.t :=
  let categories := category_groups d in
  CategoryEntry.mk "all" "All Products"
    (foldl (λ sum cat, sum + cat.2) 0 categories)
  :: ((λ cat, CategoryEntry.mk (category_to_string cat.1)
                (capitalize (category_to_string cat.1)) cat.2)
        <$> categories).

(** ** The authentication routes *)

(** Bodies of POST /api/auth/register, POST /api/auth/login and
    PUT /api/auth/profile; [name] is the value after [trim], [email] the
    value as sent.  The optional [phone] of a registration is taken as
    present. *)
Module RegisterBody.
Record t := mk {
  name : string;
  email : string;
  password : string;
  phone : string;
  role : string
}.
End RegisterBody.

Module LoginBody.
Record t := mk { email : string; password : string }.
End LoginBody.

Module ProfileBody.
Record t := mk { name : option string; phone : option string }.
End ProfileBody.

(** [data.user] of the register and login responses. *)
Module AuthUser.
Record t := mk {
  id : Z;
  name : string;
  email : string;
  phone : option string;
  role : User.role_t
}.
End AuthUser.

Inductive register_response :=
  | RegisterInvalid                                     (* 400 *)
  | UserAlreadyExists                                   (* 400 *)
  | UserRegistered (user : AuthUser.t) (token : string).  (* 201 *)

Inductive login_response :=
  | LoginInvalid                                        (* 400 *)
  | InvalidCredentials                                  (* 400 *)
  | AccountDeactivated                                  (* 400 *)
  | LoginSuccessful (user : AuthUser.t) (token : string).  (* 200 *)

Inductive profile_response :=
  | ProfileInvalid             (* 400 *)
  | NoFieldsToUpdate           (* 400 *)
  | ProfileUpdated.            (* 200 *)

(** The roles a registration may ask for. *)
Definition register_roles : list string := ["customer"; "farmer"].

(** The value the ENUM column [role] takes for a string. *)
Definition role_of_string (s : string) : option User.role_t :=
  if decide (s = "customer") then Some User.customer
  else if decide (s = "farmer") then Some User.farmer
  else if decide (s = "admin") then Some User.admin
  else None.

(** [SELECT ... FROM users WHERE email = ?] *)
Definition users_with_email (s : store) (email : string)
    : list (Z * User.t) :=
  filter (λ ku, User.email ku.2 = email) (map_to_list (users s)).

(** [SET name = ?] and [SET phone = ?] of the profile update. *)
Definition set_user_name (name : string) (u : User.t) : User.t :=
  User.mk name (User.email u) (User.password u) (User.phone u)
          (User.role u) (User.is_active u).

Definition set_user_phone (phone : string) (u : User.t) : User.t :=
  User.mk (User.name u) (User.email u) (User.password u) (Some phone)
          (User.role u) (User.is_active u).

(** [if (v)] for an optional string of the body: absent and empty are
    falsy. *)
Definition truthy (v : option string) : option string :=
  match v with
  | Some x => if decide (x = "") then None else Some x
  | None => None
  end.

Section Auth.

(** [isEmail] validates the address as sent; [normalizeEmail] then
    replaces it in [req.body]. *)
Context (isEmail : string → bool) (normalizeEmail : string → string).
Context (isMobilePhone : string → bool).
(** [bcrypt.hash(password, salt)], [bcrypt.compare(password, hash)] and
    [jwt.sign({ userId, role }, JWT_SECRET, { expiresIn: '7d' })] at the
    time [iat] of the call. *)
Context (bcrypt_hash : string → string → string).
Context (bcrypt_compare : string → string → bool).
Context (jwt_sign : Z → User.role_t → Z → string).

Definition registerValidation (body : RegisterBody.t) : bool :=
  bool_decide (2 ≤ String.length (RegisterBody.name body) ≤ 100)%nat
  && isEmail (RegisterBody.email body)
  && bool_decide (6 ≤ String.length (RegisterBody.password body))%nat
  && isMobilePhone (RegisterBody.phone body)
  && bool_decide (RegisterBody.role body ∈ register_roles).

(** POST /api/auth/register; [salt] is what [bcrypt.genSalt(10)] drew and
    [iat] the time of the request. *)
Definition register (salt : string) (iat : Z) (body : RegisterBody.t)
    (s : store) : register_response * store :=
  let email := normalizeEmail (RegisterBody.email body) in
  if negb (registerValidation body) then (RegisterInvalid, s)
  else if bool_decide
            (0 < length (users_with_email s email))%nat
  then (UserAlreadyExists, s)
  else
    match role_of_string (RegisterBody.role body) with
    | Some role =>
        let hashedPassword := bcrypt_hash (RegisterBody.password body) salt in
        let userId := users_auto_increment s in
        (UserRegistered
           (AuthUser.mk userId (RegisterBody.name body) email
              (Some (RegisterBody.phone body)) role)
           (jwt_sign userId role iat),
         mkstore (database s)
           (<[userId :=
                User.mk (RegisterBody.name body) email
                  hashedPassword (Some (RegisterBody.phone body)) role true]>
              (users s))
           (products_auto_increment s) (userId + 1))
    | None => (RegisterInvalid, s)   (* excluded by the validation *)
    end.

Definition loginValidation (body : LoginBody.t) : bool :=
  isEmail (LoginBody.email body)
  && bool_decide (LoginBody.password body ≠ "").

(** POST /api/auth/login at time [iat]; the route writes nothing. *)
Definition login (iat : Z) (body : LoginBody.t) (s : store)
    : login_response :=
  if negb (loginValidation body) then LoginInvalid
  else
    match users_with_email s (normalizeEmail (LoginBody.email body)) with
    | [] => InvalidCredentials
    | (user_id, user) :: _ =>
        if negb (User.is_active user) then AccountDeactivated
        else if negb (bcrypt_compare (LoginBody.password body)
                                     (User.password user))
        then InvalidCredentials
        else
          LoginSuccessful
            (AuthUser.mk user_id (User.name user) (User.email user)
                         (User.phone user) (User.role user))
            (jwt_sign user_id (User.role user) iat)
    end.

Definition profileValidation (body : ProfileBody.t) : bool :=
  match ProfileBody.name body with
  | Some name => bool_decide (2 ≤ String.length name ≤ 100)%nat
  | None => true
  end
  && match ProfileBody.phone body with
     | Some phone => isMobilePhone phone
     | None => true
     end.

(** The handler of PUT /api/auth/profile. *)
Definition updateProfile (body : ProfileBody.t) (user : ReqUser.t)
    (s : store) : profile_response * store :=
  if negb (profileValidation body) then (ProfileInvalid, s)
  else
    match truthy (ProfileBody.name body), truthy (ProfileBody.phone body) with
    | None, None => (NoFieldsToUpdate, s)
    | name, phone =>
        (ProfileUpdated,
         mkstore (database s)
           (alter (λ u,
                     let u1 := match name with
                               | Some n => set_user_name n u
                               | None => u
                               end in
                     match phone with
                     | Some p => set_user_phone p u1
                     | None => u1
                     end)
                  (ReqUser.user_id user) (users s))
           (products_auto_increment s) (users_auto_increment s))
    end.

End Auth.

(** ** The writing routes of the two routers as one transition system *)

Inductive request :=
  | PostOrdersCreate (authorization : option string)
      (razorpay_orders_create : Razorpay.orders_create) (body : CreateBody.t)
  | PostOrdersVerifyPayment (authorization : option string)
      (body : VerifyBody.t)
  | PutOrdersCancel (authorization : option string) (id : Z)
  | PutOrdersAdminStatus (authorization : option string) (id : Z)
      (status : order_status_t)
  | PostProducts (authorization : option string) (file : option string)
      (body : ProductBody.t)
  | PutProducts (authorization : option string) (id : Z)
      (file : option string) (body : ProductBody.t)
  | DeleteProducts (authorization : option string) (id : Z)
  | PostAuthRegister (salt : string) (iat : Z) (body : RegisterBody.t)
  | PutAuthProfile (authorization : option string) (body : ProfileBody.t).

(** The carts of the request name every product once. *)
Definition distinct_cart (r : request) : Prop :=
  match r with
  | PostOrdersCreate _ _ body =>
      NoDup (Item.product_id <$> CreateBody.items body)
  | _ => True
  end.

Section Shop.

Context (isMobilePhone : string → bool).
Context (RAZORPAY_KEY_ID RAZORPAY_KEY_SECRET : string).
Context (hmac_sha256_hex : string → string → string).
Context (jwt_verify : string → option Z).
Context (isEmail : string → bool) (normalizeEmail : string → string).
Context (bcrypt_hash : string → string → string).
Context (jwt_sign : Z → User.role_t → Z → string).

(** POST /api/orders/create with its middlewares. *)
Definition route_orders_create (authorization : option string)
    (gw : Razorpay.orders_create) (body : CreateBody.t) :=
  protected jwt_verify requireCustomer
    (λ user, on_database
               (placeOrder isMobilePhone RAZORPAY_KEY_ID gw
                           (ReqUser.user_id user) body))
    authorization.

(** POST /api/orders/verify-payment. *)
Definition route_orders_verify_payment (authorization : option string)
    (body : VerifyBody.t) :=
  protected jwt_verify requireCustomer
    (λ user, on_database
               (verifyPayment RAZORPAY_KEY_SECRET hmac_sha256_hex
                              (ReqUser.user_id user) body))
    authorization.

(** PUT /api/orders/:id/cancel. *)
Definition route_orders_cancel (authorization : option string) (id : Z) :=
  protected jwt_verify requireCustomer
    (λ user, on_database (cancelOrder id (ReqUser.user_id user)))
    authorization.

(** PUT /api/orders/admin/:id/status. *)
Definition route_orders_admin_status (authorization : option string)
    (id : Z) (status : order_status_t) :=
  protected jwt_verify requireAdmin
    (λ _, on_database (updateOrderStatus id status)) authorization.

(** POST /api/products. *)
Definition route_products_post (authorization : option string)
    (file : option string) (body : ProductBody.t) :=
  protected jwt_verify requireAdmin (λ _, addProduct file body)
    authorization.

(** PUT /api/products/:id. *)
Definition route_products_put (authorization : option string) (id : Z)
    (file : option string) (body : ProductBody.t) :=
  protected jwt_verify requireAdmin (λ _, updateProduct id file body)
    authorization.

(** DELETE /api/products/:id. *)
Definition route_products_delete (authorization : option string) (id : Z) :=
  protected jwt_verify requireAdmin (λ _, deleteProduct id) authorization.

(** PUT /api/auth/profile: any verified user. *)
Definition route_auth_profile_put (authorization : option string)
    (body : ProfileBody.t) :=
  protected jwt_verify (λ _, None) (updateProfile isMobilePhone body)
    authorization.

(** The store after a request. *)
Definition serve (r : request) (s : store) : store :=
  match r with
  | PostOrdersCreate a gw body => (route_orders_create a gw body s).2
  | PostOrdersVerifyPayment a body => (route_orders_verify_payment a body s).2
  | PutOrdersCancel a id => (route_orders_cancel a id s).2
  | PutOrdersAdminStatus a id status =>
      (route_orders_admin_status a id status s).2
  | PostProducts a file body => (route_products_post a file body s).2
  | PutProducts a id file body => (route_products_put a id file body s).2
  | DeleteProducts a id => (route_products_delete a id s).2
  | PostAuthRegister salt iat body =>
      (register isEmail normalizeEmail isMobilePhone
        bcrypt_hash jwt_sign salt iat body s).2
  | PutAuthProfile a body => (route_auth_profile_put a body s).2
  end.

(** [s'] is reached from [s] by serving requests that are all [allowed]. *)
Inductive serves (allowed : request → Prop) : store → store → Prop :=
  | serves_none s : serves allowed s s
  | serves_more s s' r :
      serves allowed s s' → allowed r → serves allowed s (serve r s').

End Shop.

(** ** Invariants of the store *)

(** Every row of [order_items] orders at least one unit. *)
Definition rows_positive (d : db) : Prop :=
  ∀ row, row ∈ order_items d → 1 ≤ OrderItem.quantity row.

(** The total of every order is the sum over its rows of
    quantity × price. *)
Definition totals_match (d : db) : Prop :=
  ∀ id o, orders d !! id = Some o →
    Order.total_amount o = items_total (select_order_items d id).

(** No product has a negative stock. *)
Definition stock_nonneg (d : db) : Prop :=
  ∀ id p, products d !! id = Some p → 0 ≤ Product.stock p.

(** The Authorization header of a request. *)
Definition authorization_of (r : request) : option string :=
  match r with
  | PostOrdersCreate a _ _ | PostOrdersVerifyPayment a _
  | PutOrdersCancel a _ | PutOrdersAdminStatus a _ _
  | PostProducts a _ _ | PutProducts a _ _ _ | DeleteProducts a _
  | PutAuthProfile a _ => a
  | PostAuthRegister _ _ _ => None
  end.

(** The requests of the customer routes. *)
Definition customer_request (r : request) : Prop :=
  match r with
  | PostOrdersCreate _ _ _ | PostOrdersVerifyPayment _ _
  | PutOrdersCancel _ _ => True
  | _ => False
  end.

Fixpoint contains_char (c : Ascii.ascii) (s : string) : bool :=
  match s with
  | String c' s' => if Ascii.eqb c c' then true else contains_char c s'
  | EmptyString => false
  end.

(** The space character. *)
Definition space : Ascii.ascii := Ascii.ascii_of_N 32.

(** Product ids come from the counter. *)
Definition catalogue_fresh (s : store) : Prop :=
  ∀ id p, products (database s) !! id = Some p →
    id < products_auto_increment s.

(** User ids come from the counter. *)
Definition users_fresh (s : store) : Prop :=
  ∀ id u, users s !! id = Some u → id < users_auto_increment s.

(** Two rows of [users] with the same credentials and rights. *)
Definition same_account (u u' : User.t) : Prop :=
  User.email u' = User.email u
  ∧ User.password u' = User.password u
  ∧ User.role u' = User.role u
  ∧ User.is_active u' = User.is_active u.

(** ** A market for the scenarios of the further properties *)

Module Market.

(** Stand-ins for the libraries. *)
Definition isEmail (s : string) : bool :=
  contains_char (Ascii.ascii_of_N 64) s.

Definition normalizeEmail (s : string) : string := s.

Definition bcrypt_hash (password salt : string) : string :=
  (salt ++ ":" ++ password)%string.

Definition bcrypt_compare (password hash : string) : bool :=
  bool_decide (hash = bcrypt_hash password "salt").

Definition jwt_sign (userId : Z) (role : User.role_t) (iat : Z) : string :=
  if decide (userId = 1) then "token-1"
  else if decide (userId = 42) then "token-42"
  else "token-new".

Definition jwt_verify (token : string) : option Z :=
  if decide (token = "token-1") then Some 1
  else if decide (token = "token-42") then Some 42
  else if decide (token = "token-new") then Some 43
  else None.

(** The accounts: the administrator and the customer of [Sample]. *)
Definition owner : User.t :=
  User.mk "Owner" "owner@dairy.example" (bcrypt_hash "letmein" "salt") None
          User.admin true.

Definition asha : User.t :=
  User.mk "Asha" "asha@dairy.example" (bcrypt_hash "secret1" "salt")
          (Some "9876543210") User.customer true.

Definition accounts : gmap Z User.t := {[ 1 := owner; 42 := asha ]}.

(** The shop of [Sample] with its accounts, before and after the order. *)
Definition open (stock : Z) : store :=
  mkstore (Sample.shop stock) accounts 8 43.

Definition busy : store := mkstore Sample.ordered accounts 8 43.

Definition as_owner : option string := Some "Bearer token-1".
Definition as_asha : option string := Some "Bearer token-42".

Definition paneer : ProductBody.t :=
  ProductBody.mk "Malai Paneer" "Soft paneer" 9000 20 "paneer" "kg".

Definition buffalo_milk : ProductBody.t :=
  ProductBody.mk "Buffalo Milk" "Full cream" 7000 9 "milk" "liter".

Definition ravi : RegisterBody.t :=
  RegisterBody.mk "Ravi" "ravi@dairy.example" "secret2" "9123456780"
                  "farmer".

Definition ravi_user : AuthUser.t :=
  AuthUser.mk 43 "Ravi" "ravi@dairy.example" (Some "9123456780")
              User.farmer.

Definition asha_login : LoginBody.t :=
  LoginBody.mk "asha@dairy.example" "secret1".

Definition asha_user : AuthUser.t :=
  AuthUser.mk 42 "Asha" "asha@dairy.example" (Some "9876543210")
              User.customer.

Definition asha_req : ReqUser.t :=
  ReqUser.mk 42 "Asha" "asha@dairy.example" User.customer true.

Definition rename : ProfileBody.t := ProfileBody.mk (Some "Asha K") None.

End Market.

(** * Facts *)

(** ** Basic facts *)

Lemma rollback_same d : rollback d d = d.
Proof. by destruct d. Qed.

Lemma rollback_same_tables d w : same_tables d (rollback d w).
Proof. by repeat split. Qed.

Lemma set_stock_same p : Product.set_stock (Product.stock p) p = p.
Proof. by destruct p. Qed.

(** *** The stock updates *)

Lemma decrement_stock_lookup q pid d j :
  products (decrement_stock q pid d) !! j
  = if decide (pid = j)
    then (λ p, Product.set_stock (Product.stock p - q) p) <$> products d !! j
    else products d !! j.
Proof.
  unfold decrement_stock; simpl. rewrite lookup_alter.
  case_decide; by subst.
Qed.

Lemma increment_stock_lookup q pid d j :
  products (increment_stock q pid d) !! j
  = if decide (pid = j)
    then (λ p, Product.set_stock (Product.stock p + q) p) <$> products d !! j
    else products d !! j.
Proof.
  unfold increment_stock; simpl. rewrite lookup_alter.
  case_decide; by subst.
Qed.

(** The second loop of the create route subtracts from every product what
    the lines order of it. *)
Lemma insert_items_products orderId lines d pid :
  products (insert_items_and_update_stock orderId lines d) !! pid
  = (λ p, Product.set_stock (Product.stock p - lines_quantity pid lines) p)
      <$> products d !! pid.
Proof.
  revert d. induction lines as [|line lines IH]; intros d; simpl.
  - destruct (products d !! pid) as [p|]; simpl; [|done].
    by rewrite Z.sub_0_r, set_stock_same.
  - rewrite IH, decrement_stock_lookup. simpl.
    fold (lines_quantity pid lines).
    case_decide; destruct (products d !! pid) as [p|]; simpl; try done.
    f_equal. unfold Product.set_stock; simpl. f_equal. lia.
Qed.

Lemma insert_items_orders orderId lines d :
  orders (insert_items_and_update_stock orderId lines d) = orders d.
Proof. revert d. induction lines as [|l ls IH]; intros d; simpl; [done|]. by rewrite IH. Qed.

Lemma insert_items_orders_counter orderId lines d :
  orders_auto_increment (insert_items_and_update_stock orderId lines d)
  = orders_auto_increment d.
Proof. revert d. induction lines as [|l ls IH]; intros d; simpl; [done|]. by rewrite IH. Qed.

(** ... and appends one row per line, in order. *)
Lemma insert_items_order_items orderId lines d :
  ∃ rows,
    order_items (insert_items_and_update_stock orderId lines d)
    = order_items d ++ rows
    ∧ Forall2 (row_of orderId) lines rows.
Proof.
  revert d. induction lines as [|line lines IH]; intros d; simpl.
  - exists []. by rewrite app_nil_r.
  - edestruct IH as (rows & -> & Hrows). simpl.
    eexists (_ :: rows). rewrite <- app_assoc. split; [done|].
    constructor; [by repeat split | done].
Qed.

(** The loop of the cancel route adds to every product what the rows
    record of it. *)
Lemma restore_stock_products rows d pid :
  products (restore_stock rows d) !! pid
  = (λ p, Product.set_stock (Product.stock p + recorded_quantity pid rows) p)
      <$> products d !! pid.
Proof.
  revert d. induction rows as [|row rows IH]; intros d; simpl.
  - destruct (products d !! pid) as [p|]; simpl; [|done].
    by rewrite Z.add_0_r, set_stock_same.
  - rewrite IH, increment_stock_lookup.
    fold (recorded_quantity pid rows).
    case_decide; destruct (products d !! pid) as [p|]; simpl; try done.
    f_equal. unfold Product.set_stock; simpl. f_equal. lia.
Qed.

Lemma restore_stock_orders rows d : orders (restore_stock rows d) = orders d.
Proof. revert d. induction rows as [|r rs IH]; intros d; simpl; [done|]. by rewrite IH. Qed.

Lemma restore_stock_order_items rows d :
  order_items (restore_stock rows d) = order_items d.
Proof. revert d. induction rows as [|r rs IH]; intros d; simpl; [done|]. by rewrite IH. Qed.

Lemma restore_stock_counters rows d :
  orders_auto_increment (restore_stock rows d) = orders_auto_increment d
  ∧ order_items_auto_increment (restore_stock rows d)
    = order_items_auto_increment d.
Proof. revert d. induction rows as [|r rs IH]; intros d; simpl; [done|]. by rewrite !(proj1 (IH _)), !(proj2 (IH _)). Qed.

(** *** The validation loop *)


Lemma select_active_product_Some d pid p :
  select_active_product d pid = Some p
  ↔ products d !! pid = Some p ∧ Product.is_active p = true.
Proof.
  unfold select_active_product.
  destruct (products d !! pid) as [p'|]; [|by split; [|intros []]].
  destruct (Product.is_active p') eqn:Ha; split.
  - by intros [= <-].
  - by intros [[= <-] _].
  - done.
  - intros [[= <-] ?]. congruence.
Qed.

Lemma validate_products_Validated d items t acc T L :
  validate_products d items t acc = Validated T L →
  ∃ new, L = acc ++ new ∧ T = t + lines_total new
         ∧ Forall2 (read_line d) items new.
Proof.
  revert t acc. induction items as [|it items IH]; intros t acc; simpl.
  - intros [= <- <-]. exists []. rewrite app_nil_r. simpl.
    repeat split; [lia | constructor].
  - destruct (select_active_product d (Item.product_id it)) as [p|] eqn:Hsel;
      [|done].
    apply select_active_product_Some in Hsel as [Hp Ha].
    destruct (Z.ltb_spec (Product.stock p) (Item.quantity it)) as [Hlt|Hge];
      [done|].
    intros (new & -> & -> & Hnew)%IH.
    exists (line_of it p :: new). rewrite <- app_assoc. simpl.
    repeat split; [lia|]. constructor; [|done]. by exists p.
Qed.


Lemma read_line_sufficient d items lines :
  Forall2 (read_line d) items lines → Forall (sufficient d) items.
Proof.
  induction 1 as [|it line items lines (p & ? & ? & ? & _) _ IH];
    constructor; [by exists p | done].
Qed.

Lemma read_line_quantity d items lines pid :
  Forall2 (read_line d) items lines →
  lines_quantity pid lines = cart_quantity pid items.
Proof.
  induction 1 as [|it line items lines (p & _ & _ & _ & ->) _ IH];
    simpl; [done|].
  unfold lines_quantity, cart_quantity in *. simpl. by rewrite IH.
Qed.

Lemma row_of_quantity orderId lines rows pid :
  Forall2 (row_of orderId) lines rows →
  recorded_quantity pid rows = lines_quantity pid lines.
Proof.
  induction 1 as [|line row lines rows (_ & Hp & Hq & _) _ IH]; simpl; [done|].
  unfold recorded_quantity, lines_quantity in *. simpl.
  by rewrite IH, Hp, Hq.
Qed.

Lemma row_of_total orderId lines rows :
  Forall2 (row_of orderId) lines rows → items_total rows = lines_total lines.
Proof.
  induction 1 as [|line row lines rows (_ & _ & Hq & Hp) _ IH]; simpl; [done|].
  rewrite IH, Hp, Hq. lia.
Qed.



(** ** The create route *)

Lemma created_or_not r :
  (∃ data, r = OrderCreated data) ∨ (∀ data, r ≠ OrderCreated data).
Proof. destruct r; eauto. Qed.

Section Create.

Context (isMobilePhone : string → bool) (RAZORPAY_KEY_ID : string).


(** Everything a 201 response implies. *)
Lemma placeOrder_created gw user_id body d data d' :
  placeOrder isMobilePhone RAZORPAY_KEY_ID gw user_id body d = (OrderCreated data, d') →
  ∃ lines rows,
    orderValidation isMobilePhone body = true
    ∧ Forall2 (read_line d) (CreateBody.items body) lines
    ∧ Forall2 (row_of (Created.order_id data)) lines rows
    ∧ Created.order_id data = orders_auto_increment d
    ∧ Created.total_amount data = lines_total lines
    ∧ Created.items data = lines
    ∧ gw (intent_request user_id data) = Some (Created.razorpay_order data)
    ∧ orders d'
      = <[Created.order_id data :=
            Order.mk user_id (lines_total lines) pending None placed
              (CreateBody.delivery_address body) (CreateBody.phone body)]>
          (orders d)
    ∧ order_items d' = order_items d ++ rows
    ∧ (∀ pid,
         products d' !! pid
         = (λ p, Product.set_stock
                   (Product.stock p
                    - cart_quantity pid (CreateBody.items body)) p)
             <$> products d !! pid)
    ∧ orders_auto_increment d' = orders_auto_increment d + 1.
Proof.
  unfold placeOrder.
  destruct (orderValidation _ body) eqn:Hval; simpl; [|done].
  destruct (validate_products d (CreateBody.items body) 0 [])
    as [T L| |] eqn:Hloop; [|done..].
  apply validate_products_Validated in Hloop as (lines & -> & -> & Hread).
  simpl.
  destruct (gw _) as [rz|] eqn:Hgw; [|done].
  intros [= <- <-]. simpl.
  set (d1 := mkdb _ _ _ _ _).
  destruct (insert_items_order_items (orders_auto_increment d) lines d1)
    as (rows & Hrows & Hrel).
  exists lines, rows. unfold intent_request; simpl.
  unfold commit. repeat split; try done.
  - by rewrite insert_items_orders.
  - intros pid. rewrite insert_items_products. simpl.
    by rewrite (read_line_quantity d (CreateBody.items body)).
  - by rewrite insert_items_orders_counter.
Qed.

(** Every other response leaves the three tables as they were. *)
Lemma placeOrder_not_created gw user_id body d r d' :
  placeOrder isMobilePhone RAZORPAY_KEY_ID gw user_id body d = (r, d') →
  (∀ data, r ≠ OrderCreated data) →
  same_tables d d'.
Proof.
  unfold placeOrder.
  destruct (orderValidation _ body); simpl;
    [|intros [= <- <-] _; apply rollback_same_tables].
  destruct (validate_products d (CreateBody.items body) 0 [])
    as [T L| |]; try (intros [= <- <-] _; apply rollback_same_tables).
  simpl. destruct (gw _) as [rz|].
  - intros [= <- <-] Hr. by edestruct Hr.
  - intros [= <- <-] _; apply rollback_same_tables.
Qed.

(** The counter of [orders] never goes back. *)
Lemma placeOrder_counter gw user_id body d :
  orders_auto_increment d
  ≤ orders_auto_increment
      (placeOrder isMobilePhone RAZORPAY_KEY_ID gw user_id body d).2.
Proof.
  unfold placeOrder.
  destruct (orderValidation _ body); simpl; [|lia].
  destruct (validate_products d (CreateBody.items body) 0 [])
    as [T L| |]; simpl; try lia.
  destruct (gw _); simpl; unfold commit;
    rewrite insert_items_orders_counter; simpl; lia.
Qed.


(** A line whose product is missing, inactive or short of stock stops the
    first loop. *)
Lemma placeOrder_rejects gw user_id body d :
  orderValidation isMobilePhone body = true →
  ¬ Forall (sufficient d) (CreateBody.items body) →
  ∃ r, placeOrder isMobilePhone RAZORPAY_KEY_ID gw user_id body d = (r, d)
       ∧ ((∃ pid, r = ProductNotFound pid)
          ∨ (∃ name available, r = InsufficientStock name available)).
Proof.
  intros Hval Hsuf. unfold placeOrder. rewrite Hval. simpl.
  destruct (validate_products d (CreateBody.items body) 0 [])
    as [T L|pid|name available] eqn:Hloop.
  - apply validate_products_Validated in Hloop as (lines & _ & _ & Hread).
    destruct Hsuf. by eapply read_line_sufficient.
  - rewrite rollback_same. eexists; split; [done|]. left. by eexists.
  - rewrite rollback_same. eexists; split; [done|]. right. by eexists _, _.
Qed.

End Create.

(** ** The cancel route *)


Lemma cancelOrder_cancellable id user_id d o :
  orders d !! id = Some o →
  Order.user_id o = user_id →
  Order.order_status o ∈ [placed; confirmed] →
  cancelOrder id user_id d = (OrderCancelled, cancelled_state id d).
Proof.
  intros Ho Hu Hs. unfold cancelOrder, select_order_of_user.
  rewrite Ho. rewrite decide_True by done.
  by rewrite bool_decide_eq_true_2.
Qed.

Lemma cancelOrder_cancelled id user_id d d' :
  cancelOrder id user_id d = (OrderCancelled, d') →
  ∃ o, orders d !! id = Some o
       ∧ Order.user_id o = user_id
       ∧ Order.order_status o ∈ [placed; confirmed]
       ∧ d' = cancelled_state id d.
Proof.
  unfold cancelOrder, select_order_of_user.
  destruct (orders d !! id) as [o|]; [|done].
  case_decide as Hu; [|done].
  case_bool_decide as Hs; simpl; [|done].
  intros [= <-]. by exists o.
Qed.

Lemma cancelOrder_refused id user_id d r d' :
  cancelOrder id user_id d = (r, d') → r ≠ OrderCancelled → d' = d.
Proof.
  unfold cancelOrder.
  destruct (select_order_of_user d id user_id) as [o|];
    [|by intros [= <- <-]; rewrite rollback_same].
  case_bool_decide; simpl; [by intros [= <- <-]|].
  by intros [= <- <-]; rewrite rollback_same.
Qed.

Lemma cancelled_state_products id d pid :
  products (cancelled_state id d) !! pid
  = (λ p, Product.set_stock
            (Product.stock p
             + recorded_quantity pid (select_order_items d id)) p)
      <$> products d !! pid.
Proof. unfold cancelled_state; simpl. apply restore_stock_products. Qed.

Lemma cancelled_state_orders id d :
  orders (cancelled_state id d)
  = alter (Order.set_order_status cancelled) id (orders d).
Proof. unfold cancelled_state; simpl. by rewrite restore_stock_orders. Qed.

Lemma cancelled_state_order_items id d :
  order_items (cancelled_state id d) = order_items d.
Proof. unfold cancelled_state; simpl. apply restore_stock_order_items. Qed.

(** A product no row refers to is asked a quantity of zero. *)
Lemma quantity_for_absent {A} (key qty : A → Z) pid l :
  (∀ x, x ∈ l → key x ≠ pid) → quantity_for key qty pid l = 0.
Proof.
  induction l as [|x l IH]; intros Hl; simpl; [done|].
  rewrite decide_False by (apply Hl; by left).
  apply IH. intros y Hy. apply Hl. by right.
Qed.

(** The rows of an order, once the rows written for it are appended to a
    table that had none for it. *)
Lemma select_order_items_fresh d d' orderId lines rows :
  (∀ row, row ∈ order_items d → OrderItem.order_id row ≠ orderId) →
  order_items d' = order_items d ++ rows →
  Forall2 (row_of orderId) lines rows →
  select_order_items d' orderId = rows.
Proof.
  intros Hfresh Heq Hrows. unfold select_order_items.
  rewrite Heq, filter_app.
  assert (filter (λ it, OrderItem.order_id it = orderId) (order_items d) = [])
    as ->.
  { clear Heq. revert Hfresh. generalize (order_items d).
    intros l. induction l as [|x l IH]; intros Hfresh; [done|].
    rewrite filter_cons_False by (apply Hfresh; by left).
    apply IH. intros y Hy. apply Hfresh. by right. }
  simpl. clear Hfresh Heq.
  induction Hrows as [|line row lines rows (Hid & _) _ IH]; [done|].
  rewrite filter_cons_True by done. by rewrite IH.
Qed.

(** ** The verification route *)

Section Verify.

Context (RAZORPAY_KEY_SECRET : string).
Context (hmac_sha256_hex : string → string → string).

Lemma verifyPayment_valid user_id body d :
  expectedSignature RAZORPAY_KEY_SECRET hmac_sha256_hex body
  = VerifyBody.razorpay_signature body →
  verifyPayment RAZORPAY_KEY_SECRET hmac_sha256_hex user_id body d
  = (PaymentVerified,
     update_order_payment completed (VerifyBody.razorpay_payment_id body)
       confirmed (VerifyBody.order_id body) user_id d).
Proof. intros Hsig. unfold verifyPayment. by rewrite decide_False by naive_solver. Qed.

Lemma verifyPayment_invalid user_id body d :
  expectedSignature RAZORPAY_KEY_SECRET hmac_sha256_hex body
  ≠ VerifyBody.razorpay_signature body →
  verifyPayment RAZORPAY_KEY_SECRET hmac_sha256_hex user_id body d
  = (InvalidPaymentSignature, d).
Proof. intros Hsig. unfold verifyPayment. by rewrite decide_True. Qed.

End Verify.

Lemma update_order_payment_lookup ps pid s id user_id d j :
  orders (update_order_payment ps pid s id user_id d) !! j
  = if decide (id = j)
    then (λ o, if decide (Order.user_id o = user_id)
               then Order.set_payment ps pid s o else o) <$> orders d !! j
    else orders d !! j.
Proof.
  unfold update_order_payment; simpl. rewrite lookup_alter.
  case_decide; by subst.
Qed.

(** The update of the verification route applied twice is the update applied
    once. *)
Lemma update_order_payment_idemp ps pid s id user_id d :
  update_order_payment ps pid s id user_id
    (update_order_payment ps pid s id user_id d)
  = update_order_payment ps pid s id user_id d.
Proof.
  unfold update_order_payment; simpl. f_equal.
  apply map_eq; intros j.
  destruct (decide (id = j)) as [->|Hne]; [|by rewrite !lookup_alter_ne].
  rewrite !lookup_alter_eq.
  destruct (orders d !! j) as [o|]; simpl; [|done].
  f_equal. destruct (decide (Order.user_id o = user_id)) as [Hu|Hu]; simpl.
  - by rewrite decide_True.
  - by rewrite decide_False.
Qed.

(** The update touches no row when no order has both the id and the user. *)
Lemma update_order_payment_no_match ps pid s id user_id d :
  select_order_of_user d id user_id = None →
  update_order_payment ps pid s id user_id d = d.
Proof.
  unfold select_order_of_user, update_order_payment. intros Hsel.
  destruct d as [P O I n m]; simpl in *. f_equal.
  apply map_eq; intros j. rewrite lookup_alter.
  case_decide; [|done]. subst.
  destruct (O !! j) as [o|]; simpl; [|done].
  by case_decide.
Qed.





(** ** Invariants of the transition system *)

Section MachineFacts.

Context (isMobilePhone : string → bool).
Context (RAZORPAY_KEY_ID RAZORPAY_KEY_SECRET : string).
Context (hmac_sha256_hex : string → string → string).

Lemma alter_order_consistent f id d d' :
  orders d' = alter f id (orders d) →
  order_items d' = order_items d →
  orders_auto_increment d' = orders_auto_increment d →
  consistent d → consistent d'.
Proof.
  intros Ho Hi Hn [Hlt Hfk]. split.
  - intros j o. rewrite Ho, Hn. intros Hj.
    assert (is_Some (orders d !! j)) as [o0 Ho0]
      by (apply (lookup_alter_is_Some f (orders d) id j); eauto).
    eauto.
  - intros row. rewrite Ho, Hi. intros Hrow.
    apply lookup_alter_is_Some. eauto.
Qed.

Lemma step_consistent d d' :
  consistent d →
  step isMobilePhone RAZORPAY_KEY_ID RAZORPAY_KEY_SECRET hmac_sha256_hex
    d d' →
  consistent d'.
Proof.
  intros Hc Hstep. destruct Hstep as [gw u body d|u body d|id u d|id s d].
  - pose proof (placeOrder_counter isMobilePhone RAZORPAY_KEY_ID gw u body d)
      as Hcnt.
    destruct (placeOrder _ _ gw u body d) as [r d'] eqn:Hrun.
    simpl in *. destruct Hc as [Hlt Hfk].
    destruct (created_or_not r) as [[data ->]|Hr].
    + apply placeOrder_created in Hrun
        as (lines & rows & _ & _ & Hrows & Hid & _ & _ & _ & Ho & Hi & _ & Hn).
      split.
      * intros j o. rewrite Ho, Hn, Hid. rewrite lookup_insert.
        case_decide; [intros _; lia|]. intros Hj%Hlt. lia.
      * intros row. rewrite Ho, Hi, Hid. rewrite elem_of_app.
        rewrite lookup_insert. case_decide as Hk; [by eauto|].
        intros [Hold|Hnew]; [by apply Hfk|].
        destruct Hk.
        apply list_elem_of_lookup in Hnew as [i Hi'].
        destruct (Forall2_lookup_r _ _ _ _ _ Hrows Hi')
          as (line & _ & Hrow & _).
        by rewrite <- Hid.
    + eapply placeOrder_not_created in Hrun as (_ & Ho & Hi); [|done].
      split.
      * intros j o. rewrite Ho. intros Hj%Hlt. lia.
      * intros row. rewrite Ho, Hi. apply Hfk.
  - unfold verifyPayment. case_decide; simpl; [done|].
    eapply alter_order_consistent; [..|exact Hc]; done.
  - destruct (cancelOrder id u d) as [r d'] eqn:Hrun. simpl.
    destruct (decide (r = OrderCancelled)) as [->|Hr].
    + apply cancelOrder_cancelled in Hrun as (o & _ & _ & _ & ->).
      eapply alter_order_consistent; [..|exact Hc].
      * apply cancelled_state_orders.
      * apply cancelled_state_order_items.
      * unfold cancelled_state; simpl. apply restore_stock_counters.
    + by rewrite (cancelOrder_refused _ _ _ _ _ Hrun Hr).
  - unfold updateOrderStatus.
    assert (consistent (update_order_status s id d))
      by (eapply alter_order_consistent; [..|exact Hc]; done).
    by destruct (orders d !! id).
Qed.

Lemma step_pending_or_completed d d' :
  pending_or_completed d →
  step isMobilePhone RAZORPAY_KEY_ID RAZORPAY_KEY_SECRET hmac_sha256_hex
    d d' →
  pending_or_completed d'.
Proof.
  intros Hp Hstep. destruct Hstep as [gw u body d|u body d|id u d|id s d].
  - destruct (placeOrder _ _ gw u body d) as [r d'] eqn:Hrun. simpl.
    destruct r as [| | |data|];
      try (eapply placeOrder_not_created in Hrun as (_ & Ho & _);
           [|done]; intros j o; rewrite Ho; apply Hp).
    apply placeOrder_created in Hrun
      as (lines & rows & _ & _ & _ & _ & _ & _ & _ & Ho & _).
    intros j o. rewrite Ho, lookup_insert.
    case_decide; [intros [= <-]; by left | apply Hp].
  - unfold verifyPayment. case_decide; simpl; [done|].
    intros j o. rewrite update_order_payment_lookup.
    case_decide; [|apply Hp].
    destruct (orders d !! j) as [o0|] eqn:Hj; simpl; [|done].
    intros [= <-]. case_decide; [by right | by eapply Hp].
  - destruct (cancelOrder id u d) as [r d'] eqn:Hrun. simpl.
    destruct (decide (r = OrderCancelled)) as [->|Hr].
    + apply cancelOrder_cancelled in Hrun as (o & _ & _ & _ & ->).
      intros j o'. rewrite cancelled_state_orders, lookup_alter.
      case_decide; [|apply Hp]. subst.
      destruct (orders d !! j) as [o0|] eqn:Hj; simpl; [|done].
      intros [= <-]. simpl. by eapply Hp.
    + by rewrite (cancelOrder_refused _ _ _ _ _ Hrun Hr).
  - assert (pending_or_completed (update_order_status s id d)).
    { intros j o'. unfold update_order_status; simpl. rewrite lookup_alter.
      case_decide; [|apply Hp]. subst.
      destruct (orders d !! j) as [o0|] eqn:Hj; simpl; [|done].
      intros [= <-]. simpl. by eapply Hp. }
    unfold updateOrderStatus. by destruct (orders d !! id).
Qed.

Lemma reachable_invariant d :
  reachable isMobilePhone RAZORPAY_KEY_ID RAZORPAY_KEY_SECRET
    hmac_sha256_hex d →
  consistent d ∧ pending_or_completed d.
Proof.
  induction 1 as [d Ho Hi|d d' _ [Hc Hp] Hstep].
  - split; [split|]; intros ?; rewrite ?Ho, ?Hi.
    + intros o. by rewrite lookup_empty.
    + by intros ?%elem_of_nil.
    + intros o. by rewrite lookup_empty.
  - split; [by eapply step_consistent | by eapply step_pending_or_completed].
Qed.

End MachineFacts.

(** ** A cart without repeated products *)

Lemma quantity_for_NoDup {A} (key qty : A → Z) l x :
  NoDup (key <$> l) → x ∈ l → quantity_for key qty (key x) l = qty x.
Proof.
  induction l as [|y l IH]; intros Hnd Hx; [by apply elem_of_nil in Hx|].
  apply NoDup_cons in Hnd as [Hy Hnd]. simpl.
  apply elem_of_cons in Hx as [->|Hx].
  - rewrite decide_True by done.
    rewrite quantity_for_absent; [lia|].
    intros z Hz Hk. apply Hy. rewrite <- Hk. by apply list_elem_of_fmap_2.
  - rewrite decide_False; [by apply IH|].
    intros Hk. apply Hy. rewrite Hk. by apply list_elem_of_fmap_2.
Qed.

(** ** Properties of the create route *)

Section CreateProperties.

Context (isMobilePhone : string → bool) (RAZORPAY_KEY_ID : string).

(** C2.  Whatever response other than 201 the create route gives, the
    tables [products], [orders] and [order_items] are as before the call.
    A valid request with a line whose product is missing, inactive or
    short of stock gets such a response, and so does every request when
    the gateway call fails: a 201 response, the only one that commits,
    carries the order the gateway returned for this very order. *)
Theorem placeOrder_failure_rolls_back gw user_id body d r d' :
  placeOrder isMobilePhone RAZORPAY_KEY_ID gw user_id body d = (r, d') →
  ((∀ data, r ≠ OrderCreated data) → same_tables d d')
  ∧ (orderValidation isMobilePhone body = true →
     ¬ Forall (sufficient d) (CreateBody.items body) →
     ((∃ pid, r = ProductNotFound pid)
      ∨ (∃ name available, r = InsufficientStock name available))
     ∧ same_tables d d')
  ∧ ((∀ req, gw req = None) →
     (∀ data, r ≠ OrderCreated data) ∧ same_tables d d')
  ∧ (∀ data, r = OrderCreated data →
     gw (intent_request user_id data) = Some (Created.razorpay_order data)).
Proof.
  intros Hrun.
  assert (Hfail : (∀ data, r ≠ OrderCreated data) → same_tables d d')
    by (by eapply placeOrder_not_created).
  assert (Hgw : ∀ data, r = OrderCreated data →
            gw (intent_request user_id data)
            = Some (Created.razorpay_order data)).
  { intros data ->.
    by apply placeOrder_created in Hrun
      as (lines & rows & _ & _ & _ & _ & _ & _ & ? & _). }
  assert (Hrej : orderValidation isMobilePhone body = true →
            ¬ Forall (sufficient d) (CreateBody.items body) →
            ((∃ pid, r = ProductNotFound pid)
             ∨ (∃ name available, r = InsufficientStock name available))).
  { intros Hval Hsuf.
    destruct (placeOrder_rejects isMobilePhone RAZORPAY_KEY_ID gw user_id
                body d Hval Hsuf) as (r0 & Hrun0 & Hr0).
    rewrite Hrun in Hrun0. by injection Hrun0 as -> _. }
  assert (Hdown : (∀ req, gw req = None) → ∀ data, r ≠ OrderCreated data).
  { intros Hnone data Hr. specialize (Hgw data Hr).
    by rewrite Hnone in Hgw. }
  split; [done|]. split; [|split; [|done]].
  - intros Hval Hsuf. split; [by apply Hrej|].
    apply Hfail. intros data ->.
    by destruct (Hrej Hval Hsuf) as [[? ?]|(? & ? & ?)].
  - intros Hnone. split; [by apply Hdown|]. by apply Hfail, Hdown.
Qed.


End CreateProperties.

(** ** Properties of the cancel route *)

Lemma not_cancellable s :
  s ∈ [processing; shipped; delivered; cancelled] → s ∉ [placed; confirmed].
Proof.
  rewrite !elem_of_cons, !elem_of_nil.
  intros [->|[->|[->|[->|[]]]]] [?|[?|[]]]; discriminate.
Qed.

(** C5.  On an order of the caller whose status is processing, shipped,
    delivered or cancelled the cancel route answers that the order cannot be
    cancelled and leaves the database as it is.  Whatever the call, an order
    whose status differs after it was placed or confirmed before and is
    cancelled after. *)
Theorem cancelOrder_invalid_state :
  (∀ id user_id d o,
     orders d !! id = Some o →
     Order.user_id o = user_id →
     Order.order_status o ∈ [processing; shipped; delivered; cancelled] →
     cancelOrder id user_id d = (CannotBeCancelled, d))
  ∧ (∀ id user_id d j o o',
       orders d !! j = Some o →
       orders (cancelOrder id user_id d).2 !! j = Some o' →
       Order.order_status o' ≠ Order.order_status o →
       Order.order_status o ∈ [placed; confirmed]
       ∧ Order.order_status o' = cancelled).
Proof.
  split.
  - intros id user_id d o Ho Hu Hs. unfold cancelOrder, select_order_of_user.
    rewrite Ho, decide_True by done.
    rewrite bool_decide_eq_false_2; simpl; [by rewrite rollback_same|].
    by apply not_cancellable.
  - intros id user_id d j o o' Ho Ho' Hne.
    destruct (cancelOrder id user_id d) as [r d'] eqn:Hrun. simpl in Ho'.
    destruct (decide (r = OrderCancelled)) as [->|Hr].
    + apply cancelOrder_cancelled in Hrun as (o0 & Ho0 & _ & Hs & ->).
      rewrite cancelled_state_orders, lookup_alter in Ho'.
      case_decide; [subst|congruence].
      rewrite Ho0 in Ho'. simpl in Ho'. injection Ho' as <-.
      rewrite Ho in Ho0. injection Ho0 as <-. done.
    + rewrite (cancelOrder_refused _ _ _ _ _ Hrun Hr) in Ho'. congruence.
Qed.

(** C10.  A successful cancellation writes the status of the one order and
    the stock of the products its rows refer to, and nothing else: the
    order keeps its user, total, payment status, payment id, address and
    phone (a completed payment stays completed), every other order, the
    table [order_items], every product no row of the order refers to, and
    every column but [stock] of the others are as before. *)
Theorem cancelOrder_frame id user_id d o :
  orders d !! id = Some o →
  Order.user_id o = user_id →
  Order.order_status o ∈ [placed; confirmed] →
  ∃ d' o',
    cancelOrder id user_id d = (OrderCancelled, d')
    ∧ orders d' !! id = Some o'
    ∧ Order.order_status o' = cancelled
    ∧ Order.user_id o' = Order.user_id o
    ∧ Order.total_amount o' = Order.total_amount o
    ∧ Order.payment_status o' = Order.payment_status o
    ∧ Order.payment_id o' = Order.payment_id o
    ∧ Order.delivery_address o' = Order.delivery_address o
    ∧ Order.phone o' = Order.phone o
    ∧ (∀ j, j ≠ id → orders d' !! j = orders d !! j)
    ∧ order_items d' = order_items d
    ∧ (∀ pid,
         (∀ row, row ∈ select_order_items d id →
                 OrderItem.product_id row ≠ pid) →
         products d' !! pid = products d !! pid)
    ∧ (∀ pid p,
         products d !! pid = Some p →
         ∃ stock', products d' !! pid = Some (Product.set_stock stock' p)).
Proof.
  intros Ho Hu Hs.
  exists (cancelled_state id d), (Order.set_order_status cancelled o).
  split; [by eapply cancelOrder_cancellable|].
  split; [by rewrite cancelled_state_orders, lookup_alter_eq, Ho|].
  do 7 (split; [done|]).
  split; [|split; [|split]].
  - intros j Hj. by rewrite cancelled_state_orders, lookup_alter_ne.
  - apply cancelled_state_order_items.
  - intros pid Habs. rewrite cancelled_state_products.
    unfold recorded_quantity. rewrite quantity_for_absent by done.
    destruct (products d !! pid) as [p|]; simpl; [|done].
    by rewrite Z.add_0_r, set_stock_same.
  - intros pid p Hp. eexists. by rewrite cancelled_state_products, Hp.
Qed.

(** ** Properties of the verification route *)

Section VerifyProperties.

Context (RAZORPAY_KEY_SECRET : string).
Context (hmac_sha256_hex : string → string → string).

(** C6.  With a signature that matches, a second identical call succeeds
    like the first and leaves the state the first call produced. *)
Theorem verifyPayment_idempotent user_id body d :
  expectedSignature RAZORPAY_KEY_SECRET hmac_sha256_hex body
  = VerifyBody.razorpay_signature body →
  ∃ d1,
    verifyPayment RAZORPAY_KEY_SECRET hmac_sha256_hex user_id body d
    = (PaymentVerified, d1)
    ∧ verifyPayment RAZORPAY_KEY_SECRET hmac_sha256_hex user_id body d1
      = (PaymentVerified, d1).
Proof.
  intros Hsig. eexists. split; [by apply verifyPayment_valid|].
  rewrite verifyPayment_valid by done.
  by rewrite update_order_payment_idemp.
Qed.

(** C7.  With a signature that differs from the keyed hash of
    [razorpay_order_id + '|' + razorpay_payment_id] the route answers
    'Invalid payment signature' and the database is untouched: every
    order keeps its payment status and its order status. *)
Theorem verifyPayment_invalid_signature user_id body d :
  expectedSignature RAZORPAY_KEY_SECRET hmac_sha256_hex body
  ≠ VerifyBody.razorpay_signature body →
  ∃ r d',
    verifyPayment RAZORPAY_KEY_SECRET hmac_sha256_hex user_id body d
    = (r, d')
    ∧ r = InvalidPaymentSignature
    ∧ verify_success r = false
    ∧ d' = d
    ∧ ∀ id o, orders d !! id = Some o →
        ∃ o', orders d' !! id = Some o'
              ∧ Order.payment_status o' = Order.payment_status o
              ∧ Order.order_status o' = Order.order_status o.
Proof.
  intros Hsig. exists InvalidPaymentSignature, d.
  split; [by apply verifyPayment_invalid|].
  repeat split. intros id o Ho. by exists o.
Qed.

(** C9.  With a signature that matches but no order that has both the
    given id and the calling user (no order with that id, or one of another
    user), the route still answers 'Payment verified successfully' and the
    database is untouched. *)
Theorem verifyPayment_unknown_order_succeeds user_id body d :
  expectedSignature RAZORPAY_KEY_SECRET hmac_sha256_hex body
  = VerifyBody.razorpay_signature body →
  (∀ o, orders d !! VerifyBody.order_id body = Some o →
        Order.user_id o ≠ user_id) →
  ∃ r,
    verifyPayment RAZORPAY_KEY_SECRET hmac_sha256_hex user_id body d
    = (r, d)
    ∧ verify_success r = true
    ∧ verify_message r = "Payment verified successfully".
Proof.
  intros Hsig Hnone. exists PaymentVerified.
  rewrite verifyPayment_valid by done.
  rewrite update_order_payment_no_match; [done|].
  unfold select_order_of_user.
  destruct (orders d !! VerifyBody.order_id body) as [o|] eqn:Ho; [|done].
  rewrite decide_False; [done|]. by apply Hnone.
Qed.

End VerifyProperties.

(** ** The payment status along the transitions *)

Section MachineProperties.

Context (isMobilePhone : string → bool).
Context (RAZORPAY_KEY_ID RAZORPAY_KEY_SECRET : string).
Context (hmac_sha256_hex : string → string → string).

(** C8.  From a state the four routes reach, one more request keeps
    every order and moves its payment status only as pending to completed
    or failed, if at all; a completed payment stays completed. *)
Theorem payment_status_transitions d d' :
  reachable isMobilePhone RAZORPAY_KEY_ID RAZORPAY_KEY_SECRET
    hmac_sha256_hex d →
  step isMobilePhone RAZORPAY_KEY_ID RAZORPAY_KEY_SECRET
    hmac_sha256_hex d d' →
  ∀ id o, orders d !! id = Some o →
    ∃ o', orders d' !! id = Some o'
          ∧ payment_transition (Order.payment_status o)
                               (Order.payment_status o')
          ∧ (Order.payment_status o = completed →
             Order.payment_status o' = completed).
Proof.
  intros [[Hlt _] Hp]%reachable_invariant Hstep id o Ho.
  assert (Hsame : ∀ d0, orders d0 !! id = Some o →
            ∃ o', orders d0 !! id = Some o'
                  ∧ payment_transition (Order.payment_status o)
                                       (Order.payment_status o')
                  ∧ (Order.payment_status o = completed →
                     Order.payment_status o' = completed))
    by (intros d0 H0; exists o; repeat split; [done | by left | done]).
  destruct Hstep as [gw u body d|u body d|cid u d|sid s d].
  - destruct (placeOrder _ _ gw u body d) as [r d'] eqn:Hrun. simpl.
    destruct (created_or_not r) as [[data ->]|Hr].
    + apply placeOrder_created in Hrun
        as (lines & rows & _ & _ & _ & Hid & _ & _ & _ & Hins & _).
      apply Hsame. rewrite Hins, lookup_insert_ne; [done|].
      apply Hlt in Ho. lia.
    + eapply placeOrder_not_created in Hrun as (_ & Hsam & _); [|done].
      apply Hsame. by rewrite Hsam.
  - unfold verifyPayment. case_decide; cbn [snd]; [by apply Hsame|].
    destruct (decide (VerifyBody.order_id body = id
                      ∧ Order.user_id o = u)) as [[<- Hu]|Hno].
    + eexists. rewrite update_order_payment_lookup, decide_True by done.
      rewrite Ho. simpl. rewrite decide_True by done.
      split; [done|]. simpl. split; [|done].
      destruct (Hp _ _ Ho) as [->| ->]; [right; by split; [|left] | by left].
    + apply Hsame. rewrite update_order_payment_lookup.
      case_decide as Hid; [|done]. rewrite Ho. simpl.
      case_decide; [|done]. destruct Hno. by split.
  - destruct (cancelOrder cid u d) as [r d'] eqn:Hrun. simpl.
    destruct (decide (r = OrderCancelled)) as [->|Hr].
    + apply cancelOrder_cancelled in Hrun as (o0 & _ & _ & _ & ->).
      exists (if decide (cid = id)
              then Order.set_order_status cancelled o else o).
      rewrite cancelled_state_orders, lookup_alter.
      case_decide; subst; rewrite ?Ho; simpl; repeat split;
        done || by left.
    + rewrite (cancelOrder_refused _ _ _ _ _ Hrun Hr). by apply Hsame.
  - exists (if decide (sid = id) then Order.set_order_status s o else o).
    assert (orders (updateOrderStatus sid s d).2
            = alter (Order.set_order_status s) sid (orders d)) as ->
      by (unfold updateOrderStatus; by destruct (orders d !! sid)).
    rewrite lookup_alter.
    case_decide; subst; rewrite ?Ho; simpl; repeat split; done || by left.
Qed.

End MachineProperties.

(** ** The scenarios of the specification *)

(** C1.  The stock decrement of the create route has no condition: the
    only check of stock >= quantity is the read of the first loop, made
    line by line before any write.  A cart that names product 7 on two
    lines of three units at a stock of 5 passes that check on both lines,
    the order is created for six units and the stock is left at -1, although
    the same six units on one line are refused with 'Insufficient stock'. *)
Theorem placeOrder_oversells_repeated_product :
  Forall (sufficient (Sample.shop 5)) (CreateBody.items Sample.double_cart)
  ∧ cart_quantity 7 (CreateBody.items Sample.double_cart) = 6
  ∧ (∃ data,
       (placeOrder Sample.isMobilePhone Sample.key_id Sample.gateway_up
          Sample.customer Sample.double_cart (Sample.shop 5)).1
       = OrderCreated data
       ∧ Created.total_amount data = 36000)
  ∧ Product.stock
      <$> products
            (placeOrder Sample.isMobilePhone Sample.key_id Sample.gateway_up
               Sample.customer Sample.double_cart (Sample.shop 5)).2 !! 7
    = Some (-1)
  ∧ OrderItem.quantity
      <$> select_order_items
            (placeOrder Sample.isMobilePhone Sample.key_id Sample.gateway_up
               Sample.customer Sample.double_cart (Sample.shop 5)).2 1
    = [3; 3]
  ∧ placeOrder Sample.isMobilePhone Sample.key_id Sample.gateway_up
      Sample.customer
      (CreateBody.mk [Item.mk 7 6] "12 Farm Road, Pune" "9876543210")
      (Sample.shop 5)
    = (InsufficientStock "Fresh Cow Milk" 5, Sample.shop 5).
Proof.
  split.
  { assert (Hline : sufficient (Sample.shop 5) (Item.mk 7 3)).
    { exists (Sample.cow_milk 5). split; [reflexivity|].
      split; [reflexivity | simpl; lia]. }
    simpl. by repeat apply Forall_cons_2. }
  split; [reflexivity|].
  split; [eexists; split; vm_compute; reflexivity|].
  split; [vm_compute; reflexivity|].
  split; vm_compute; reflexivity.
Qed.

(** C2: the gateway is down; the tables of the shop are as before. *)
Lemma placeOrder_failure_rolls_back_witness :
  placeOrder Sample.isMobilePhone Sample.key_id Sample.gateway_down
    Sample.customer Sample.cart (Sample.shop 5)
  = (ServerErrorCreatingOrder, rollback (Sample.shop 5) Sample.ordered)
  ∧ same_tables (Sample.shop 5) (rollback (Sample.shop 5) Sample.ordered).
Proof.
  assert (Hrun :
    placeOrder Sample.isMobilePhone Sample.key_id Sample.gateway_down
      Sample.customer Sample.cart (Sample.shop 5)
    = (ServerErrorCreatingOrder, rollback (Sample.shop 5) Sample.ordered))
    by (vm_compute; reflexivity).
  split; [exact Hrun|].
  refine (proj1 (placeOrder_failure_rolls_back _ _ _ _ _ _ _ _ Hrun) _).
  intros data. discriminate.
Defined.


(** C5: the order has been shipped. *)
Lemma cancelOrder_invalid_state_witness :
  cancelOrder 1 Sample.customer (Sample.moved shipped)
  = (CannotBeCancelled, Sample.moved shipped).
Proof.
  refine (proj1 cancelOrder_invalid_state 1 Sample.customer
            (Sample.moved shipped)
            (Order.set_order_status shipped Sample.order1) _ _ _).
  - vm_compute. reflexivity.
  - reflexivity.
  - simpl. apply (bool_decide_unpack _). vm_compute. exact I.
Defined.

(** C6: the callback of the gateway arrives twice. *)
Lemma verifyPayment_idempotent_witness :
  ∃ d1,
    verifyPayment Sample.key_secret Sample.hmac Sample.customer
      Sample.callback Sample.ordered = (PaymentVerified, d1)
    ∧ verifyPayment Sample.key_secret Sample.hmac Sample.customer
        Sample.callback d1 = (PaymentVerified, d1).
Proof.
  apply (verifyPayment_idempotent Sample.key_secret Sample.hmac
           Sample.customer Sample.callback Sample.ordered).
  vm_compute. reflexivity.
Defined.

(** C7: a forged signature. *)
Lemma verifyPayment_invalid_signature_witness :
  verifyPayment Sample.key_secret Sample.hmac Sample.customer Sample.forged
    Sample.ordered
  = (InvalidPaymentSignature, Sample.ordered).
Proof.
  destruct (verifyPayment_invalid_signature Sample.key_secret Sample.hmac
              Sample.customer Sample.forged Sample.ordered)
    as (r & d' & Hrun & -> & _ & -> & _).
  - vm_compute. discriminate.
  - exact Hrun.
Defined.

(** C8: the order of the scenario is paid. *)
Lemma payment_status_transitions_witness :
  ∃ o',
    orders
      (verifyPayment Sample.key_secret Sample.hmac Sample.customer
         Sample.callback Sample.ordered).2 !! 1 = Some o'
    ∧ payment_transition pending (Order.payment_status o')
    ∧ (pending = completed → Order.payment_status o' = completed).
Proof.
  refine (payment_status_transitions Sample.isMobilePhone Sample.key_id
            Sample.key_secret Sample.hmac Sample.ordered _ _ _ 1
            Sample.order1 _).
  - apply (reachable_step _ _ _ _ (Sample.shop 5)).
    + apply reachable_init; reflexivity.
    + exact (step_create Sample.isMobilePhone Sample.key_id Sample.key_secret
               Sample.hmac Sample.gateway_up Sample.customer Sample.cart
               (Sample.shop 5)).
  - apply step_verify.
  - vm_compute. reflexivity.
Defined.

(** C9: a valid callback for an order of another user. *)
Lemma verifyPayment_unknown_order_succeeds_witness :
  ∃ r,
    verifyPayment Sample.key_secret Sample.hmac 43 Sample.callback
      Sample.ordered = (r, Sample.ordered)
    ∧ verify_success r = true
    ∧ verify_message r = "Payment verified successfully".
Proof.
  apply (verifyPayment_unknown_order_succeeds Sample.key_secret Sample.hmac
           43 Sample.callback Sample.ordered).
  - vm_compute. reflexivity.
  - intros o Ho. vm_compute in Ho. injection Ho as <-. simpl.
    unfold Sample.customer. lia.
Defined.

(** C10: the paid order of the scenario is cancelled. *)
Lemma cancelOrder_frame_witness :
  ∃ d' o',
    cancelOrder 1 Sample.customer
      (verifyPayment Sample.key_secret Sample.hmac Sample.customer
         Sample.callback Sample.ordered).2 = (OrderCancelled, d')
    ∧ orders d' !! 1 = Some o'
    ∧ Order.order_status o' = cancelled
    ∧ Order.payment_status o' = completed.
Proof.
  destruct (cancelOrder_frame 1 Sample.customer
              (verifyPayment Sample.key_secret Sample.hmac Sample.customer
                 Sample.callback Sample.ordered).2
              (Order.set_payment completed "pay_1" confirmed Sample.order1))
    as (d' & o' & Hrun & Ho & Hs & _ & _ & Hp & _).
  - vm_compute. reflexivity.
  - reflexivity.
  - simpl. apply (bool_decide_unpack _). vm_compute. exact I.
  - exists d', o'. repeat split; assumption.
Defined.

(** * Further properties *)

(** ** The middleware *)

Lemma on_database_snd {R} (handler : db → R * db) s :
  (on_database handler s).2 = set_database (handler (database s)).2 s.
Proof. unfold on_database. by destruct (handler (database s)). Qed.

Lemma on_database_fst {R} (handler : db → R * db) s :
  (on_database handler s).1 = (handler (database s)).1.
Proof. unfold on_database. by destruct (handler (database s)). Qed.

Lemma set_database_same s : set_database (database s) s = s.
Proof. by destruct s. Qed.

Lemma set_products_same d : set_products (products d) d = d.
Proof. by destruct d. Qed.

(** The handler of a protected route runs for a verified user the guard
    lets through, and only then. *)
Lemma protected_cases {R} jwt_verify guard
    (handler : ReqUser.t → store → R * store) authorization s :
  (∃ r, protected jwt_verify guard handler authorization s = (inl r, s)
        ∧ (verifyToken jwt_verify authorization s = inl r
           ∨ ∃ user, verifyToken jwt_verify authorization s = inr user
                     ∧ guard user = Some r))
  ∨ (∃ user, verifyToken jwt_verify authorization s = inr user
             ∧ guard user = None
             ∧ protected jwt_verify guard handler authorization s
               = (inr (handler user s).1, (handler user s).2)).
Proof.
  unfold protected.
  destruct (verifyToken jwt_verify authorization s) as [r|user] eqn:Hv.
  - left. exists r. split; [done | by left].
  - destruct (guard user) as [r|] eqn:Hg.
    + left. exists r. split; [done|]. right. by exists user.
    + right. exists user. by destruct (handler user s).
Qed.

Lemma verifyToken_user jwt_verify authorization s user :
  verifyToken jwt_verify authorization s = inr user →
  ∃ header u,
    authorization = Some header
    ∧ remove_first "Bearer " header ≠ ""
    ∧ jwt_verify (remove_first "Bearer " header)
      = Some (ReqUser.user_id user)
    ∧ users s !! ReqUser.user_id user = Some u
    ∧ User.is_active u = true
    ∧ user = ReqUser.mk (ReqUser.user_id user) (User.name u) (User.email u)
               (User.role u) true.
Proof.
  unfold verifyToken. destruct authorization as [header|]; [|done].
  case_decide as Htok; [done|].
  destruct (jwt_verify _) as [userId|] eqn:Hjwt; [|done].
  destruct (users s !! userId) as [u|] eqn:Hu; [|done].
  destruct (User.is_active u) eqn:Ha; simpl; [|done].
  intros [= <-]. exists header, u. simpl. by rewrite Ha.
Qed.

(** X1.  [verifyToken] lets a request through exactly when its header, with
    the first "Bearer " taken out, is a non-empty token that verifies to
    the id of a user who exists and is active; [req.user] then carries this
    id with the name, email and role stored for it in [users].  A user who
    has been deactivated is refused whatever the token. *)
Theorem verifyToken_accepts jwt_verify authorization s user :
  verifyToken jwt_verify authorization s = inr user
  ↔ ∃ header u,
      authorization = Some header
      ∧ remove_first "Bearer " header ≠ ""
      ∧ jwt_verify (remove_first "Bearer " header)
        = Some (ReqUser.user_id user)
      ∧ users s !! ReqUser.user_id user = Some u
      ∧ User.is_active u = true
      ∧ user = ReqUser.mk (ReqUser.user_id user) (User.name u)
                 (User.email u) (User.role u) true.
Proof.
  split; [apply verifyToken_user|].
  intros (header & u & -> & Htok & Hjwt & Hu & Ha & Huser).
  unfold verifyToken. rewrite decide_False by done.
  rewrite Hjwt, Hu, Ha. simpl. by rewrite <- Huser.
Qed.

Lemma contains_char_drop c n s :
  contains_char c s = false → contains_char c (string_drop n s) = false.
Proof.
  revert s. induction n as [|n IH]; intros [|c' s]; cbn; try done.
  destruct (Ascii.eqb c c'); [done|]. apply IH.
Qed.

Lemma prefix_Bearer_space s :
  String.prefix "Bearer " s = true → contains_char space s = true.
Proof.
  intros H. apply String.prefix_correct in H.
  do 7 (destruct s as [|? s]; [simpl in H; discriminate|]).
  simpl in H. injection H as -> -> -> -> -> -> -> _. reflexivity.
Qed.

Lemma remove_first_no_space s :
  contains_char space s = false → remove_first "Bearer " s = s.
Proof.
  induction s as [|c s IH]; intros Hs; [done|].
  cbn [remove_first].
  destruct (String.prefix "Bearer " (String c s)) eqn:Hp.
  - apply prefix_Bearer_space in Hp. congruence.
  - f_equal. apply IH. cbn [contains_char] in Hs.
    by destruct (Ascii.eqb space c).
Qed.

Lemma remove_first_unfold pat s :
  remove_first pat s
  = if String.prefix pat s then string_drop (String.length pat) s
    else match s with
         | EmptyString => EmptyString
         | String c s' => String c (remove_first pat s')
         end.
Proof. by destruct s. Qed.

Lemma prefix_app pat s : String.prefix pat (pat ++ s) = true.
Proof.
  induction pat as [|c pat IH]; simpl; [by destruct s|].
  by destruct (Ascii.ascii_dec c c).
Qed.

Lemma string_drop_app pat s : string_drop (String.length pat) (pat ++ s) = s.
Proof. induction pat as [|c pat IH]; simpl; [by destruct s | done]. Qed.

Lemma remove_first_app pat s : remove_first pat (pat ++ s) = s.
Proof. by rewrite remove_first_unfold, prefix_app, string_drop_app. Qed.

(** X2.  The "Bearer " prefix is optional: a token without a space in it
    (as every JWT is) is treated the same sent bare or after "Bearer ". *)
Theorem verifyToken_bearer_optional jwt_verify token s :
  contains_char space token = false →
  verifyToken jwt_verify (Some ("Bearer " ++ token)%string) s
  = verifyToken jwt_verify (Some token) s.
Proof.
  intros Hs. unfold verifyToken. rewrite remove_first_app.
  by rewrite remove_first_no_space.
Qed.

Lemma requireAdmin_None user :
  requireAdmin user = None ↔ ReqUser.role user = User.admin.
Proof.
  unfold requireAdmin. case_decide as H; split; done.
Qed.

Lemma requireCustomer_None user :
  requireCustomer user = None
  ↔ ReqUser.role user = User.customer ∨ ReqUser.role user = User.admin.
Proof.
  unfold requireCustomer. case_decide as H; split; try done.
  - intros [?|?]; destruct H; congruence.
  - intros _. destruct (ReqUser.role user); eauto. destruct H. by split.
Qed.

Section Access.

Context (isMobilePhone : string → bool).
Context (RAZORPAY_KEY_ID RAZORPAY_KEY_SECRET : string).
Context (hmac_sha256_hex : string → string → string).
Context (jwt_verify : string → option Z).
Context (isEmail : string → bool) (normalizeEmail : string → string).
Context (bcrypt_hash : string → string → string).
Context (jwt_sign : Z → User.role_t → Z → string).

(** X3.  Registration apart, a request changes the store only for a
    verified caller with the right role: an active admin, an active
    customer on one of the three customer routes of the order router, or any
    active user on the own profile.  Requests without a token, with a token
    that does not verify, of unknown or deactivated users, and requests of
    farmers to the product and order routes leave everything as it is. *)
Theorem serve_needs_rights r s :
  serve isMobilePhone RAZORPAY_KEY_ID RAZORPAY_KEY_SECRET hmac_sha256_hex
    jwt_verify isEmail normalizeEmail bcrypt_hash jwt_sign r s ≠ s →
  (∃ salt iat body, r = PostAuthRegister salt iat body)
  ∨ ∃ user u,
      verifyToken jwt_verify (authorization_of r) s = inr user
      ∧ users s !! ReqUser.user_id user = Some u
      ∧ User.is_active u = true
      ∧ ReqUser.role user = User.role u
      ∧ (User.role u = User.admin
         ∨ (User.role u = User.customer ∧ customer_request r)
         ∨ (∃ a body, r = PutAuthProfile a body)).
Proof.
  intros Hne.
  assert (Hreg : (∃ salt iat body, r = PostAuthRegister salt iat body)
                 ∨ ¬ (∃ salt iat body, r = PostAuthRegister salt iat body)).
  { destruct r; try (right; by intros (? & ? & ? & [=])).
    left. by eexists _, _, _. }
  destruct Hreg as [Hreg|Hreg]; [by left|right].
  assert (Hcase : ∃ user,
    verifyToken jwt_verify (authorization_of r) s = inr user
    ∧ (ReqUser.role user = User.admin
       ∨ (ReqUser.role user = User.customer ∧ customer_request r)
       ∨ (∃ a body, r = PutAuthProfile a body))).
  { destruct r as [a gw b|a b|a id|a id st|a f b|a id f b|a id|salt iat b|a b];
      cbn [serve authorization_of customer_request] in *.
    8: { destruct Hreg. by eexists _, _, _. }
    all: match type of Hne with
         | (?route).2 ≠ _ =>
             unfold route_orders_create, route_orders_verify_payment,
               route_orders_cancel, route_orders_admin_status,
               route_products_post, route_products_put,
               route_products_delete, route_auth_profile_put in Hne
         end.
    all: match type of Hne with
         | (protected ?j ?g ?h ?au ?st).2 ≠ _ =>
             destruct (protected_cases j g h au st)
               as [(r0 & Hrun & _)|(user & Hv & Hg & _)];
               [by rewrite Hrun in Hne|]
         end.
    all: exists user; split; [done|].
    1-3: apply requireCustomer_None in Hg as [?|?];
         [right; left|left]; done.
    1-4: left; by apply requireAdmin_None.
    right; right. by eexists _, _. }
  destruct Hcase as (user & Hv & Hrole).
  destruct (verifyToken_user _ _ _ _ Hv)
    as (header & u & _ & _ & _ & Hu & Ha & Huser).
  exists user, u. split; [done|]. split; [done|]. split; [done|].
  assert (ReqUser.role user = User.role u) as Hr by (by rewrite Huser).
  split; [done|]. by rewrite <- Hr.
Qed.

End Access.

(** ** The product routes *)

Lemma category_of_string_names s :
  s ∈ category_names ↔ is_Some (category_of_string s).
Proof.
  unfold category_names. split.
  - intros Hin.
    repeat (apply elem_of_cons in Hin as [->|Hin]; [by eexists|]).
    by apply elem_of_nil in Hin.
  - unfold category_of_string.
    repeat (case_decide; [subst; intros _; by repeat constructor|]).
    by intros [? [=]].
Qed.

Lemma unit_of_string_names s :
  s ∈ unit_names ↔ is_Some (unit_of_string s).
Proof.
  unfold unit_names. split.
  - intros Hin.
    repeat (apply elem_of_cons in Hin as [->|Hin]; [by eexists|]).
    by apply elem_of_nil in Hin.
  - unfold unit_of_string.
    repeat (case_decide; [subst; intros _; by repeat constructor|]).
    by intros [? [=]].
Qed.

Lemma category_to_of_string s c :
  category_of_string s = Some c → category_to_string c = s.
Proof.
  unfold category_of_string.
  repeat case_decide; intros [= <-]; by subst.
Qed.

(** What a body that passes [productValidation] satisfies. *)
Lemma productValidation_true body :
  productValidation body = true →
  (2 ≤ String.length (ProductBody.name body) ≤ 100)%nat
  ∧ (String.length (ProductBody.description body) ≤ 1000)%nat
  ∧ 0 ≤ ProductBody.price body
  ∧ 0 ≤ ProductBody.stock body
  ∧ (∃ c, category_of_string (ProductBody.category body) = Some c)
  ∧ (∃ u, unit_of_string (ProductBody.unit body) = Some u).
Proof.
  unfold productValidation. rewrite !andb_true_iff, !bool_decide_eq_true.
  intros (((((? & ?) & ?) & ?) & Hc) & Hu).
  apply category_of_string_names in Hc. apply unit_of_string_names in Hu.
  repeat split; try done; lia.
Qed.

Lemma addProduct_added file body s id url s' :
  addProduct file body s = (ProductAdded id url, s') →
  ∃ c u,
    productValidation body = true
    ∧ category_of_string (ProductBody.category body) = Some c
    ∧ unit_of_string (ProductBody.unit body) = Some u
    ∧ id = products_auto_increment s
    ∧ url = upload_url <$> file
    ∧ s' = mkstore
             (set_products
                (<[id := Product.mk (ProductBody.name body)
                           (Some (ProductBody.description body))
                           (ProductBody.price body) (ProductBody.stock body)
                           url c u true]>
                   (products (database s)))
                (database s))
             (users s) (id + 1) (users_auto_increment s).
Proof.
  unfold addProduct.
  destruct (productValidation body) eqn:Hval; simpl; [|done].
  destruct (category_of_string _) as [c|]; [|done].
  destruct (unit_of_string _) as [u|]; [|done].
  intros [= <- <- <-]. by exists c, u.
Qed.

Lemma addProduct_refused file body s s' :
  addProduct file body s = (AddProductInvalid, s') → s' = s.
Proof.
  unfold addProduct.
  destruct (productValidation body); simpl; [|by intros [= <-]].
  destruct (category_of_string _); [|by intros [= <-]].
  destruct (unit_of_string _); [done | by intros [= <-]].
Qed.

Lemma updateProduct_updated id file body s s' :
  updateProduct id file body s = (ProductUpdated, s') →
  ∃ p c u,
    productValidation body = true
    ∧ products (database s) !! id = Some p
    ∧ category_of_string (ProductBody.category body) = Some c
    ∧ unit_of_string (ProductBody.unit body) = Some u
    ∧ s' = set_database
             (set_products
                (alter (set_product_fields body c u file) id
                       (products (database s)))
                (database s)) s.
Proof.
  unfold updateProduct.
  destruct (productValidation body) eqn:Hval; simpl; [|done].
  destruct (products (database s) !! id) as [p|]; [|done].
  destruct (category_of_string _) as [c|]; [|done].
  destruct (unit_of_string _) as [u|]; [|done].
  intros [= <-]. by exists p, c, u.
Qed.

Lemma updateProduct_refused id file body s r s' :
  updateProduct id file body s = (r, s') → r ≠ ProductUpdated → s' = s.
Proof.
  unfold updateProduct.
  destruct (productValidation body); simpl; [|by intros [= <- <-]].
  destruct (products (database s) !! id); [|by intros [= <- <-]].
  destruct (category_of_string _); [|by intros [= <- <-]].
  destruct (unit_of_string _); [|by intros [= <- <-]].
  by intros [= <- <-].
Qed.

Lemma deleteProduct_store id s :
  (deleteProduct id s).2
  = set_database
      (set_products (alter deactivate id (products (database s)))
                    (database s)) s.
Proof. unfold deleteProduct. by destruct (products (database s) !! id). Qed.

(** X4.  A product added by POST /api/products is read back by
    GET /api/products/:id under the id the response carries, active and
    with the name, description, price, stock, category, unit of the body
    and the url of the upload; price and stock are never negative.  The
    rows that were in [products] and the other tables are untouched. *)
Theorem addProduct_then_getProduct file body s id url s' :
  catalogue_fresh s →
  addProduct file body s = (ProductAdded id url, s') →
  (∃ p,
     getProduct id s' = ProductFound p
     ∧ Product.name p = ProductBody.name body
     ∧ Product.description p = Some (ProductBody.description body)
     ∧ Product.price p = ProductBody.price body
     ∧ Product.stock p = ProductBody.stock body
     ∧ category_to_string (Product.category p) = ProductBody.category body
     ∧ unit_of_string (ProductBody.unit body) = Some (Product.unit p)
     ∧ Product.image_url p = url
     ∧ url = upload_url <$> file
     ∧ 0 ≤ Product.price p ∧ 0 ≤ Product.stock p)
  ∧ (∀ j p, products (database s) !! j = Some p →
            products (database s') !! j = Some p)
  ∧ orders (database s') = orders (database s)
  ∧ order_items (database s') = order_items (database s)
  ∧ users s' = users s
  ∧ catalogue_fresh s'.
Proof.
  intros Hfresh Hrun.
  apply addProduct_added in Hrun as (c & u & Hval & Hc & Hu & -> & -> & ->).
  apply productValidation_true in Hval as (_ & _ & Hprice & Hstock & _).
  split.
  - eexists. unfold getProduct, select_active_product. simpl.
    rewrite lookup_insert_eq. simpl.
    repeat split; try done. by apply category_to_of_string.
  - simpl. repeat split; try done.
    + intros j p Hj. rewrite lookup_insert_ne; [done|].
      apply Hfresh in Hj. lia.
    + intros j p. simpl. rewrite lookup_insert.
      case_decide; [intros _; lia|]. intros Hj%Hfresh. lia.
Qed.


(** ** How the order routes compose *)


Lemma updateOrderStatus_snd id st d :
  (updateOrderStatus id st d).2 = update_order_status st id d.
Proof. unfold updateOrderStatus. by destruct (orders d !! id). Qed.


(** X10.  An order is cancelled once: after a successful cancellation the
    same request is refused and changes nothing, so the stock is credited
    one time only. *)
Theorem cancelOrder_twice id user_id d d1 :
  cancelOrder id user_id d = (OrderCancelled, d1) →
  cancelOrder id user_id d1 = (CannotBeCancelled, d1).
Proof.
  intros (o & Ho & Hu & _ & ->)%cancelOrder_cancelled.
  unfold cancelOrder at 1, select_order_of_user.
  rewrite cancelled_state_orders, lookup_alter_eq, Ho. simpl.
  rewrite decide_True by done.
  rewrite bool_decide_eq_false_2; simpl; [by rewrite rollback_same|].
  apply not_cancellable. by repeat constructor.
Qed.

Section VerifyComposition.

Context (RAZORPAY_KEY_SECRET : string).
Context (hmac_sha256_hex : string → string → string).

(** What a verification with a matching signature writes. *)
Lemma verifyPayment_writes user_id body d o :
  expectedSignature RAZORPAY_KEY_SECRET hmac_sha256_hex body
  = VerifyBody.razorpay_signature body →
  orders d !! VerifyBody.order_id body = Some o →
  Order.user_id o = user_id →
  verifyPayment RAZORPAY_KEY_SECRET hmac_sha256_hex user_id body d
  = (PaymentVerified,
     update_order_payment completed (VerifyBody.razorpay_payment_id body)
       confirmed (VerifyBody.order_id body) user_id d)
  ∧ orders (update_order_payment completed
              (VerifyBody.razorpay_payment_id body) confirmed
              (VerifyBody.order_id body) user_id d)
    !! VerifyBody.order_id body
    = Some (Order.mk (Order.user_id o) (Order.total_amount o) completed
              (Some (VerifyBody.razorpay_payment_id body)) confirmed
              (Order.delivery_address o) (Order.phone o)).
Proof.
  intros Hsig Ho Hu. split; [by apply verifyPayment_valid|].
  rewrite update_order_payment_lookup, decide_True, Ho by done.
  simpl. by rewrite decide_True.
Qed.

(** X11.  The verification route does not look at the state of the order.
    With a signature that matches, the caller's order with the given id
    becomes confirmed with a completed payment and the given payment id,
    whatever its status and payment status were (cancelled and delivered
    included); its user, total, address and phone, every other order and
    the tables [products] and [order_items] are untouched. *)
Theorem verifyPayment_effect user_id body d o :
  expectedSignature RAZORPAY_KEY_SECRET hmac_sha256_hex body
  = VerifyBody.razorpay_signature body →
  orders d !! VerifyBody.order_id body = Some o →
  Order.user_id o = user_id →
  ∃ d',
    verifyPayment RAZORPAY_KEY_SECRET hmac_sha256_hex user_id body d
    = (PaymentVerified, d')
    ∧ orders d' !! VerifyBody.order_id body
      = Some (Order.mk (Order.user_id o) (Order.total_amount o) completed
                (Some (VerifyBody.razorpay_payment_id body)) confirmed
                (Order.delivery_address o) (Order.phone o))
    ∧ (∀ j, j ≠ VerifyBody.order_id body → orders d' !! j = orders d !! j)
    ∧ products d' = products d
    ∧ order_items d' = order_items d.
Proof.
  intros Hsig Ho Hu.
  destruct (verifyPayment_writes user_id body d o Hsig Ho Hu) as [Hrun Hrow].
  eexists. split; [exact Hrun|]. split; [exact Hrow|]. split; [|done].
  intros j Hj. by rewrite update_order_payment_lookup, decide_False.
Qed.

(** X12.  Cancelling, verifying the payment and cancelling again credits
    the stock twice.  After a cancellation a callback with a matching
    signature puts the order back to confirmed without reserving anything,
    the order can then be cancelled once more, and every product ends with
    its stock raised by two times the quantity the order recorded for
    it. *)
Theorem cancel_verify_cancel_credits_twice user_id body d d1 :
  expectedSignature RAZORPAY_KEY_SECRET hmac_sha256_hex body
  = VerifyBody.razorpay_signature body →
  cancelOrder (VerifyBody.order_id body) user_id d = (OrderCancelled, d1) →
  ∃ d2 d3 o2,
    verifyPayment RAZORPAY_KEY_SECRET hmac_sha256_hex user_id body d1
    = (PaymentVerified, d2)
    ∧ orders d2 !! VerifyBody.order_id body = Some o2
    ∧ Order.order_status o2 = confirmed
    ∧ products d2 = products d1
    ∧ cancelOrder (VerifyBody.order_id body) user_id d2
      = (OrderCancelled, d3)
    ∧ ∀ pid,
        products d3 !! pid
        = (λ p, Product.set_stock
                  (Product.stock p
                   + 2 * recorded_quantity pid
                           (select_order_items d (VerifyBody.order_id body)))
                  p)
            <$> products d !! pid.
Proof.
  intros Hsig (o & Ho & Hu & _ & ->)%cancelOrder_cancelled.
  set (id := VerifyBody.order_id body) in *.
  set (d1 := cancelled_state id d).
  assert (Ho1 : orders d1 !! id = Some (Order.set_order_status cancelled o))
    by (unfold d1; by rewrite cancelled_state_orders, lookup_alter_eq, Ho).
  destruct (verifyPayment_writes user_id body d1 _ Hsig Ho1 Hu)
    as [Hrun2 Ho2].
  set (d2 := update_order_payment completed
               (VerifyBody.razorpay_payment_id body) confirmed id user_id
               d1) in *.
  assert (Hp2 : products d2 = products d1) by done.
  assert (Hi2 : order_items d2 = order_items d1) by done.
  exists d2, (cancelled_state id d2). eexists.
  split; [done|]. split; [exact Ho2|]. split; [done|]. split; [done|].
  split.
  - eapply cancelOrder_cancellable; [exact Ho2|done|].
    simpl. by repeat constructor.
  - intros pid. rewrite cancelled_state_products.
    unfold select_order_items at 1. rewrite Hi2, Hp2.
    unfold d1 at 2. rewrite cancelled_state_products.
    unfold d1. rewrite cancelled_state_order_items.
    fold (select_order_items d id).
    destruct (products d !! pid) as [p|]; simpl; [|done].
    f_equal. unfold Product.set_stock; simpl. f_equal. lia.
Qed.

End VerifyComposition.

(** ** The error the create route reports *)

Lemma validate_products_prefix d pre rest t acc :
  Forall (sufficient d) pre →
  ∃ t' acc',
    validate_products d (pre ++ rest) t acc
    = validate_products d rest t' acc'.
Proof.
  intros Hpre. revert t acc.
  induction Hpre as [|it pre (p & Hp & Ha & Hq) _ IH]; intros t acc; simpl.
  - by eexists _, _.
  - assert (select_active_product d (Item.product_id it) = Some p) as ->
      by by apply select_active_product_Some.
    destruct (Z.ltb_spec (Product.stock p) (Item.quantity it)); [lia|].
    apply IH.
Qed.

(** X13.  The create route reports the first line of the cart that cannot
    be served, in the order the client sent the lines: when every line
    before it finds an active product with enough stock, the answer is
    'Product with ID ... not found' if that line's product is missing or
    inactive and 'Insufficient stock for ...' with the product's name and
    stock otherwise, and the database is as before. *)
Theorem placeOrder_reports_first_failure isMobilePhone RAZORPAY_KEY_ID gw
    user_id body d pre it post :
  orderValidation isMobilePhone body = true →
  CreateBody.items body = pre ++ it :: post →
  Forall (sufficient d) pre →
  ¬ sufficient d it →
  placeOrder isMobilePhone RAZORPAY_KEY_ID gw user_id body d
  = (match select_active_product d (Item.product_id it) with
     | None => ProductNotFound (Item.product_id it)
     | Some p => InsufficientStock (Product.name p) (Product.stock p)
     end, d).
Proof.
  intros Hval Hitems Hpre Hit. unfold placeOrder. rewrite Hval, Hitems.
  simpl.
  destruct (validate_products_prefix d pre (it :: post) 0 [] Hpre)
    as (t' & acc' & ->).
  simpl.
  destruct (select_active_product d (Item.product_id it)) as [p|] eqn:Hsel;
    [|by rewrite rollback_same].
  apply select_active_product_Some in Hsel as [Hp Ha].
  destruct (Z.ltb_spec (Product.stock p) (Item.quantity it)) as [Hlt|Hge];
    [by rewrite rollback_same|].
  destruct Hit. by exists p.
Qed.

(** ** Invariants of the store *)

Lemma orderValidation_items isMobilePhone body :
  orderValidation isMobilePhone body = true →
  CreateBody.items body ≠ []
  ∧ Forall (λ it, 1 ≤ Item.product_id it ∧ 1 ≤ Item.quantity it)
           (CreateBody.items body).
Proof.
  unfold orderValidation. rewrite !andb_true_iff, bool_decide_eq_true.
  intros (((Hlen & Hall) & _) & _). split.
  - intros Hnil. rewrite Hnil in Hlen. simpl in Hlen. lia.
  - apply Forall_forall. intros it Hit.
    rewrite forallb_forall in Hall. apply list_elem_of_In in Hit.
    specialize (Hall it Hit).
    by rewrite andb_true_iff, !bool_decide_eq_true in Hall.
Qed.

(** The invariants that speak of [orders] and [order_items] only see these
    two tables and the counter of [orders]. *)
Lemma order_tables_consistent d d' :
  orders d' = orders d → order_items d' = order_items d →
  orders_auto_increment d' = orders_auto_increment d →
  consistent d → consistent d'.
Proof.
  intros Ho Hi Hn [Hlt Hfk]. split.
  - intros id o. rewrite Ho, Hn. apply Hlt.
  - intros row. rewrite Ho, Hi. apply Hfk.
Qed.

Lemma order_tables_rows_positive d d' :
  order_items d' = order_items d → rows_positive d → rows_positive d'.
Proof. intros Hi Hpos row. rewrite Hi. apply Hpos. Qed.

Lemma totals_match_alter f id d d' :
  (∀ o, Order.total_amount (f o) = Order.total_amount o) →
  orders d' = alter f id (orders d) →
  order_items d' = order_items d →
  totals_match d → totals_match d'.
Proof.
  intros Hf Ho Hi Htot j o'. unfold select_order_items.
  rewrite Ho, Hi, lookup_alter. fold (select_order_items d j).
  case_decide as Hj; [subst|apply Htot].
  destruct (orders d !! j) as [o|] eqn:Hoj; simpl; [|done].
  intros [= <-]. rewrite Hf. by apply Htot.
Qed.

Lemma order_tables_totals_match d d' :
  orders d' = orders d → order_items d' = order_items d →
  totals_match d → totals_match d'.
Proof.
  intros Ho Hi Htot j o. unfold select_order_items. rewrite Ho, Hi.
  apply Htot.
Qed.

(** The rows of an order are not those of another order. *)
Lemma select_order_items_other d d' orderId lines rows j :
  j ≠ orderId →
  order_items d' = order_items d ++ rows →
  Forall2 (row_of orderId) lines rows →
  select_order_items d' j = select_order_items d j.
Proof.
  intros Hj Heq Hrows. unfold select_order_items.
  rewrite Heq, filter_app.
  assert (filter (λ it, OrderItem.order_id it = j) rows = []) as ->;
    [|by rewrite app_nil_r].
  clear Heq. induction Hrows as [|line row lines rows (Hid & _) _ IH];
    [done|].
  rewrite filter_cons_False by congruence. done.
Qed.

Lemma row_of_positive orderId d items lines rows :
  Forall (λ it, 1 ≤ Item.product_id it ∧ 1 ≤ Item.quantity it) items →
  Forall2 (read_line d) items lines →
  Forall2 (row_of orderId) lines rows →
  Forall (λ row, 1 ≤ OrderItem.quantity row) rows.
Proof.
  intros Hpos Hread. revert rows.
  induction Hread as [|it line items lines (p & _ & _ & _ & ->) _ IH];
    intros rows Hrows; inversion Hrows as [|? row ? rows' Hrow Hrest]; subst;
    [constructor|].
  apply Forall_cons in Hpos as [[_ Hq] Hpos].
  constructor; [|by apply IH].
  destruct Hrow as (_ & _ & -> & _). done.
Qed.

Section OrderInvariants.

Context (isMobilePhone : string → bool).
Context (RAZORPAY_KEY_ID RAZORPAY_KEY_SECRET : string).
Context (hmac_sha256_hex : string → string → string).

Lemma placeOrder_rows_totals gw user_id body d :
  consistent d → rows_positive d → totals_match d →
  rows_positive
    (placeOrder isMobilePhone RAZORPAY_KEY_ID gw user_id body d).2
  ∧ totals_match
      (placeOrder isMobilePhone RAZORPAY_KEY_ID gw user_id body d).2.
Proof.
  intros [Hlt Hfk] Hpos Htot.
  destruct (placeOrder _ _ gw user_id body d) as [r d'] eqn:Hrun. simpl.
  destruct (created_or_not r) as [[data ->]|Hr].
  - apply placeOrder_created in Hrun
      as (lines & rows & Hval & Hread & Hrows & Hid & _ & _ & _ & Ho & Hi
          & _).
    apply orderValidation_items in Hval as [_ Hitems].
    split.
    + intros row. rewrite Hi, elem_of_app. intros [Hold|Hnew];
        [by apply Hpos|].
      pose proof (row_of_positive _ _ _ _ _ Hitems Hread Hrows) as Hall.
      rewrite Forall_forall in Hall. by apply Hall.
    + intros j o. rewrite Ho, lookup_insert.
      case_decide as Hj.
      * subst j. intros [= <-]. simpl.
        erewrite select_order_items_fresh; [|idtac|exact Hi|exact Hrows].
        { by rewrite (row_of_total _ _ _ Hrows). }
        intros row [o Hrow]%Hfk Heq. rewrite Heq, Hid in Hrow.
        apply Hlt in Hrow. lia.
      * intros Hoj.
        erewrite select_order_items_other; [by apply Htot|..|exact Hrows];
          done.
  - eapply placeOrder_not_created in Hrun as (_ & Ho & Hi); [|done].
    split; [by eapply order_tables_rows_positive
           | by eapply order_tables_totals_match].
Qed.

(** The three other routes of the order router write [orders] by an update
    that keeps the totals, and leave [order_items] alone. *)
Lemma order_update_cases d d' :
  step isMobilePhone RAZORPAY_KEY_ID RAZORPAY_KEY_SECRET hmac_sha256_hex
    d d' →
  (∃ gw user_id body,
     d' = (placeOrder isMobilePhone RAZORPAY_KEY_ID gw user_id body d).2)
  ∨ (order_items d' = order_items d
     ∧ ∃ f id,
         (∀ o, Order.total_amount (f o) = Order.total_amount o)
         ∧ orders d' = alter f id (orders d)).
Proof.
  intros [gw u body d0|u body d0|id u d0|id st d0].
  - left. by exists gw, u, body.
  - right. unfold verifyPayment. case_decide; simpl.
    + split; [done|]. exists Datatypes.id, 0. split; [done|].
      symmetry. by apply alter_id.
    + split; [done|]. eexists _, _. split; [|done].
      intros o. simpl. by destruct (decide (Order.user_id o = u)).
  - right. destruct (cancelOrder id u d0) as [r d1] eqn:Hrun. simpl.
    destruct (decide (r = OrderCancelled)) as [->|Hr].
    + apply cancelOrder_cancelled in Hrun as (o & _ & _ & _ & ->).
      split; [apply cancelled_state_order_items|].
      eexists _, _. split; [|apply cancelled_state_orders]. done.
    + rewrite (cancelOrder_refused _ _ _ _ _ Hrun Hr).
      split; [done|]. exists Datatypes.id, 0. split; [done|].
      symmetry. by apply alter_id.
  - right. rewrite updateOrderStatus_snd. split; [done|].
    eexists _, _. split; [|done]. done.
Qed.

Lemma step_rows_totals d d' :
  consistent d → rows_positive d → totals_match d →
  step isMobilePhone RAZORPAY_KEY_ID RAZORPAY_KEY_SECRET hmac_sha256_hex
    d d' →
  consistent d' ∧ rows_positive d' ∧ totals_match d'.
Proof.
  intros Hc Hpos Htot Hstep.
  split; [by eapply step_consistent|].
  destruct (order_update_cases _ _ Hstep)
    as [(gw & u & body & ->)|(Hi & f & id & Hf & Ho)].
  - by apply placeOrder_rows_totals.
  - split; [by eapply order_tables_rows_positive
           | by eapply totals_match_alter].
Qed.

End OrderInvariants.

Lemma quantity_for_nonneg {A} (key qty : A → Z) pid l :
  Forall (λ x, 0 ≤ qty x) l → 0 ≤ quantity_for key qty pid l.
Proof.
  induction 1 as [|x l Hx _ IH]; simpl; [done|]. case_decide; lia.
Qed.

Section StoreInvariants.

Context (isMobilePhone : string → bool).
Context (RAZORPAY_KEY_ID RAZORPAY_KEY_SECRET : string).
Context (hmac_sha256_hex : string → string → string).
Context (jwt_verify : string → option Z).
Context (isEmail : string → bool) (normalizeEmail : string → string).
Context (bcrypt_hash : string → string → string).
Context (jwt_sign : Z → User.role_t → Z → string).

(** What a request does to the store when its handler runs. *)
Lemma serve_unfold r s :
  serve isMobilePhone RAZORPAY_KEY_ID RAZORPAY_KEY_SECRET hmac_sha256_hex
    jwt_verify isEmail normalizeEmail bcrypt_hash jwt_sign r s = s
  ∨ ∃ user,
      serve isMobilePhone RAZORPAY_KEY_ID RAZORPAY_KEY_SECRET
        hmac_sha256_hex jwt_verify isEmail normalizeEmail
          bcrypt_hash jwt_sign r s
      = match r with
        | PostOrdersCreate _ gw body =>
            set_database
              (placeOrder isMobilePhone RAZORPAY_KEY_ID gw
                 (ReqUser.user_id user) body (database s)).2 s
        | PostOrdersVerifyPayment _ body =>
            set_database
              (verifyPayment RAZORPAY_KEY_SECRET hmac_sha256_hex
                 (ReqUser.user_id user) body (database s)).2 s
        | PutOrdersCancel _ id =>
            set_database
              (cancelOrder id (ReqUser.user_id user) (database s)).2 s
        | PutOrdersAdminStatus _ id status =>
            set_database (updateOrderStatus id status (database s)).2 s
        | PostProducts _ file body => (addProduct file body s).2
        | PutProducts _ id file body => (updateProduct id file body s).2
        | DeleteProducts _ id => (deleteProduct id s).2
        | PostAuthRegister salt iat body =>
            (register isEmail normalizeEmail isMobilePhone
              bcrypt_hash jwt_sign salt iat
               body s).2
        | PutAuthProfile _ body => (updateProfile isMobilePhone body user s).2
        end.
Proof.
  destruct r as [a gw b|a b|a id|a id st|a f b|a id f b|a id|salt iat b|a b];
    cbn [serve];
    unfold route_orders_create, route_orders_verify_payment,
      route_orders_cancel, route_orders_admin_status,
      route_products_post, route_products_put, route_products_delete,
      route_auth_profile_put.
  8: { right. by exists (ReqUser.mk 0 "" "" User.customer true). }
  all: match goal with
       | |- (protected ?j ?g ?h ?au ?st).2 = _ ∨ _ =>
           destruct (protected_cases j g h au st)
             as [(r0 & -> & _)|(user & _ & _ & ->)];
             [by left | right; exists user; cbn [snd]]
       end.
  all: by rewrite ?on_database_snd.
Qed.

(** The order routes change no product but in its stock. *)
Lemma step_products d d' pid :
  step isMobilePhone RAZORPAY_KEY_ID RAZORPAY_KEY_SECRET hmac_sha256_hex
    d d' →
  ∃ k, products d' !! pid
       = (λ p, Product.set_stock (Product.stock p + k) p)
           <$> products d !! pid.
Proof.
  assert (Hsame : ∀ d1 d0, products d0 = products d1 →
            ∃ k, products d0 !! pid
                 = (λ p, Product.set_stock (Product.stock p + k) p)
                     <$> products d1 !! pid).
  { intros d1 d0 ->. exists 0. destruct (products d1 !! pid) as [p|]; simpl;
      [|done]. by rewrite Z.add_0_r, set_stock_same. }
  intros Hstep. destruct Hstep as [gw u body d|u body d|id u d|id st d].
  - destruct (placeOrder _ _ gw u body d) as [r d1] eqn:Hrun. simpl.
    destruct (created_or_not r) as [[data ->]|Hr].
    + apply placeOrder_created in Hrun
        as (lines & rows & _ & _ & _ & _ & _ & _ & _ & _ & _ & Hstock & _).
      exists (- cart_quantity pid (CreateBody.items body)).
      rewrite Hstock. by destruct (products d !! pid).
    + eapply placeOrder_not_created in Hrun as (Hp & _); [|done].
      by apply Hsame.
  - apply Hsame. unfold verifyPayment. by case_decide.
  - destruct (cancelOrder id u d) as [r d1] eqn:Hrun. simpl.
    destruct (decide (r = OrderCancelled)) as [->|Hr].
    + apply cancelOrder_cancelled in Hrun as (o & _ & _ & _ & ->).
      eexists. apply cancelled_state_products.
    + rewrite (cancelOrder_refused _ _ _ _ _ Hrun Hr). by apply Hsame.
  - apply Hsame. by rewrite updateOrderStatus_snd.
Qed.

Lemma serve_invariants r s :
  consistent (database s) → catalogue_fresh s →
  rows_positive (database s) → totals_match (database s) →
  consistent
    (database (serve isMobilePhone RAZORPAY_KEY_ID RAZORPAY_KEY_SECRET
                 hmac_sha256_hex jwt_verify isEmail normalizeEmail
                   bcrypt_hash jwt_sign r s))
  ∧ catalogue_fresh
      (serve isMobilePhone RAZORPAY_KEY_ID RAZORPAY_KEY_SECRET
         hmac_sha256_hex jwt_verify isEmail normalizeEmail
           bcrypt_hash jwt_sign r s)
  ∧ rows_positive
      (database (serve isMobilePhone RAZORPAY_KEY_ID RAZORPAY_KEY_SECRET
                   hmac_sha256_hex jwt_verify isEmail normalizeEmail
                     bcrypt_hash jwt_sign r s))
  ∧ totals_match
      (database (serve isMobilePhone RAZORPAY_KEY_ID RAZORPAY_KEY_SECRET
                   hmac_sha256_hex jwt_verify isEmail normalizeEmail
                     bcrypt_hash jwt_sign r s)).
Proof.
  intros Hc Hf Hpos Htot.
  destruct (serve_unfold r s) as [->|[user ->]]; [done|].
  assert (Hstep : ∀ d',
    step isMobilePhone RAZORPAY_KEY_ID RAZORPAY_KEY_SECRET hmac_sha256_hex
      (database s) d' →
    consistent (database (set_database d' s))
    ∧ catalogue_fresh (set_database d' s)
    ∧ rows_positive (database (set_database d' s))
    ∧ totals_match (database (set_database d' s))).
  { intros d' Hstep. cbn [set_database database].
    destruct (step_rows_totals _ _ _ _ _ _ Hc Hpos Htot Hstep)
      as (? & ? & ?).
    split; [done|]. split; [|done].
    intros id p. cbn [set_database database products_auto_increment].
    destruct (step_products _ _ id Hstep) as [k ->].
    destruct (products (database s) !! id) as [p0|] eqn:Hp0; [|done].
    intros _. by eapply Hf. }
  assert (Hcat : ∀ s',
    orders (database s') = orders (database s) →
    order_items (database s') = order_items (database s) →
    orders_auto_increment (database s')
    = orders_auto_increment (database s) →
    catalogue_fresh s' →
    consistent (database s') ∧ catalogue_fresh s'
    ∧ rows_positive (database s') ∧ totals_match (database s')).
  { intros s' Ho Hi Hn Hf'.
    split; [by eapply order_tables_consistent|]. split; [done|].
    split; [by eapply order_tables_rows_positive
           | by eapply order_tables_totals_match]. }
  destruct r as [a gw b|a b|a id|a id st|a f b|a id f b|a id|salt iat b|a b].
  9: { assert (database (updateProfile isMobilePhone b user s).2 = database s
               ∧ products_auto_increment
                   (updateProfile isMobilePhone b user s).2
                 = products_auto_increment s) as [Hd Hn].
       { unfold updateProfile. destruct (profileValidation _ b); [|done].
         simpl. by destruct (truthy _), (truthy _). }
       apply Hcat; rewrite ?Hd; try done.
       intros j p. rewrite Hd, Hn. apply Hf. }
  8: { assert (database (register isEmail normalizeEmail isMobilePhone
    bcrypt_hash jwt_sign
                           salt iat b s).2 = database s
               ∧ products_auto_increment
                   (register isEmail normalizeEmail isMobilePhone
                     bcrypt_hash jwt_sign
                      salt iat b s).2
                 = products_auto_increment s) as [Hd Hn].
       { unfold register. destruct (registerValidation _ _ b); [|done].
         simpl. case_bool_decide; [done|].
         by destruct (role_of_string _). }
       apply Hcat; rewrite ?Hd; try done.
       intros j p. rewrite Hd, Hn. apply Hf. }
  - apply Hstep, step_create.
  - apply Hstep, step_verify.
  - apply Hstep, step_cancel.
  - apply Hstep, step_status.
  - destruct (addProduct f b s) as [[|pid url] s'] eqn:Hrun; simpl.
    + by rewrite (addProduct_refused _ _ _ _ Hrun).
    + apply addProduct_added in Hrun as (c & u & _ & _ & _ & -> & _ & ->).
      apply Hcat; try done.
      intros j p. simpl. rewrite lookup_insert.
      case_decide; [intros _; lia|]. intros Hj%Hf. lia.
  - destruct (updateProduct id f b s) as [r s'] eqn:Hrun; simpl.
    destruct r;
      try (by rewrite (updateProduct_refused _ _ _ _ _ _ Hrun)).
    apply updateProduct_updated in Hrun as (p & c & u & _ & Hp & _ & _ & ->).
    apply Hcat; try done.
    intros j q. simpl. intros Hj.
    assert (is_Some (products (database s) !! j)) as [q0 Hq0]
      by (eapply lookup_alter_is_Some; eauto).
    by eapply Hf.
  - rewrite deleteProduct_store. apply Hcat; try done.
    intros j q. simpl. intros Hj.
    assert (is_Some (products (database s) !! j)) as [q0 Hq0]
      by (eapply lookup_alter_is_Some; eauto).
    by eapply Hf.
Qed.

(** X14.  Whatever requests the store serves, four facts that hold at the
    start hold ever after: order ids are below the counter of [orders] and
    every row of [order_items] belongs to an order; product ids are below
    the counter of [products]; every row of [order_items] has a quantity
    of at least one; and the [total_amount] of every order is the sum of
    quantity × price over its rows. *)
Theorem store_invariants s s' :
  consistent (database s) →
  catalogue_fresh s →
  rows_positive (database s) →
  totals_match (database s) →
  serves isMobilePhone RAZORPAY_KEY_ID RAZORPAY_KEY_SECRET hmac_sha256_hex
    jwt_verify isEmail normalizeEmail bcrypt_hash jwt_sign (λ _, True) s s' →
  consistent (database s') ∧ catalogue_fresh s'
  ∧ rows_positive (database s') ∧ totals_match (database s').
Proof.
  intros Hc Hf Hpos Htot Hserves.
  induction Hserves as [s|s s' r _ IH _]; [done|].
  destruct (IH Hc Hf Hpos Htot) as (Hc' & Hf' & Hpos' & Htot').
  by apply serve_invariants.
Qed.

Lemma serve_stock_nonneg r s :
  rows_positive (database s) →
  stock_nonneg (database s) →
  distinct_cart r →
  stock_nonneg
    (database (serve isMobilePhone RAZORPAY_KEY_ID RAZORPAY_KEY_SECRET
                 hmac_sha256_hex jwt_verify isEmail normalizeEmail
                   bcrypt_hash jwt_sign r s)).
Proof.
  intros Hpos Hstock Hdistinct.
  destruct (serve_unfold r s) as [->|[user ->]]; [done|].
  destruct r as [a gw b|a b|a id|a id st|a f b|a id f b|a id|salt iat b|a b];
    cbn [distinct_cart] in Hdistinct.
  9: { assert (database (updateProfile isMobilePhone b user s).2
               = database s) as ->; [|done].
       unfold updateProfile. destruct (profileValidation _ b); [|done].
       simpl. by destruct (truthy _), (truthy _). }
  8: { assert (database (register isEmail normalizeEmail isMobilePhone
    bcrypt_hash jwt_sign
                           salt iat b s).2 = database s) as ->; [|done].
       unfold register. destruct (registerValidation _ _ b); [|done].
       simpl. case_bool_decide; [done|].
       by destruct (role_of_string _). }
  - simpl.
    destruct (placeOrder _ _ gw (ReqUser.user_id user) b (database s))
      as [r d'] eqn:Hrun. simpl.
    destruct (created_or_not r) as [[data ->]|Hr].
    + apply placeOrder_created in Hrun
        as (lines & rows & _ & Hread & _ & _ & _ & _ & _ & _ & _ & Hst & _).
      apply read_line_sufficient in Hread. rewrite Forall_forall in Hread.
      intros pid p'. rewrite Hst.
      destruct (products (database s) !! pid) as [p|] eqn:Hp; simpl; [|done].
      intros [= <-]. simpl.
      destruct (decide (pid ∈ Item.product_id <$> CreateBody.items b))
        as [Hin|Hout].
      * apply list_elem_of_fmap in Hin as (it & -> & Hit).
        unfold cart_quantity.
        rewrite (quantity_for_NoDup Item.product_id Item.quantity) by done.
        destruct (Hread it Hit) as (q & Hq & _ & Hle).
        rewrite Hp in Hq. injection Hq as <-. lia.
      * unfold cart_quantity. rewrite quantity_for_absent.
        { specialize (Hstock _ _ Hp). lia. }
        intros it Hit Heq. apply Hout. rewrite <- Heq.
        by apply list_elem_of_fmap_2.
    + eapply placeOrder_not_created in Hrun as (Hp & _); [|done].
      intros pid p. rewrite Hp. apply Hstock.
  - simpl. unfold verifyPayment. by case_decide.
  - simpl. destruct (cancelOrder id (ReqUser.user_id user) (database s))
      as [r d'] eqn:Hrun. simpl.
    destruct (decide (r = OrderCancelled)) as [->|Hr].
    + apply cancelOrder_cancelled in Hrun as (o & _ & _ & _ & ->).
      intros pid p'. rewrite cancelled_state_products.
      destruct (products (database s) !! pid) as [p|] eqn:Hp; simpl; [|done].
      intros [= <-]. simpl.
      assert (0 ≤ recorded_quantity pid
                    (select_order_items (database s) id)).
      { apply quantity_for_nonneg, Forall_forall.
        intros row Hrow. unfold select_order_items in Hrow.
        apply list_elem_of_filter in Hrow as [_ Hrow].
        apply Hpos in Hrow. lia. }
      specialize (Hstock _ _ Hp). lia.
    + by rewrite (cancelOrder_refused _ _ _ _ _ Hrun Hr).
  - simpl. by rewrite updateOrderStatus_snd.
  - destruct (addProduct f b s) as [[|pid url] s'] eqn:Hrun; simpl.
    + by rewrite (addProduct_refused _ _ _ _ Hrun).
    + apply addProduct_added in Hrun
        as (c & u & Hval & _ & _ & -> & _ & ->).
      apply productValidation_true in Hval as (_ & _ & _ & Hs & _).
      intros j p. simpl. rewrite lookup_insert.
      case_decide; [by intros [= <-] | apply Hstock].
  - destruct (updateProduct id f b s) as [r s'] eqn:Hrun; simpl.
    destruct r;
      try (by rewrite (updateProduct_refused _ _ _ _ _ _ Hrun)).
    apply updateProduct_updated in Hrun
      as (p & c & u & Hval & Hp & _ & _ & ->).
    apply productValidation_true in Hval as (_ & _ & _ & Hs & _).
    intros j q. simpl. rewrite lookup_alter.
    case_decide; [subst|apply Hstock]. rewrite Hp. simpl.
    by intros [= <-].
  - rewrite deleteProduct_store. intros j q. simpl. rewrite lookup_alter.
    case_decide; [subst|apply Hstock].
    destruct (products (database s) !! j) as [p|] eqn:Hp; simpl; [|done].
    intros [= <-]. simpl. by eapply Hstock.
Qed.

(** X15.  As long as no cart names a product on two lines, no stock goes
    below zero: from a store whose stocks are non-negative and whose rows
    of [order_items] have positive quantities, serving any requests with
    such carts leaves every product with a non-negative stock. *)
Theorem stock_stays_nonneg s s' :
  consistent (database s) →
  catalogue_fresh s →
  rows_positive (database s) →
  totals_match (database s) →
  stock_nonneg (database s) →
  serves isMobilePhone RAZORPAY_KEY_ID RAZORPAY_KEY_SECRET hmac_sha256_hex
    jwt_verify isEmail normalizeEmail bcrypt_hash jwt_sign distinct_cart s s' →
  stock_nonneg (database s').
Proof.
  intros Hc Hf Hpos Htot Hstock Hserves.
  cut ((consistent (database s') ∧ catalogue_fresh s'
        ∧ rows_positive (database s') ∧ totals_match (database s'))
       ∧ stock_nonneg (database s')); [by intros [_ ?]|].
  induction Hserves as [s|s s' r _ IH Hr]; [done|].
  destruct (IH Hc Hf Hpos Htot Hstock) as [(Hc' & Hf' & Hpos' & Htot') Hst'].
  split; [by apply serve_invariants | by apply serve_stock_nonneg].
Qed.

End StoreInvariants.

(** ** The pages of GET /api/products *)

Lemma pageNum_ge page : 1 ≤ pageNum page.
Proof. unfold pageNum. lia. Qed.

Lemma limitNum_range limit : 1 ≤ limitNum limit ≤ 100.
Proof. unfold limitNum. lia. Qed.

Lemma ceil_div_spec a b :
  0 < b → b * (ceil_div a b - 1) < a ≤ b * ceil_div a b.
Proof.
  intros Hb. unfold ceil_div.
  pose proof (Z.div_mod (- a) b ltac:(lia)) as Hdm.
  pose proof (Z.mod_pos_bound (- a) b Hb) as Hm.
  nia.
Qed.

(** *** Rounding to a double *)

Lemma infinity_ge : 2 ^ 53 ≤ infinity.
Proof. unfold infinity. by apply Z.pow_le_mono_r. Qed.

Lemma round_double_safe x : x < 2 ^ 53 → round_double x = x.
Proof.
  intros Hx. unfold round_double.
  by rewrite (proj2 (Z.ltb_lt _ _)) by done.
Qed.

Lemma round_double_large x : 2 ^ 53 ≤ x → 2 ^ 53 ≤ round_double x.
Proof.
  intros Hx. unfold round_double.
  rewrite (proj2 (Z.ltb_ge _ _)) by done. cbv zeta.
  assert (Hlog : 53 ≤ Z.log2 x).
  { rewrite <- (Z.log2_pow2 53) by lia. by apply Z.log2_le_mono. }
  set (e := Z.log2 x - 52).
  assert (He : 1 ≤ e) by (unfold e; lia).
  assert (Hpow : 2 ≤ 2 ^ e).
  { change 2 with (2 ^ 1) at 1. apply Z.pow_le_mono_r; lia. }
  assert (Hq : 2 ^ 52 ≤ x / 2 ^ e).
  { apply Z.div_le_lower_bound; [lia|].
    rewrite Z.mul_comm, <- Z.pow_add_r by lia.
    replace (52 + e) with (Z.log2 x) by (unfold e; lia).
    apply Z.log2_spec. lia. }
  apply Z.min_glb; [apply infinity_ge|].
  assert (2 ^ 53 = 2 ^ 52 * 2) as -> by done.
  repeat case_match; nia.
Qed.

Lemma to_double_safe x : - 2 ^ 53 < x < 2 ^ 53 → to_double x = x.
Proof.
  intros Hx. unfold to_double.
  destruct (x <? 0) eqn:Hneg.
  - apply Z.ltb_lt in Hneg. rewrite round_double_safe by lia. lia.
  - apply Z.ltb_ge in Hneg. by rewrite round_double_safe by lia.
Qed.

Lemma to_double_large x : 2 ^ 53 ≤ x → 2 ^ 53 ≤ to_double x.
Proof.
  intros Hx. unfold to_double.
  rewrite (proj2 (Z.ltb_ge _ _)) by lia. by apply round_double_large.
Qed.


Lemma to_double_small x : x ≤ - 2 ^ 53 → to_double x ≤ - 2 ^ 53.
Proof.
  intros Hx. unfold to_double.
  rewrite (proj2 (Z.ltb_lt _ _)) by lia.
  pose proof (round_double_large (- x)). lia.
Qed.

(** The rounding of [parseInt] does not show in the limit. *)
Lemma limitNum_double limit :
  limitNum limit
  = Z.max 1
      (Z.min (or_number (to_double <$> parseInt (or_string limit "10")) 10)
             100).
Proof.
  unfold limitNum.
  destruct (parseInt (or_string limit "10")) as [n|]; simpl; [|done].
  destruct (decide (- 2 ^ 53 < n < 2 ^ 53)).
  - by rewrite to_double_safe.
  - destruct (decide (2 ^ 53 ≤ n)).
    + pose proof (to_double_large n). unfold or_number.
      repeat case_decide; lia.
    + pose proof (to_double_small n). unfold or_number.
      repeat case_decide; lia.
Qed.

(** Nor does the rounding of the product show in [hasNext], for a count of
    rows up to 2^53. *)
Lemma hasNext_double page limit totalProducts :
  totalProducts ≤ 2 ^ 53 →
  to_double (pageNum page * limitNum limit) < totalProducts
  ↔ pageNum page * limitNum limit < totalProducts.
Proof.
  intros Htot.
  pose proof (pageNum_ge page). pose proof (limitNum_range limit).
  destruct (decide (pageNum page * limitNum limit < 2 ^ 53)).
  - rewrite to_double_safe; [done|nia].
  - pose proof (to_double_large (pageNum page * limitNum limit)). lia.
Qed.





(** X17.  The links of the [pagination] object agree with its page count:
    for a count that is not negative, [hasNext] says that the current page
    is before the last, [hasPrev] that it is after the first, and
    [totalPages] is the least number of pages of [limit] rows that hold
    [totalProducts] rows (none when there is no row). *)
Theorem pagination_links (page limit : option string) (totalProducts : Z) :
  0 ≤ totalProducts →
  let pg := pagination page limit totalProducts in
  (Pagination.hasNext pg = true
   ↔ Pagination.currentPage pg < Pagination.totalPages pg)
  ∧ (Pagination.hasPrev pg = true ↔ 1 < Pagination.currentPage pg)
  ∧ totalProducts ≤ Pagination.totalPages pg * limitNum limit
  ∧ (Pagination.totalPages pg - 1) * limitNum limit < totalProducts
  ∧ (Pagination.totalPages pg = 0 ↔ totalProducts = 0).
Proof.
  intros Htot. simpl.
  pose proof (limitNum_range limit) as Hl.
  pose proof (ceil_div_spec totalProducts (limitNum limit) ltac:(lia)) as Hc.
  rewrite !bool_decide_eq_true.
  repeat split; try nia.
Qed.


(** ** The list of categories *)

Lemma foldl_count_acc (l : list (category_t * Z)) acc :
  foldl (λ sum cat, sum + cat.2) acc l
  = acc + foldl (λ sum cat, sum + cat.2) 0 l.
Proof.
  revert acc. induction l as [|g l IH]; intros acc; simpl; [lia|].
  rewrite (IH (acc + g.2)), (IH (0 + g.2)). lia.
Qed.

Lemma foldl_count_positive (l : list (category_t * Z)) :
  Forall (λ g, 0 ≤ g.2) l →
  foldl (λ sum cat, sum + cat.2) 0 (filter (λ g, 0 < g.2) l)
  = foldl (λ sum cat, sum + cat.2) 0 l.
Proof.
  induction 1 as [|g l Hg _ IH]; [done|].
  destruct (decide (0 < g.2)) as [Hpos|Hzero].
  - rewrite filter_cons_True by done. simpl.
    rewrite (foldl_count_acc _ (0 + g.2)), (foldl_count_acc l (0 + g.2)).
    by rewrite IH.
  - rewrite filter_cons_False by done. simpl.
    rewrite (foldl_count_acc l (0 + g.2)). rewrite IH. lia.
Qed.

(** Every row falls in one category. *)
Lemma category_counts_add_up (l : list (Z * Product.t)) :
  foldl (λ sum cat, sum + cat.2) 0
    ((λ c, (c, Z.of_nat
                 (length (filter (λ kp, Product.category kp.2 = c) l))))
       <$> all_categories)
  = Z.of_nat (length l).
Proof.
  induction l as [|kp l IH]; [done|].
  unfold all_categories in *. cbn [fmap list_fmap foldl fst snd] in *.
  destruct (Product.category kp.2) eqn:Hc.
  all: repeat first
    [ rewrite (filter_cons_True
                 (λ kp : Z * Product.t, Product.category kp.2 = _))
        by (simpl; congruence)
    | rewrite (filter_cons_False
                 (λ kp : Z * Product.t, Product.category kp.2 = _))
        by (simpl; congruence) ].
  all: cbn [length]; lia.
Qed.

Lemma category_to_string_inj c c' :
  category_to_string c = category_to_string c' → c = c'.
Proof. by destruct c, c'. Qed.

Lemma foldl_count_entries (l : list (category_t * Z)) :
  foldl (λ sum cat, sum + cat.2) 0 l
  = foldr (λ e acc, CategoryEntry.count e + acc) 0
      ((λ cat, CategoryEntry.mk (category_to_string cat.1)
                 (capitalize (category_to_string cat.1)) cat.2) <$> l).
Proof.
  induction l as [|g l IH]; [done|].
  rewrite fmap_cons. cbn [foldl foldr CategoryEntry.count].
  rewrite (foldl_count_acc l (0 + g.2)), IH. lia.
Qed.

Lemma category_groups_NoDup d :
  NoDup (CategoryEntry.value <$> drop 1 (categoriesList d)).
Proof.
  unfold categoriesList. cbn [drop]. unfold category_groups.
  assert (Hnd : NoDup all_categories).
  { apply (bool_decide_unpack _). vm_compute. exact I. }
  revert Hnd. generalize all_categories as l.
  induction l as [|c l IH]; intros Hnd; [by apply NoDup_nil_2|].
  apply NoDup_cons in Hnd as [Hc Hnd]. rewrite fmap_cons.
  destruct (decide (0 < category_count d c)) as [Hpos|Hzero].
  - rewrite filter_cons_True by done. rewrite !fmap_cons.
    apply NoDup_cons. split; [|by apply IH].
    simpl. intros Hin.
    apply list_elem_of_fmap in Hin as (e & He & Hin).
    apply list_elem_of_fmap in Hin as ([c' n] & -> & Hin).
    apply list_elem_of_filter in Hin as [_ Hin].
    apply list_elem_of_fmap in Hin as (c'' & [= -> ->] & Hin).
    simpl in He. apply category_to_string_inj in He. by subst.
  - rewrite filter_cons_False by done. by apply IH.
Qed.

(** X19.  The first entry of the list of categories, 'all', counts the
    active products: its count is the number of rows with [is_active] set,
    which is the sum of the counts of the entries after it.  These entries
    are exactly one for every category that has an active product, with
    the category's count (never 0) and its name capitalised as label;
    nothing else is in the list and no category comes twice. *)
Theorem categoriesList_counts d :
  ∃ rest,
    categoriesList d
    = CategoryEntry.mk "all" "All Products"
        (Z.of_nat (length (active_products d))) :: rest
    ∧ Z.of_nat (length (active_products d))
      = foldr (λ e acc, CategoryEntry.count e + acc) 0 rest
    ∧ Forall (λ e, 1 ≤ CategoryEntry.count e) rest
    ∧ NoDup (CategoryEntry.value <$> rest)
    ∧ ∀ e,
        e ∈ rest
        ↔ ∃ c,
            0 < category_count d c
            ∧ e = CategoryEntry.mk (category_to_string c)
                    (capitalize (category_to_string c))
                    (category_count d c).
Proof.
  assert (Hall : foldl (λ sum cat, sum + cat.2) 0 (category_groups d)
                 = Z.of_nat (length (active_products d))).
  { unfold category_groups. rewrite foldl_count_positive.
    - apply category_counts_add_up.
    - apply Forall_fmap, Forall_forall. intros c _. simpl.
      unfold category_count. lia. }
  eexists. split; [|split; [|split; [|split]]].
  - unfold categoriesList. by rewrite Hall.
  - by rewrite <- Hall, foldl_count_entries.
  - apply Forall_fmap, Forall_forall. intros [c n] Hin. simpl.
    unfold category_groups in Hin.
    apply list_elem_of_filter in Hin as [Hpos _]. simpl in Hpos. lia.
  - apply (category_groups_NoDup d).
  - intros e. rewrite list_elem_of_fmap. unfold category_groups. split.
    + intros ([c n] & -> & Hin).
      apply list_elem_of_filter in Hin as [Hpos Hin]. cbn [snd] in Hpos.
      apply list_elem_of_fmap in Hin as (c' & [= -> ->] & _).
      by exists c'.
    + intros (c & Hpos & ->). exists (c, category_count d c).
      split; [done|]. apply list_elem_of_filter. split; [done|].
      apply list_elem_of_fmap. exists c. split; [done|].
      unfold all_categories. destruct c; by repeat constructor.
Qed.

(** ** The authentication routes *)

Lemma role_of_string_register s role :
  s ∈ register_roles → role_of_string s = Some role → role ≠ User.admin.
Proof.
  unfold register_roles. rewrite !elem_of_cons, elem_of_nil.
  intros [->|[->|[]]]; by intros [= <-].
Qed.

Lemma filter_insert_fresh {A} (P : Z * A → Prop) `{!∀ x, Decision (P x)}
    (m : gmap Z A) k v :
  m !! k = None → P (k, v) → filter P (map_to_list m) = [] →
  filter P (map_to_list (<[k := v]> m)) = [(k, v)].
Proof.
  intros Hk HP Hnil. apply Permutation_singleton_r.
  rewrite map_to_list_insert by done.
  rewrite filter_cons_True by done. by rewrite Hnil.
Qed.

Section AuthFacts.

Context (isEmail : string → bool) (normalizeEmail : string → string).
Context (isMobilePhone : string → bool).
Context (bcrypt_hash : string → string → string).
Context (bcrypt_compare : string → string → bool).
Context (jwt_sign : Z → User.role_t → Z → string).
Context (jwt_verify : string → option Z).

Lemma register_registered salt iat body s user token s' :
  register isEmail normalizeEmail isMobilePhone bcrypt_hash jwt_sign salt iat
    body s
  = (UserRegistered user token, s') →
  ∃ role,
    registerValidation isEmail isMobilePhone body = true
    ∧ users_with_email s (normalizeEmail (RegisterBody.email body)) = []
    ∧ role_of_string (RegisterBody.role body) = Some role
    ∧ role ≠ User.admin
    ∧ user = AuthUser.mk (users_auto_increment s) (RegisterBody.name body)
               (normalizeEmail (RegisterBody.email body))
               (Some (RegisterBody.phone body)) role
    ∧ token = jwt_sign (users_auto_increment s) role iat
    ∧ s' = mkstore (database s)
             (<[users_auto_increment s :=
                  User.mk (RegisterBody.name body)
                    (normalizeEmail (RegisterBody.email body))
                    (bcrypt_hash (RegisterBody.password body) salt)
                    (Some (RegisterBody.phone body)) role true]>
                (users s))
             (products_auto_increment s) (users_auto_increment s + 1).
Proof.
  unfold register.
  destruct (registerValidation _ _ body) eqn:Hval; simpl; [|done].
  case_bool_decide as Hex; [done|].
  destruct (role_of_string _) as [role|] eqn:Hrole; [|done].
  intros [= <- <- <-]. exists role. split; [done|].
  split; [destruct (users_with_email s _); [done|simpl in Hex; lia]|].
  split; [done|]. split; [|done].
  eapply role_of_string_register; [|done].
  unfold registerValidation in Hval.
  rewrite !andb_true_iff, !bool_decide_eq_true in Hval. by destruct Hval.
Qed.

Lemma register_refused salt iat body s r s' :
  register isEmail normalizeEmail isMobilePhone bcrypt_hash jwt_sign salt iat
    body s
  = (r, s') →
  (∀ user token, r ≠ UserRegistered user token) → s' = s.
Proof.
  unfold register.
  destruct (registerValidation _ _ body); simpl; [|by intros [= <- <-]].
  case_bool_decide; [by intros [= <- <-]|].
  destruct (role_of_string _); [|by intros [= <- <-]].
  intros [= <- <-] Hr. by edestruct Hr.
Qed.

Lemma registered_or_not (r : register_response) :
  (∃ user token, r = UserRegistered user token)
  ∨ (∀ user token, r ≠ UserRegistered user token).
Proof. destruct r; eauto. Qed.

(** X20.  Registration adds at most one row to [users] and touches nothing
    else.  Either the answer is an error and the store is as before, or the
    answer is 201 and [users] is the table of before with one row more,
    under the id the response carries, which is the next id of the counter
    and was free: an active account with the name and the normalized email
    of the request, an email no account had, the hash of the password, and
    a role that is not admin.  The counter moves by one, and the database
    of the shop is untouched. *)
Theorem register_effect salt iat body s r s' :
  users_fresh s →
  register isEmail normalizeEmail isMobilePhone bcrypt_hash jwt_sign salt iat
    body s
  = (r, s') →
  database s' = database s
  ∧ products_auto_increment s' = products_auto_increment s
  ∧ users_fresh s'
  ∧ (((∀ user token, r ≠ UserRegistered user token) ∧ s' = s)
     ∨ ∃ user token u',
         r = UserRegistered user token
         ∧ AuthUser.id user = users_auto_increment s
         ∧ users s !! users_auto_increment s = None
         ∧ users s' = <[users_auto_increment s := u']> (users s)
         ∧ users_auto_increment s' = users_auto_increment s + 1
         ∧ User.role u' ≠ User.admin
         ∧ User.role u' = AuthUser.role user
         ∧ User.is_active u' = true
         ∧ User.name u' = RegisterBody.name body
         ∧ User.email u' = normalizeEmail (RegisterBody.email body)
         ∧ User.password u'
           = bcrypt_hash (RegisterBody.password body) salt
         ∧ users_with_email s (normalizeEmail (RegisterBody.email body))
           = []).
Proof.
  intros Hfresh Hrun.
  destruct (registered_or_not r) as [(user & token & ->)|Hr].
  - apply register_registered in Hrun
      as (role & _ & Hnone & _ & Hrole & -> & -> & ->). simpl.
    assert (Hnew : users s !! users_auto_increment s = None).
    { destruct (users s !! users_auto_increment s) as [u|] eqn:Hu; [|done].
      apply Hfresh in Hu. lia. }
    split; [done|]. split; [done|]. split.
    + intros id u. simpl. rewrite lookup_insert.
      case_decide; [intros _; lia|]. intros Hu%Hfresh. lia.
    + right. eexists _, _, _. split; [done|]. simpl.
      by repeat split.
  - rewrite (register_refused _ _ _ _ _ _ Hrun Hr).
    repeat split; try done. by left.
Qed.

(** X21.  An account that has just been registered can log in: with the
    password of the registration, POST /api/auth/login answers with the
    same user and a token signed for the same id and role (whenever
    [bcrypt.compare] accepts a password against its own hash), the role is
    customer or farmer, and a token that verifies to the id passes
    [verifyToken] as that user. *)
Theorem register_then_login salt iat body s user token s' iat' :
  users_fresh s →
  register isEmail normalizeEmail isMobilePhone bcrypt_hash jwt_sign salt iat
    body s
  = (UserRegistered user token, s') →
  bcrypt_compare (RegisterBody.password body)
    (bcrypt_hash (RegisterBody.password body) salt) = true →
  login isEmail normalizeEmail bcrypt_compare jwt_sign iat'
    (LoginBody.mk (RegisterBody.email body) (RegisterBody.password body)) s'
  = LoginSuccessful user
      (jwt_sign (AuthUser.id user) (AuthUser.role user) iat')
  ∧ token = jwt_sign (AuthUser.id user) (AuthUser.role user) iat
  ∧ AuthUser.role user ≠ User.admin
  ∧ (∀ t, t ≠ "" →
      jwt_verify t = Some (AuthUser.id user) →
      verifyToken jwt_verify (Some ("Bearer " ++ t)%string) s'
      = inr (ReqUser.mk (AuthUser.id user) (AuthUser.name user)
                        (AuthUser.email user) (AuthUser.role user) true)).
Proof.
  intros Hfresh Hrun Hcmp.
  apply register_registered in Hrun
    as (role & Hval & Hnone & _ & Hrole & -> & -> & ->).
  assert (Hnew : users s !! users_auto_increment s = None).
  { destruct (users s !! users_auto_increment s) as [u|] eqn:Hu; [|done].
    apply Hfresh in Hu. lia. }
  unfold registerValidation in Hval.
  rewrite !andb_true_iff, !bool_decide_eq_true in Hval.
  destruct Hval as ((((_ & Hemail) & Hpw) & _) & _).
  split; [|split; [done|split; [done|]]].
  - unfold login, loginValidation. simpl. rewrite Hemail. simpl.
    rewrite bool_decide_eq_true_2.
    2: { intros Hempty. rewrite Hempty in Hpw. simpl in Hpw. lia. }
    simpl. unfold users_with_email. simpl.
    rewrite (filter_insert_fresh _ _ _ _ Hnew); [|done|exact Hnone].
    simpl. by rewrite Hcmp.
  - intros t Htok Hjwt. unfold verifyToken. rewrite remove_first_app.
    rewrite decide_False by done. simpl in Hjwt. rewrite Hjwt. simpl.
    by rewrite lookup_insert_eq.
Qed.

(** X22.  Nobody logs in without the password of an active account: when
    POST /api/auth/login answers with a user and a token, [users] holds an
    active row with the normalized email of the request under the user's id,
    [bcrypt.compare] accepted the password against the hash of that row,
    and the token is signed for the id and the role of the row. *)
Theorem login_sound iat body s user token :
  login isEmail normalizeEmail bcrypt_compare jwt_sign iat body s
  = LoginSuccessful user token →
  ∃ u,
    users s !! AuthUser.id user = Some u
    ∧ User.email u = normalizeEmail (LoginBody.email body)
    ∧ User.is_active u = true
    ∧ bcrypt_compare (LoginBody.password body) (User.password u) = true
    ∧ AuthUser.role user = User.role u
    ∧ token = jwt_sign (AuthUser.id user) (User.role u) iat.
Proof.
  unfold login. destruct (loginValidation _ body); simpl; [|done].
  destruct (users_with_email s
    (normalizeEmail (LoginBody.email body))) as [|[id u] l] eqn:Hl;
    [done|].
  destruct (User.is_active u) eqn:Ha; simpl; [|done].
  destruct (bcrypt_compare _ _) eqn:Hc; simpl; [|done].
  intros [= <- <-]. exists u. simpl.
  assert ((id, u) ∈ users_with_email s
    (normalizeEmail (LoginBody.email body))) as Hin
    by (rewrite Hl; by left).
  unfold users_with_email in Hin.
  apply list_elem_of_filter in Hin as [Hemail Hin].
  apply elem_of_map_to_list in Hin. by repeat split.
Qed.

(** X23.  PUT /api/auth/profile writes the name and the phone of the
    caller's own row and nothing else: the email, password, role and
    [is_active] of the caller, every other user and the rest of the store
    are as before, and a field the body does not carry keeps its value.
    A body with neither a name nor a phone is answered with 'No fields to
    update'; an empty name, and an empty phone when the phone validator
    refuses it, are answered with 'Validation failed'; no answer but the
    200 changes anything. *)
Theorem updateProfile_effect body user s r s' :
  updateProfile isMobilePhone body user s = (r, s') →
  database s' = database s
  ∧ products_auto_increment s' = products_auto_increment s
  ∧ users_auto_increment s' = users_auto_increment s
  ∧ (∀ j, j ≠ ReqUser.user_id user → users s' !! j = users s !! j)
  ∧ (∀ u, users s !! ReqUser.user_id user = Some u →
          ∃ u',
            users s' !! ReqUser.user_id user = Some u'
            ∧ same_account u u'
            ∧ (r = ProfileUpdated →
               User.name u'
               = default (User.name u) (truthy (ProfileBody.name body))
               ∧ User.phone u'
                 = match truthy (ProfileBody.phone body) with
                   | Some p => Some p
                   | None => User.phone u
                   end))
  ∧ (users s !! ReqUser.user_id user = None →
     users s' !! ReqUser.user_id user = None)
  ∧ (truthy (ProfileBody.name body) = None →
     truthy (ProfileBody.phone body) = None →
     r ≠ ProfileUpdated ∧ s' = s)
  ∧ (ProfileBody.name body = None →
     ProfileBody.phone body = None →
     r = NoFieldsToUpdate)
  ∧ (ProfileBody.name body = Some "" → r = ProfileInvalid)
  ∧ (isMobilePhone "" = false →
     ProfileBody.phone body = Some "" → r = ProfileInvalid)
  ∧ (r ≠ ProfileUpdated → s' = s).
Proof.
  unfold updateProfile, profileValidation.
  destruct body as [[name|] [phone|]]; simpl.
  all: repeat match goal with
       | |- context [bool_decide ?P] => destruct (bool_decide P) eqn:?
       | |- context [isMobilePhone ?x] => destruct (isMobilePhone x) eqn:?
       | |- context [decide (?x = "")] => destruct (decide (x = ""))
       end; simpl.
  all: intros [= <- <-]; simpl.
  all: split; [done|]; split; [done|]; split; [done|].
  all: split; [intros j Hj; by rewrite ?lookup_alter_ne|].
  all: split; [intros u Hu; eexists; rewrite ?lookup_alter_eq, Hu;
               by repeat split|].
  all: split; [intros Hu; by rewrite ?lookup_alter_eq, Hu|].
  all: repeat split; try done; try congruence.
  all: try (intros [= ->]; simpl in *; congruence).
  all: try (intros ? [= ->]; congruence).
Qed.

End AuthFacts.

(** ** The accounts under every route *)

Lemma same_account_refl u : same_account u u.
Proof. by repeat split. Qed.

Lemma same_account_trans u1 u2 u3 :
  same_account u1 u2 → same_account u2 u3 → same_account u1 u3.
Proof.
  intros (? & ? & ? & ?) (? & ? & ? & ?). repeat split; congruence.
Qed.

Section Accounts.

Context (isMobilePhone : string → bool).
Context (RAZORPAY_KEY_ID RAZORPAY_KEY_SECRET : string).
Context (hmac_sha256_hex : string → string → string).
Context (jwt_verify : string → option Z).
Context (isEmail : string → bool) (normalizeEmail : string → string).
Context (bcrypt_hash : string → string → string).
Context (jwt_sign : Z → User.role_t → Z → string).

(** One request, seen from the table [users]. *)
Lemma serve_users r s :
  users_fresh s →
  users_fresh
    (serve isMobilePhone RAZORPAY_KEY_ID RAZORPAY_KEY_SECRET
       hmac_sha256_hex jwt_verify isEmail normalizeEmail bcrypt_hash
       jwt_sign r s)
  ∧ (∀ id u,
       users s !! id = Some u →
       ∃ u',
         users (serve isMobilePhone RAZORPAY_KEY_ID RAZORPAY_KEY_SECRET
                  hmac_sha256_hex jwt_verify isEmail normalizeEmail
                  bcrypt_hash jwt_sign r s) !! id = Some u'
         ∧ same_account u u')
  ∧ (∀ id u',
       users (serve isMobilePhone RAZORPAY_KEY_ID RAZORPAY_KEY_SECRET
                hmac_sha256_hex jwt_verify isEmail normalizeEmail
                bcrypt_hash jwt_sign r s) !! id = Some u' →
       users s !! id = None →
       User.role u' ≠ User.admin ∧ User.is_active u' = true).
Proof.
  intros Hfresh.
  assert (Hsame : ∀ s',
    users s' = users s → users_auto_increment s' = users_auto_increment s →
    users_fresh s'
    ∧ (∀ id u, users s !! id = Some u →
               ∃ u', users s' !! id = Some u' ∧ same_account u u')
    ∧ (∀ id u', users s' !! id = Some u' → users s !! id = None →
                User.role u' ≠ User.admin ∧ User.is_active u' = true)).
  { intros s' Hu Hn. split; [|split].
    - intros id u. rewrite Hu, Hn. apply Hfresh.
    - intros id u Hid. exists u. rewrite Hu.
      split; [done | apply same_account_refl].
    - intros id u'. rewrite Hu. congruence. }
  destruct (serve_unfold isMobilePhone RAZORPAY_KEY_ID RAZORPAY_KEY_SECRET
              hmac_sha256_hex jwt_verify isEmail normalizeEmail bcrypt_hash
              jwt_sign r s) as [->|[user ->]]; [by apply Hsame|].
  destruct r as [a gw b|a b|a id|a id st|a f b|a id f b|a id|salt iat b|a b];
    try (by apply Hsame).
  - apply Hsame; unfold addProduct;
      destruct (productValidation b); simpl; try done;
      by destruct (category_of_string (ProductBody.category b)),
                 (unit_of_string (ProductBody.unit b)).
  - apply Hsame; unfold updateProduct;
      destruct (productValidation b); simpl; try done;
      destruct (products (database s) !! id); try done;
      by destruct (category_of_string (ProductBody.category b)),
                 (unit_of_string (ProductBody.unit b)).
  - apply Hsame; unfold deleteProduct;
      by destruct (products (database s) !! id).
  - destruct (register isEmail normalizeEmail isMobilePhone bcrypt_hash
                jwt_sign salt iat b s) as [res s'] eqn:Hrun. cbn [snd].
    destruct (registered_or_not res) as [(u0 & token & ->)|Hres].
    + apply register_registered in Hrun
        as (role & _ & _ & _ & Hrole & _ & _ & ->). simpl.
      split; [|split].
      * intros id u. simpl. rewrite lookup_insert.
        case_decide; [intros _; lia|]. intros Hu%Hfresh. lia.
      * intros id u Hu. exists u. rewrite lookup_insert_ne.
        -- split; [done | apply same_account_refl].
        -- apply Hfresh in Hu. lia.
      * intros id u'. rewrite lookup_insert.
        case_decide; [|congruence]. by intros [= <-] _.
    + rewrite (register_refused _ _ _ _ _ _ _ _ _ _ _ Hrun Hres).
      by apply Hsame.
  - unfold updateProfile. destruct (profileValidation _ b); simpl;
      [|by apply Hsame].
    destruct (truthy (ProfileBody.name b)) as [n|],
             (truthy (ProfileBody.phone b)) as [p|];
      try (by apply Hsame).
    all: (split; [|split]); simpl.
    all: try (intros id u Hu;
              assert (is_Some (users s !! id)) as [u0 Hu0]
                by (eapply lookup_alter_is_Some; eauto);
              by eapply Hfresh).
    all: try (intros id u Hu;
              destruct (decide (ReqUser.user_id user = id)) as [->|Hne];
              [rewrite lookup_alter_eq, Hu; eexists; split; [done|];
               by repeat split
              |rewrite lookup_alter_ne by done; exists u;
               split; [done | apply same_account_refl]]).
    all: intros id u' Hu' Hnone;
         assert (is_Some (users s !! id)) as [u0 Hu0]
           by (eapply lookup_alter_is_Some; eauto);
         congruence.
Qed.

(** X24.  No sequence of requests creates an administrator, changes the
    credentials or the rights of an account, or removes one: every account
    of the start is still there with the same email, password hash, role
    and [is_active], and an account that is new is an active customer or
    farmer. *)
Theorem accounts_preserved s s' :
  users_fresh s →
  serves isMobilePhone RAZORPAY_KEY_ID RAZORPAY_KEY_SECRET hmac_sha256_hex
    jwt_verify isEmail normalizeEmail bcrypt_hash jwt_sign (λ _, True) s s' →
  users_fresh s'
  ∧ (∀ id u,
       users s !! id = Some u →
       ∃ u', users s' !! id = Some u' ∧ same_account u u')
  ∧ (∀ id u',
       users s' !! id = Some u' →
       users s !! id = None →
       User.role u' ≠ User.admin ∧ User.is_active u' = true).
Proof.
  intros Hfresh Hserves.
  induction Hserves as [s|s s' r _ IH _].
  - split; [done|]. split; [|congruence].
    intros id u Hu. exists u. split; [done | apply same_account_refl].
  - destruct (IH Hfresh) as (Hfresh' & Hkeep & Hnew).
    destruct (serve_users r s' Hfresh') as (Hfresh'' & Hkeep' & Hnew').
    split; [done|]. split.
    + intros id u Hu.
      destruct (Hkeep id u Hu) as (u1 & Hu1 & Hsame1).
      destruct (Hkeep' id u1 Hu1) as (u2 & Hu2 & Hsame2).
      exists u2. split; [done | by eapply same_account_trans].
    + intros id u' Hu' Hnone.
      destruct (users s' !! id) as [u1|] eqn:Hu1.
      * destruct (Hkeep' id u1 Hu1) as (u2 & Hu2 & (_ & _ & Hr & Ha)).
        destruct (Hnew id u1 Hu1 Hnone) as [Hrole Hact].
        assert (u2 = u') as -> by congruence.
        rewrite Hr, Ha. by split.
      * by apply (Hnew' id).
Qed.

End Accounts.

(** ** What a request does to the tables of the shop *)

Lemma placeOrder_inactive_refused isMobilePhone RAZORPAY_KEY_ID gw user_id
    body d id p :
  products d !! id = Some p →
  Product.is_active p = false →
  id ∈ Item.product_id <$> CreateBody.items body →
  ∃ r,
    placeOrder isMobilePhone RAZORPAY_KEY_ID gw user_id body d = (r, d)
    ∧ ∀ data, r ≠ OrderCreated data.
Proof.
  intros Hp Hinactive Hin.
  destruct (orderValidation isMobilePhone body) eqn:Hval.
  - destruct (placeOrder_rejects isMobilePhone RAZORPAY_KEY_ID gw user_id
                body d Hval) as (r & Hrun & Hr).
    + intros Hall. rewrite Forall_forall in Hall.
      apply list_elem_of_fmap in Hin as (it & -> & Hit).
      destruct (Hall it Hit) as (q & Hq & Ha & _).
      rewrite Hp in Hq. injection Hq as <-. congruence.
    + exists r. split; [done|].
      intros data ->. by destruct Hr as [[? ?]|(? & ? & ?)].
  - exists ValidationFailed. unfold placeOrder. rewrite Hval. simpl.
    by rewrite rollback_same.
Qed.

Section StoreSteps.

Context (isMobilePhone : string → bool).
Context (RAZORPAY_KEY_ID RAZORPAY_KEY_SECRET : string).
Context (hmac_sha256_hex : string → string → string).
Context (jwt_verify : string → option Z).
Context (isEmail : string → bool) (normalizeEmail : string → string).
Context (bcrypt_hash : string → string → string).
Context (jwt_sign : Z → User.role_t → Z → string).

(** A request to an order route never touches the rows of an order that
    exists: new rows belong to the new order. *)
Lemma step_order_rows d d' :
  consistent d →
  step isMobilePhone RAZORPAY_KEY_ID RAZORPAY_KEY_SECRET hmac_sha256_hex
    d d' →
  orders_auto_increment d ≤ orders_auto_increment d'
  ∧ ∀ id, id < orders_auto_increment d →
          select_order_items d' id = select_order_items d id.
Proof.
  intros Hc Hstep. destruct Hstep as [gw u body d|u body d|id u d|id st d].
  - pose proof (placeOrder_counter isMobilePhone RAZORPAY_KEY_ID gw u body d)
      as Hcnt.
    destruct (placeOrder _ _ gw u body d) as [r d'] eqn:Hrun.
    simpl in *. split; [done|]. intros id Hid.
    destruct (created_or_not r) as [[data ->]|Hr].
    + apply placeOrder_created in Hrun
        as (lines & rows & _ & _ & Hrows & Hnew & _ & _ & _ & _ & Hi & _).
      eapply select_order_items_other; [|exact Hi|exact Hrows]. lia.
    + eapply placeOrder_not_created in Hrun as (_ & _ & Hi); [|done].
      unfold select_order_items. by rewrite Hi.
  - unfold verifyPayment. by case_decide.
  - destruct (cancelOrder id u d) as [r d'] eqn:Hrun. simpl.
    destruct (decide (r = OrderCancelled)) as [->|Hr].
    + apply cancelOrder_cancelled in Hrun as (o & _ & _ & _ & ->).
      split.
      * unfold cancelled_state; simpl.
        by rewrite (proj1 (restore_stock_counters _ _)).
      * intros j _. unfold select_order_items.
        by rewrite cancelled_state_order_items.
    + by rewrite (cancelOrder_refused _ _ _ _ _ Hrun Hr).
  - by rewrite updateOrderStatus_snd.
Qed.

(** The three kinds of request, by what they write: an order route takes a
    step of the order machine; the product routes insert a product under
    the next id or rewrite one row, never setting [is_active]; every other
    request leaves the database alone. *)
Lemma serve_database r s :
  (step isMobilePhone RAZORPAY_KEY_ID RAZORPAY_KEY_SECRET hmac_sha256_hex
     (database s)
     (database (serve isMobilePhone RAZORPAY_KEY_ID RAZORPAY_KEY_SECRET
                  hmac_sha256_hex jwt_verify isEmail normalizeEmail
                  bcrypt_hash jwt_sign r s))
   ∧ products_auto_increment
       (serve isMobilePhone RAZORPAY_KEY_ID RAZORPAY_KEY_SECRET
          hmac_sha256_hex jwt_verify isEmail normalizeEmail bcrypt_hash
          jwt_sign r s)
     = products_auto_increment s)
  ∨ (orders (database (serve isMobilePhone RAZORPAY_KEY_ID
                         RAZORPAY_KEY_SECRET hmac_sha256_hex jwt_verify
                         isEmail normalizeEmail bcrypt_hash jwt_sign r s))
     = orders (database s)
     ∧ order_items (database (serve isMobilePhone RAZORPAY_KEY_ID
                                RAZORPAY_KEY_SECRET hmac_sha256_hex
                                jwt_verify isEmail normalizeEmail
                                bcrypt_hash jwt_sign r s))
       = order_items (database s)
     ∧ orders_auto_increment
         (database (serve isMobilePhone RAZORPAY_KEY_ID RAZORPAY_KEY_SECRET
                      hmac_sha256_hex jwt_verify isEmail normalizeEmail
                      bcrypt_hash jwt_sign r s))
       = orders_auto_increment (database s)
     ∧ ((products (database (serve isMobilePhone RAZORPAY_KEY_ID
                               RAZORPAY_KEY_SECRET hmac_sha256_hex
                               jwt_verify isEmail normalizeEmail
                               bcrypt_hash jwt_sign r s))
         = products (database s)
         ∧ products_auto_increment
             (serve isMobilePhone RAZORPAY_KEY_ID RAZORPAY_KEY_SECRET
                hmac_sha256_hex jwt_verify isEmail normalizeEmail
                bcrypt_hash jwt_sign r s)
           = products_auto_increment s)
        ∨ (∃ p,
             products (database (serve isMobilePhone RAZORPAY_KEY_ID
                                   RAZORPAY_KEY_SECRET hmac_sha256_hex
                                   jwt_verify isEmail normalizeEmail
                                   bcrypt_hash jwt_sign r s))
             = <[products_auto_increment s := p]> (products (database s))
             ∧ products_auto_increment
                 (serve isMobilePhone RAZORPAY_KEY_ID RAZORPAY_KEY_SECRET
                    hmac_sha256_hex jwt_verify isEmail normalizeEmail
                    bcrypt_hash jwt_sign r s)
               = products_auto_increment s + 1)
        ∨ (∃ f id,
             products (database (serve isMobilePhone RAZORPAY_KEY_ID
                                   RAZORPAY_KEY_SECRET hmac_sha256_hex
                                   jwt_verify isEmail normalizeEmail
                                   bcrypt_hash jwt_sign r s))
             = alter f id (products (database s))
             ∧ (∀ p, Product.is_active (f p) = false
                     ∨ Product.is_active (f p) = Product.is_active p)
             ∧ products_auto_increment
                 (serve isMobilePhone RAZORPAY_KEY_ID RAZORPAY_KEY_SECRET
                    hmac_sha256_hex jwt_verify isEmail normalizeEmail
                    bcrypt_hash jwt_sign r s)
               = products_auto_increment s))).
Proof.
  destruct (serve_unfold isMobilePhone RAZORPAY_KEY_ID RAZORPAY_KEY_SECRET
              hmac_sha256_hex jwt_verify isEmail normalizeEmail bcrypt_hash
              jwt_sign r s) as [->|[user ->]].
  { right. do 3 (split; [done|]). by left. }
  destruct r as [a gw b|a b|a id|a id st|a f b|a id f b|a id|salt iat b|a b].
  - left. split; [apply step_create | done].
  - left. split; [apply step_verify | done].
  - left. split; [apply step_cancel | done].
  - left. split; [apply step_status | done].
  - right. destruct (addProduct f b s) as [[|pid url] s'] eqn:Hrun; simpl.
    + rewrite (addProduct_refused _ _ _ _ Hrun).
      do 3 (split; [done|]). by left.
    + apply addProduct_added in Hrun as (c & u & _ & _ & _ & -> & _ & ->).
      do 3 (split; [done|]). right. left. by eexists.
  - right. destruct (updateProduct id f b s) as [res s'] eqn:Hrun; simpl.
    destruct res;
      try (rewrite (updateProduct_refused _ _ _ _ _ _ Hrun) by done;
           do 3 (split; [done|]); by left).
    apply updateProduct_updated in Hrun as (p & c & u & _ & _ & _ & _ & ->).
    do 3 (split; [done|]). right. right. eexists _, _.
    split; [done|]. split; [|done]. intros q. by right.
  - right. rewrite deleteProduct_store.
    do 3 (split; [done|]). right. right. eexists _, _.
    split; [done|]. split; [|done]. intros q. by left.
  - right.
    assert (database (register isEmail normalizeEmail isMobilePhone
                        bcrypt_hash jwt_sign salt iat b s).2 = database s
            ∧ products_auto_increment
                (register isEmail normalizeEmail isMobilePhone bcrypt_hash
                   jwt_sign salt iat b s).2
              = products_auto_increment s) as [-> ->].
    { unfold register. destruct (registerValidation _ _ b); [|done].
      simpl. case_bool_decide; [done|].
      by destruct (role_of_string (RegisterBody.role b)). }
    do 3 (split; [done|]). by left.
  - right.
    assert (database (updateProfile isMobilePhone b user s).2 = database s
            ∧ products_auto_increment
                (updateProfile isMobilePhone b user s).2
              = products_auto_increment s) as [-> ->].
    { unfold updateProfile. destruct (profileValidation _ b); [|done].
      simpl. by destruct (truthy _), (truthy _). }
    do 3 (split; [done|]). by left.
Qed.

(** Requests keep the rows of the orders that exist. *)
Lemma serves_order_rows s s' :
  consistent (database s) →
  serves isMobilePhone RAZORPAY_KEY_ID RAZORPAY_KEY_SECRET hmac_sha256_hex
    jwt_verify isEmail normalizeEmail bcrypt_hash jwt_sign (λ _, True) s s' →
  consistent (database s')
  ∧ orders_auto_increment (database s) ≤ orders_auto_increment (database s')
  ∧ ∀ id, id < orders_auto_increment (database s) →
          select_order_items (database s') id
          = select_order_items (database s) id.
Proof.
  intros Hc Hserves. induction Hserves as [s|s s' r _ IH _].
  { split; [done|]. split; [lia | done]. }
  destruct (IH Hc) as (Hc' & Hle & Hrows).
  destruct (serve_database r s')
    as [[Hstep _]|(Ho & Hi & Hn & _)].
  - destruct (step_order_rows _ _ Hc' Hstep) as [Hle' Hrows'].
    split; [by eapply step_consistent|]. split; [lia|].
    intros id Hid. rewrite Hrows' by lia. by apply Hrows.
  - split; [by eapply order_tables_consistent|]. split; [lia|].
    intros id Hid. unfold select_order_items at 1. rewrite Hi.
    by apply Hrows.
Qed.

(** No request puts a product back on sale, and product ids stay below
    their counter. *)
Lemma serves_inactive s s' id p :
  catalogue_fresh s →
  products (database s) !! id = Some p →
  Product.is_active p = false →
  serves isMobilePhone RAZORPAY_KEY_ID RAZORPAY_KEY_SECRET hmac_sha256_hex
    jwt_verify isEmail normalizeEmail bcrypt_hash jwt_sign (λ _, True) s s' →
  catalogue_fresh s'
  ∧ ∃ p', products (database s') !! id = Some p'
          ∧ Product.is_active p' = false.
Proof.
  intros Hf Hp Hin Hserves. induction Hserves as [s|s s' r _ IH _].
  { split; [done|]. by exists p. }
  destruct (IH Hf Hp) as (Hf' & p' & Hp' & Hin').
  destruct (serve_database r s')
    as [[Hstep Hn]|(_ & _ & _ & [[Hsame Hn]|[(q & Hins & Hn)
                                            |(f & j & Halt & Hact & Hn)]])].
  - split.
    + intros j q. rewrite Hn.
      destruct (step_products _ _ _ _ _ _ j Hstep) as [k ->].
      destruct (products (database s') !! j) as [q0|] eqn:Hq0; [|done].
      intros _. by eapply Hf'.
    + destruct (step_products _ _ _ _ _ _ id Hstep) as [k ->].
      rewrite Hp'. by eexists.
  - split.
    + intros j q. rewrite Hn, Hsame. apply Hf'.
    + exists p'. by rewrite Hsame.
  - assert (id ≠ products_auto_increment s')
      by (apply Hf' in Hp'; lia).
    split.
    + intros j q0. rewrite Hn, Hins, lookup_insert.
      case_decide; [intros _; lia|]. intros Hj%Hf'. lia.
    + exists p'. by rewrite Hins, lookup_insert_ne.
  - split.
    + intros i q0. rewrite Hn, Halt. intros Hi.
      assert (is_Some (products (database s') !! i)) as [q1 Hq1]
        by (eapply lookup_alter_is_Some; eauto).
      by eapply Hf'.
    + rewrite Halt. destruct (decide (j = id)) as [->|Hne].
      * rewrite lookup_alter_eq, Hp'. eexists. split; [done|].
        destruct (Hact p') as [?|?]; congruence.
      * exists p'. by rewrite lookup_alter_ne.
Qed.

(** C4.  Cancelling an order of the caller that is placed or confirmed
    succeeds, leaves it with [order_status] cancelled and raises the stock
    of every product by exactly the quantity the order's rows of
    [order_items] record for it, whatever the stock is at that time.  For an
    order created by the create route, which took the cart's quantity from
    every stock, these rows record the cart's quantities whatever requests
    (orders, cancellations, payments, changes of products by the admin) the
    shop has served since: cancelling credits every product with what the
    cart took from it, and when the [products] table is still as the order
    left it, it is again as it was before the order. *)
Theorem cancelOrder_restores_stock :
  (∀ id user_id d o,
     orders d !! id = Some o →
     Order.user_id o = user_id →
     Order.order_status o ∈ [placed; confirmed] →
     ∃ d' o',
       cancelOrder id user_id d = (OrderCancelled, d')
       ∧ orders d' !! id = Some o'
       ∧ Order.order_status o' = cancelled
       ∧ ∀ pid p,
           products d !! pid = Some p →
           ∃ p', products d' !! pid = Some p'
                 ∧ Product.stock p'
                   = Product.stock p
                     + recorded_quantity pid (select_order_items d id))
  ∧ (∀ gw user_id body s data d1 s',
       consistent (database s) →
       placeOrder isMobilePhone RAZORPAY_KEY_ID gw user_id body (database s)
       = (OrderCreated data, d1) →
       serves isMobilePhone RAZORPAY_KEY_ID RAZORPAY_KEY_SECRET
         hmac_sha256_hex jwt_verify isEmail normalizeEmail bcrypt_hash
         jwt_sign (λ _, True) (set_database d1 s) s' →
       (∀ pid p,
          products (database s) !! pid = Some p →
          ∃ p1, products d1 !! pid = Some p1
                ∧ Product.stock p1
                  = Product.stock p
                    - cart_quantity pid (CreateBody.items body))
       ∧ (∀ pid,
            recorded_quantity pid
              (select_order_items (database s') (Created.order_id data))
            = cart_quantity pid (CreateBody.items body))
       ∧ ∀ o,
           orders (database s') !! Created.order_id data = Some o →
           Order.user_id o = user_id →
           Order.order_status o ∈ [placed; confirmed] →
           ∃ d2 o2,
             cancelOrder (Created.order_id data) user_id (database s')
             = (OrderCancelled, d2)
             ∧ orders d2 !! Created.order_id data = Some o2
             ∧ Order.order_status o2 = cancelled
             ∧ (∀ pid p,
                  products (database s') !! pid = Some p →
                  ∃ p', products d2 !! pid = Some p'
                        ∧ Product.stock p'
                          = Product.stock p
                            + cart_quantity pid (CreateBody.items body))
             ∧ (products (database s') = products d1 →
                products d2 = products (database s))).
Proof.
  assert (Hcancel : ∀ id user_id d o,
     orders d !! id = Some o →
     Order.user_id o = user_id →
     Order.order_status o ∈ [placed; confirmed] →
     ∃ d' o',
       cancelOrder id user_id d = (OrderCancelled, d')
       ∧ orders d' !! id = Some o'
       ∧ Order.order_status o' = cancelled
       ∧ ∀ pid p,
           products d !! pid = Some p →
           ∃ p', products d' !! pid = Some p'
                 ∧ Product.stock p'
                   = Product.stock p
                     + recorded_quantity pid (select_order_items d id)).
  { intros id user_id d o Ho Hu Hs.
    exists (cancelled_state id d), (Order.set_order_status cancelled o).
    split; [by eapply cancelOrder_cancellable|].
    split; [by rewrite cancelled_state_orders, lookup_alter_eq, Ho|].
    split; [done|].
    intros pid p Hp. rewrite cancelled_state_products, Hp. by eexists. }
  split; [exact Hcancel|].
  intros gw user_id body s data d1 s' Hc Hrun Hserves.
  assert (Hc1 : consistent d1).
  { eapply (step_consistent isMobilePhone RAZORPAY_KEY_ID
              RAZORPAY_KEY_SECRET hmac_sha256_hex); [exact Hc|].
    replace d1 with (placeOrder isMobilePhone RAZORPAY_KEY_ID gw user_id
                       body (database s)).2 by (by rewrite Hrun).
    apply step_create. }
  destruct Hc as [Hlt Hfk].
  apply placeOrder_created in Hrun
    as (lines & rows & _ & Hread & Hrows & Hid & _ & _ & _ & _ & Hi
        & Hstock & Hn).
  assert (Hsel : select_order_items d1 (Created.order_id data) = rows).
  { eapply select_order_items_fresh; [|exact Hi|done].
    intros row [o0 Hrow]%Hfk Heq. rewrite Heq, Hid in Hrow.
    apply Hlt in Hrow. lia. }
  assert (Hqty : ∀ pid, recorded_quantity pid rows
                        = cart_quantity pid (CreateBody.items body)).
  { intros pid. rewrite (row_of_quantity _ _ _ _ Hrows).
    by eapply read_line_quantity. }
  destruct (serves_order_rows (set_database d1 s) s' Hc1 Hserves)
    as (_ & _ & Hkept).
  cbn [set_database database] in Hkept.
  specialize (Hkept (Created.order_id data)). rewrite Hsel in Hkept.
  rewrite Hn, Hid in Hkept. specialize (Hkept ltac:(lia)).
  rewrite <- Hid in Hkept.
  split; [|split].
  - intros pid p Hp. rewrite Hstock, Hp. by eexists.
  - intros pid. by rewrite Hkept.
  - intros o Ho Hu Hs.
    destruct (Hcancel _ _ _ _ Ho Hu Hs) as (d2 & o2 & Hrun2 & Ho2 & Hs2 & Hp2).
    exists d2, o2. do 3 (split; [done|]). split.
    + intros pid p Hp. destruct (Hp2 pid p Hp) as (p' & Hp' & Hst).
      exists p'. split; [done|]. by rewrite Hst, Hkept, Hqty.
    + intros Hsame.
      apply cancelOrder_cancelled in Hrun2 as (_ & _ & _ & _ & ->).
      apply map_eq. intros pid.
      rewrite cancelled_state_products, Hkept, Hqty, Hsame, Hstock.
      destruct (products (database s) !! pid) as [p|]; simpl; [|done].
      f_equal. destruct p; unfold Product.set_stock; simpl. f_equal. lia.
Qed.

(** X6.  DELETE /api/products/:id is a soft delete.  The row stays in
    [products] with all its columns but [is_active], every other row and
    table is untouched, and no later request puts the product back on sale:
    whatever requests the shop serves afterwards, the row is there with
    [is_active] false, GET /api/products/:id answers 404 for the id, and an
    order whose cart names the id is refused by the create route, which
    answers with an error and changes nothing. *)
Theorem deleteProduct_hides_product id s p :
  catalogue_fresh s →
  products (database s) !! id = Some p →
  ∃ s1 p1,
    deleteProduct id s = (ProductDeleted, s1)
    ∧ products (database s1) !! id = Some p1
    ∧ Product.is_active p1 = false
    ∧ p1 = deactivate p
    ∧ Product.name p1 = Product.name p
    ∧ Product.price p1 = Product.price p
    ∧ Product.stock p1 = Product.stock p
    ∧ (∀ j, j ≠ id →
            products (database s1) !! j = products (database s) !! j)
    ∧ orders (database s1) = orders (database s)
    ∧ order_items (database s1) = order_items (database s)
    ∧ users s1 = users s
    ∧ ∀ s',
        serves isMobilePhone RAZORPAY_KEY_ID RAZORPAY_KEY_SECRET
          hmac_sha256_hex jwt_verify isEmail normalizeEmail bcrypt_hash
          jwt_sign (λ _, True) s1 s' →
        (∃ p', products (database s') !! id = Some p'
               ∧ Product.is_active p' = false)
        ∧ getProduct id s' = GetProductMissing
        ∧ ∀ gw user_id body,
            id ∈ Item.product_id <$> CreateBody.items body →
            ∃ r,
              placeOrder isMobilePhone RAZORPAY_KEY_ID gw user_id body
                (database s') = (r, database s')
              ∧ ∀ data, r ≠ OrderCreated data.
Proof.
  intros Hf Hp. eexists _, (deactivate p). split.
  { unfold deleteProduct. rewrite Hp. reflexivity. }
  simpl.
  assert (Hid : alter deactivate id (products (database s)) !! id
                = Some (deactivate p))
    by (by rewrite lookup_alter_eq, Hp).
  split; [done|]. do 5 (split; [done|]).
  split; [intros j Hj; by rewrite lookup_alter_ne|].
  do 3 (split; [done|]).
  intros s' Hserves.
  eapply serves_inactive in Hserves as (_ & p' & Hp' & Hinactive);
    [| |exact Hid|done].
  2: { intros j q. simpl. intros Hj.
       assert (is_Some (products (database s) !! j)) as [q0 Hq0]
         by (eapply lookup_alter_is_Some; eauto).
       by eapply Hf. }
  split; [by exists p'|]. split.
  - unfold getProduct, select_active_product. by rewrite Hp', Hinactive.
  - intros gw user_id body Hin. by eapply placeOrder_inactive_refused.
Qed.

End StoreSteps.

(** ** The properties above on the market of the scenarios *)

Lemma market_users_fresh stock : users_fresh (Market.open stock).
Proof.
  intros id u. unfold Market.open, Market.accounts. simpl.
  intros H. apply lookup_insert_Some in H as [[<- _]|[_ H]]; [lia|].
  apply lookup_singleton_Some in H as [<- _]. lia.
Qed.

Lemma market_catalogue_fresh stock : catalogue_fresh (Market.open stock).
Proof.
  intros id p. simpl. intros H.
  apply lookup_singleton_Some in H as [<- _]. lia.
Qed.

Lemma shop_consistent stock : consistent (Sample.shop stock).
Proof.
  split; simpl.
  - intros id o. rewrite lookup_empty. discriminate.
  - intros row Hrow. apply elem_of_nil in Hrow. destruct Hrow.
Qed.

Lemma shop_rows_positive stock : rows_positive (Sample.shop stock).
Proof. intros row Hrow. apply elem_of_nil in Hrow. destruct Hrow. Qed.

Lemma shop_totals_match stock : totals_match (Sample.shop stock).
Proof. intros id o. simpl. rewrite lookup_empty. discriminate. Qed.

Lemma shop_stock_nonneg : stock_nonneg (Sample.shop 5).
Proof.
  intros id p. simpl. intros H.
  apply lookup_singleton_Some in H as [_ <-]. simpl. lia.
Qed.

Lemma verifyToken_bearer_optional_witness :
  contains_char space "token-42" = false
  ∧ verifyToken Market.jwt_verify (Some ("Bearer " ++ "token-42")%string)
      (Market.open 5)
    = verifyToken Market.jwt_verify (Some "token-42") (Market.open 5).
Proof.
  split; [reflexivity|].
  apply verifyToken_bearer_optional. reflexivity.
Defined.

Lemma serve_needs_rights_witness :
  ∃ user u,
    verifyToken Market.jwt_verify Market.as_owner (Market.open 5) = inr user
    ∧ users (Market.open 5) !! ReqUser.user_id user = Some u
    ∧ User.is_active u = true
    ∧ ReqUser.role user = User.role u
    ∧ User.role u = User.admin.
Proof.
  destruct (serve_needs_rights Sample.isMobilePhone Sample.key_id
              Sample.key_secret Sample.hmac Market.jwt_verify Market.isEmail
              Market.normalizeEmail Market.bcrypt_hash Market.jwt_sign
              (DeleteProducts Market.as_owner 7) (Market.open 5))
    as [(salt & iat & body & Hr)|(user & u & Hv & Hu & Ha & Hrole & Hright)].
  - intros Hsame.
    apply (f_equal (λ s, Product.is_active
                           <$> products (database s) !! 7)) in Hsame.
    vm_compute in Hsame. discriminate.
  - discriminate.
  - exists user, u. repeat split; try done.
    destruct Hright as [Hadmin|[[_ []]|(a & body & Hr)]];
      [done | discriminate].
Defined.

Lemma addProduct_then_getProduct_witness :
  ∃ p,
    getProduct 8
      (addProduct (Some "paneer.jpg") Market.paneer (Market.open 5)).2
    = ProductFound p
    ∧ Product.name p = "Malai Paneer"
    ∧ Product.stock p = 20
    ∧ Product.image_url p = Some (upload_url "paneer.jpg").
Proof.
  destruct (addProduct_then_getProduct (Some "paneer.jpg") Market.paneer
              (Market.open 5) 8 (Some (upload_url "paneer.jpg"))
              (addProduct (Some "paneer.jpg") Market.paneer
                 (Market.open 5)).2)
    as [(p & Hget & Hname & _ & _ & Hstock & _ & _ & Himage & _) _].
  - apply market_catalogue_fresh.
  - vm_compute. reflexivity.
  - exists p. repeat split; assumption.
Defined.


Lemma cancelOrder_twice_witness :
  cancelOrder 1 Sample.customer
    (cancelOrder 1 Sample.customer Sample.ordered).2
  = (CannotBeCancelled, (cancelOrder 1 Sample.customer Sample.ordered).2).
Proof.
  apply (cancelOrder_twice 1 Sample.customer Sample.ordered).
  vm_compute. reflexivity.
Defined.

Lemma verifyPayment_effect_witness :
  ∃ d',
    verifyPayment Sample.key_secret Sample.hmac Sample.customer
      Sample.callback (Sample.moved delivered)
    = (PaymentVerified, d')
    ∧ orders d' !! 1
      = Some (Order.mk Sample.customer 18000 completed (Some "pay_1")
                confirmed "12 Farm Road, Pune" "9876543210")
    ∧ products d' = products (Sample.moved delivered).
Proof.
  destruct (verifyPayment_effect Sample.key_secret Sample.hmac
              Sample.customer Sample.callback (Sample.moved delivered)
              (Order.set_order_status delivered Sample.order1))
    as (d' & Hrun & Horder & _ & Hproducts & _).
  - reflexivity.
  - vm_compute. reflexivity.
  - reflexivity.
  - exists d'. split; [exact Hrun|]. split; [exact Horder | exact Hproducts].
Defined.

Lemma cancel_verify_cancel_credits_twice_witness :
  Product.stock <$> products Sample.ordered !! 7 = Some 2
  ∧ ∃ d2 d3,
      verifyPayment Sample.key_secret Sample.hmac Sample.customer
        Sample.callback (cancelOrder 1 Sample.customer Sample.ordered).2
      = (PaymentVerified, d2)
      ∧ cancelOrder 1 Sample.customer d2 = (OrderCancelled, d3)
      ∧ Product.stock <$> products d3 !! 7 = Some 8.
Proof.
  split; [vm_compute; reflexivity|].
  destruct (cancel_verify_cancel_credits_twice Sample.key_secret
              Sample.hmac Sample.customer Sample.callback Sample.ordered
              (cancelOrder 1 Sample.customer Sample.ordered).2)
    as (d2 & d3 & o2 & Hverify & _ & _ & _ & Hcancel & Hstock).
  - reflexivity.
  - vm_compute. reflexivity.
  - exists d2, d3. split; [exact Hverify|]. split; [exact Hcancel|].
    rewrite (Hstock 7). vm_compute. reflexivity.
Defined.

Lemma placeOrder_reports_first_failure_witness :
  placeOrder Sample.isMobilePhone Sample.key_id Sample.gateway_up
    Sample.customer Sample.cart (Sample.shop 2)
  = (InsufficientStock "Fresh Cow Milk" 2, Sample.shop 2).
Proof.
  apply (placeOrder_reports_first_failure Sample.isMobilePhone
           Sample.key_id Sample.gateway_up Sample.customer Sample.cart
           (Sample.shop 2) [] (Item.mk 7 3) []).
  - vm_compute. reflexivity.
  - reflexivity.
  - constructor.
  - intros (p & Hp & _ & Hle). vm_compute in Hp.
    injection Hp as <-. simpl in Hle. lia.
Defined.

Lemma store_invariants_witness :
  database
    (serve Sample.isMobilePhone Sample.key_id Sample.key_secret Sample.hmac
       Market.jwt_verify Market.isEmail Market.normalizeEmail
       Market.bcrypt_hash Market.jwt_sign
       (PostOrdersCreate Market.as_asha Sample.gateway_up Sample.cart)
       (Market.open 5))
  = Sample.ordered
  ∧ consistent Sample.ordered
  ∧ rows_positive Sample.ordered
  ∧ totals_match Sample.ordered.
Proof.
  assert (Hrun :
    database
      (serve Sample.isMobilePhone Sample.key_id Sample.key_secret
         Sample.hmac Market.jwt_verify Market.isEmail Market.normalizeEmail
         Market.bcrypt_hash Market.jwt_sign
         (PostOrdersCreate Market.as_asha Sample.gateway_up Sample.cart)
         (Market.open 5))
    = Sample.ordered) by (vm_compute; reflexivity).
  split; [exact Hrun|]. rewrite <- Hrun.
  destruct (store_invariants Sample.isMobilePhone Sample.key_id
              Sample.key_secret Sample.hmac Market.jwt_verify Market.isEmail
              Market.normalizeEmail Market.bcrypt_hash Market.jwt_sign
              (Market.open 5)
              (serve Sample.isMobilePhone Sample.key_id Sample.key_secret
                 Sample.hmac Market.jwt_verify Market.isEmail
                 Market.normalizeEmail Market.bcrypt_hash Market.jwt_sign
                 (PostOrdersCreate Market.as_asha Sample.gateway_up
                    Sample.cart)
                 (Market.open 5)))
    as (Hc & _ & Hpos & Htot).
  - apply shop_consistent.
  - apply market_catalogue_fresh.
  - apply shop_rows_positive.
  - apply shop_totals_match.
  - apply serves_more; [apply serves_none | exact I].
  - split; [exact Hc|]. split; [exact Hpos | exact Htot].
Defined.

Lemma stock_stays_nonneg_witness :
  stock_nonneg
    (database
       (serve Sample.isMobilePhone Sample.key_id Sample.key_secret
          Sample.hmac Market.jwt_verify Market.isEmail Market.normalizeEmail
          Market.bcrypt_hash Market.jwt_sign
          (PostOrdersCreate Market.as_asha Sample.gateway_up Sample.cart)
          (Market.open 5))).
Proof.
  apply (stock_stays_nonneg Sample.isMobilePhone Sample.key_id
           Sample.key_secret Sample.hmac Market.jwt_verify Market.isEmail
           Market.normalizeEmail Market.bcrypt_hash Market.jwt_sign
           (Market.open 5)).
  - apply shop_consistent.
  - apply market_catalogue_fresh.
  - apply shop_rows_positive.
  - apply shop_totals_match.
  - apply shop_stock_nonneg.
  - apply serves_more; [apply serves_none|].
    simpl. apply (bool_decide_unpack _). vm_compute. exact I.
Defined.

Lemma pagination_links_witness :
  Pagination.totalPages (pagination (Some "2") (Some "10") 25) = 3
  ∧ (Pagination.hasNext (pagination (Some "2") (Some "10") 25) = true
     ↔ Pagination.currentPage (pagination (Some "2") (Some "10") 25)
       < Pagination.totalPages (pagination (Some "2") (Some "10") 25))
  ∧ (Pagination.hasPrev (pagination (Some "2") (Some "10") 25) = true
     ↔ 1 < Pagination.currentPage (pagination (Some "2") (Some "10") 25)).
Proof.
  split; [vm_compute; reflexivity|].
  destruct (pagination_links (Some "2") (Some "10") 25)
    as (Hnext & Hprev & _); [lia|].
  split; [exact Hnext | exact Hprev].
Defined.

Lemma register_effect_witness :
  register Market.isEmail Market.normalizeEmail Sample.isMobilePhone
    Market.bcrypt_hash Market.jwt_sign "salt" 0 Market.ravi (Market.open 5)
  = (UserRegistered Market.ravi_user "token-new",
     (register Market.isEmail Market.normalizeEmail Sample.isMobilePhone
        Market.bcrypt_hash Market.jwt_sign "salt" 0 Market.ravi
        (Market.open 5)).2)
  ∧ database
      (register Market.isEmail Market.normalizeEmail Sample.isMobilePhone
         Market.bcrypt_hash Market.jwt_sign "salt" 0 Market.ravi
         (Market.open 5)).2
    = Sample.shop 5
  ∧ users_fresh
      (register Market.isEmail Market.normalizeEmail Sample.isMobilePhone
         Market.bcrypt_hash Market.jwt_sign "salt" 0 Market.ravi
         (Market.open 5)).2.
Proof.
  assert (Hrun :
    register Market.isEmail Market.normalizeEmail Sample.isMobilePhone
      Market.bcrypt_hash Market.jwt_sign "salt" 0 Market.ravi (Market.open 5)
    = (UserRegistered Market.ravi_user "token-new",
       (register Market.isEmail Market.normalizeEmail Sample.isMobilePhone
          Market.bcrypt_hash Market.jwt_sign "salt" 0 Market.ravi
          (Market.open 5)).2)) by (vm_compute; reflexivity).
  split; [exact Hrun|].
  destruct (register_effect Market.isEmail Market.normalizeEmail
              Sample.isMobilePhone Market.bcrypt_hash Market.jwt_sign
              "salt" 0 Market.ravi (Market.open 5) _ _
              (market_users_fresh 5) Hrun)
    as (Hd & _ & Hfresh & _).
  split; [exact Hd | exact Hfresh].
Defined.

Lemma register_then_login_witness :
  login Market.isEmail Market.normalizeEmail Market.bcrypt_compare
    Market.jwt_sign 9 (LoginBody.mk "ravi@dairy.example" "secret2")
    (register Market.isEmail Market.normalizeEmail Sample.isMobilePhone
       Market.bcrypt_hash Market.jwt_sign "salt" 0 Market.ravi
       (Market.open 5)).2
  = LoginSuccessful Market.ravi_user "token-new".
Proof.
  refine (proj1 (register_then_login Market.isEmail Market.normalizeEmail
                   Sample.isMobilePhone Market.bcrypt_hash
                   Market.bcrypt_compare Market.jwt_sign Market.jwt_verify
                   "salt" 0 Market.ravi (Market.open 5) Market.ravi_user
                   "token-new" _ 9 (market_users_fresh 5) _ _)).
  - vm_compute. reflexivity.
  - vm_compute. reflexivity.
Defined.

Lemma login_sound_witness :
  ∃ u,
    users (Market.open 5) !! 42 = Some u
    ∧ User.is_active u = true
    ∧ Market.bcrypt_compare "secret1" (User.password u) = true.
Proof.
  destruct (login_sound Market.isEmail Market.normalizeEmail
              Market.bcrypt_compare Market.jwt_sign 9 Market.asha_login
              (Market.open 5) Market.asha_user "token-42")
    as (u & Hu & _ & Ha & Hc & _).
  - vm_compute. reflexivity.
  - exists u. split; [exact Hu|]. split; [exact Ha | exact Hc].
Defined.

Lemma updateProfile_effect_witness :
  ∃ u',
    users (updateProfile Sample.isMobilePhone Market.rename Market.asha_req
             (Market.open 5)).2 !! 42 = Some u'
    ∧ same_account Market.asha u'
    ∧ User.name u' = "Asha K"
    ∧ User.phone u' = Some "9876543210".
Proof.
  destruct (updateProfile_effect Sample.isMobilePhone Market.rename
              Market.asha_req (Market.open 5) ProfileUpdated
              (updateProfile Sample.isMobilePhone Market.rename
                 Market.asha_req (Market.open 5)).2)
    as (_ & _ & _ & _ & Hown & _).
  - vm_compute. reflexivity.
  - destruct (Hown Market.asha) as (u' & Hu' & Hsame & Hnew);
      [reflexivity|].
    destruct (Hnew eq_refl) as [Hname Hphone].
    exists u'. split; [exact Hu'|]. split; [exact Hsame|].
    split; [exact Hname | exact Hphone].
Defined.

Lemma accounts_preserved_witness :
  users_fresh
    (serve Sample.isMobilePhone Sample.key_id Sample.key_secret Sample.hmac
       Market.jwt_verify Market.isEmail Market.normalizeEmail
       Market.bcrypt_hash Market.jwt_sign
       (PostAuthRegister "salt" 0 Market.ravi) (Market.open 5))
  ∧ (∃ u',
       users
         (serve Sample.isMobilePhone Sample.key_id Sample.key_secret
            Sample.hmac Market.jwt_verify Market.isEmail
            Market.normalizeEmail Market.bcrypt_hash Market.jwt_sign
            (PostAuthRegister "salt" 0 Market.ravi) (Market.open 5)) !! 1
       = Some u'
       ∧ same_account Market.owner u')
  ∧ User.role
      <$> users
            (serve Sample.isMobilePhone Sample.key_id Sample.key_secret
               Sample.hmac Market.jwt_verify Market.isEmail
               Market.normalizeEmail Market.bcrypt_hash Market.jwt_sign
               (PostAuthRegister "salt" 0 Market.ravi) (Market.open 5)) !! 43
    = Some User.farmer.
Proof.
  destruct (accounts_preserved Sample.isMobilePhone Sample.key_id
              Sample.key_secret Sample.hmac Market.jwt_verify Market.isEmail
              Market.normalizeEmail Market.bcrypt_hash Market.jwt_sign
              (Market.open 5)
              (serve Sample.isMobilePhone Sample.key_id Sample.key_secret
                 Sample.hmac Market.jwt_verify Market.isEmail
                 Market.normalizeEmail Market.bcrypt_hash Market.jwt_sign
                 (PostAuthRegister "salt" 0 Market.ravi) (Market.open 5)))
    as (Hfresh & Hkeep & _).
  - apply market_users_fresh.
  - apply serves_more; [apply serves_none | exact I].
  - split; [exact Hfresh|]. split; [apply Hkeep; reflexivity|].
    vm_compute. reflexivity.
Defined.

Lemma cancelOrder_restores_stock_witness :
  Product.stock
    <$> products
          (database
             (serve Sample.isMobilePhone Sample.key_id Sample.key_secret
                Sample.hmac Market.jwt_verify Market.isEmail
                Market.normalizeEmail Market.bcrypt_hash Market.jwt_sign
                (PutProducts Market.as_owner 7 None Market.buffalo_milk)
                Market.busy)) !! 7
  = Some 9
  ∧ ∃ d2,
      cancelOrder 1 Sample.customer
        (database
           (serve Sample.isMobilePhone Sample.key_id Sample.key_secret
              Sample.hmac Market.jwt_verify Market.isEmail
              Market.normalizeEmail Market.bcrypt_hash Market.jwt_sign
              (PutProducts Market.as_owner 7 None Market.buffalo_milk)
              Market.busy))
      = (OrderCancelled, d2)
      ∧ Order.order_status <$> orders d2 !! 1 = Some cancelled
      ∧ Product.stock <$> products d2 !! 7 = Some 12.
Proof.
  split; [vm_compute; reflexivity|].
  destruct (proj2 (cancelOrder_restores_stock Sample.isMobilePhone
                     Sample.key_id Sample.key_secret Sample.hmac
                     Market.jwt_verify Market.isEmail Market.normalizeEmail
                     Market.bcrypt_hash Market.jwt_sign)
              Sample.gateway_up Sample.customer Sample.cart (Market.open 5)
              Sample.receipt Sample.ordered
              (serve Sample.isMobilePhone Sample.key_id Sample.key_secret
                 Sample.hmac Market.jwt_verify Market.isEmail
                 Market.normalizeEmail Market.bcrypt_hash Market.jwt_sign
                 (PutProducts Market.as_owner 7 None Market.buffalo_milk)
                 Market.busy))
    as (_ & _ & Hcancel).
  - apply shop_consistent.
  - vm_compute. reflexivity.
  - apply (serves_more _ _ _ _ _ _ _ _ _ _ Market.busy);
      [apply serves_none | exact I].
  - destruct (Hcancel Sample.order1)
      as (d2 & o2 & Hrun & Ho2 & Hs2 & Hstock & _).
    + vm_compute. reflexivity.
    + reflexivity.
    + apply (bool_decide_unpack _). vm_compute. exact I.
    + change (Created.order_id Sample.receipt) with 1 in *.
      exists d2. split; [exact Hrun|]. split.
      * rewrite Ho2. simpl. by rewrite Hs2.
      * edestruct (Hstock 7) as (p' & Hp' & Hst); [vm_compute; reflexivity|].
        rewrite Hp'. simpl. rewrite Hst. vm_compute. reflexivity.
Defined.

Lemma deleteProduct_hides_product_witness :
  Product.is_active
    <$> products
          (database
             (serve Sample.isMobilePhone Sample.key_id Sample.key_secret
                Sample.hmac Market.jwt_verify Market.isEmail
                Market.normalizeEmail Market.bcrypt_hash Market.jwt_sign
                (PutProducts Market.as_owner 7 None Market.buffalo_milk)
                (deleteProduct 7 (Market.open 5)).2)) !! 7
  = Some false
  ∧ getProduct 7
      (serve Sample.isMobilePhone Sample.key_id Sample.key_secret
         Sample.hmac Market.jwt_verify Market.isEmail Market.normalizeEmail
         Market.bcrypt_hash Market.jwt_sign
         (PutProducts Market.as_owner 7 None Market.buffalo_milk)
         (deleteProduct 7 (Market.open 5)).2)
    = GetProductMissing.
Proof.
  destruct (deleteProduct_hides_product Sample.isMobilePhone Sample.key_id
              Sample.key_secret Sample.hmac Market.jwt_verify Market.isEmail
              Market.normalizeEmail Market.bcrypt_hash Market.jwt_sign
              7 (Market.open 5) (Sample.cow_milk 5))
    as (s1 & p1 & Hrun & _ & _ & _ & _ & _ & _ & _ & _ & _ & _ & Hlater).
  - apply market_catalogue_fresh.
  - reflexivity.
  - rewrite Hrun. cbn [snd].
    destruct (Hlater
                (serve Sample.isMobilePhone Sample.key_id Sample.key_secret
                   Sample.hmac Market.jwt_verify Market.isEmail
                   Market.normalizeEmail Market.bcrypt_hash Market.jwt_sign
                   (PutProducts Market.as_owner 7 None Market.buffalo_milk)
                   s1))
      as ((p' & Hp' & Hinactive) & Hget & _).
    + apply serves_more; [apply serves_none | exact I].
    + split; [|exact Hget]. rewrite Hp'. simpl. by rewrite Hinactive.
Defined.


(** The page numbers the doubles cannot tell apart, and an offset that is
    not SQL any more. *)
Lemma pageNum_rounds :
  pageNum (Some "9007199254740993") = 9007199254740992
  ∧ pageNum (Some "9007199254740995") = 9007199254740996
  ∧ products_page (Some "1000000000000000000000") None [10; 20; 30]
    = ServerErrorFetchingProducts
  ∧ products_page (Some "9007199254740993") (Some "1") [10; 20; 30]
    = ProductsPage []
        (Pagination.mk 9007199254740992 3 3 false true).
Proof. repeat split; vm_compute; reflexivity. Qed.
